(** * Activity-based costing dashboard (v3.py): the allocation engine
      and the tables of the dashboard

    A shallow embedding of [v3.py]:
    - lines 33-37, the choice of the two sheets of the workbook;
    - lines 39-138, the engine: validation of the cost-pool sheet, the
      driver-units index, the rate per driver unit, the flight x activity
      allocation, the summary by type and the time-period classification;
    - lines 141-331, the data behind the dashboard: the merge of the totals
      into the table of the visuals, the choices of the filters, the
      filtered tables, the four figures, the top flights and the tables of
      the charts.
    Left out: the upload widget itself, the rounding and the formatting of
    what is displayed, the drawing of the charts and the export (lines
    344-392).

    Conventions of the embedding.
    - A float64 is a [num]: a rational (arithmetic is exact, rounding and
      overflow are not modelled) or NaN, pandas' missing value.
    - A cell or a label is a [value]: a number, a text, a timestamp or NaT.
    - A pandas Series (a row, a dict) is an ordered association list from
      labels to cells; a DataFrame is its column labels and its rows.
    - DataFrames are mutable objects: they live in a [heap] and the script
      [main] is written in a state-and-exception monad over it.
    - Python's [str] of a non-text value and pandas' [to_datetime] are
      library functions taken as parameters ([py_repr], [to_datetime]).
    - Text is ASCII: [strip] removes Python's ASCII whitespace.
    - The order pandas gives to rows of equal sort key, and the order of
      the groups of a [groupby], are parameters of the dashboard
      ([sort_desc], [group_order]); the theorems assume of them only
      that the first sorts in descending order, missing values last, and
      that the second lists each group once. *)

From Stdlib Require Import ZArith QArith Qcanon Ascii String.
From stdpp Require Import base option strings numbers list gmap.

(** ** Numbers: float64 with exact arithmetic *)

Inductive num := NaN | Fin (q : Qc).

#[global] Instance num_eq_dec : EqDecision num.
Proof. solve_decision. Defined.

Definition num_add (a b : num) : num :=
  match a, b with Fin x, Fin y => Fin (x + y)%Qc | _, _ => NaN end.

Definition num_mul (a b : num) : num :=
  match a, b with Fin x, Fin y => Fin (x * y)%Qc | _, _ => NaN end.

(** True division by a divisor already known to be nonzero. *)
Definition num_div (a b : num) : num :=
  match a, b with Fin x, Fin y => Fin (x / y)%Qc | _, _ => NaN end.

Definition is_nan (a : num) : bool :=
  match a with NaN => true | Fin _ => false end.

(** [a == 0] on floats: NaN compares unequal to everything. *)
Definition num_is_zero (a : num) : bool :=
  match a with NaN => false | Fin q => bool_decide (q = 0%Qc) end.

(** ** Cells and labels *)

Record Timestamp := mkTimestamp {
  day_number : Z;
  hour : Z;
  minute : Z;
  second : Z
}.

#[global] Instance Timestamp_eq_dec : EqDecision Timestamp.
Proof. solve_decision. Defined.

Inductive value :=
  | VNum (x : num)
  | VStr (s : string)
  | VTime (t : Timestamp)
  | VNaT.

#[global] Instance value_eq_dec : EqDecision value.
Proof. solve_decision. Defined.

(** The int literal [0]. *)
Definition zero : value := VNum (Fin 0%Qc).

(** [pd.isna] / [pd.notna] on a scalar. *)
Definition isna (v : value) : bool :=
  match v with VNum NaN | VNaT => true | _ => false end.

Definition notna (v : value) : bool := negb (isna v).

(** ** Outcomes of a computation *)

Inductive exn := KeyError | IndexError | TypeError | ZeroDivisionError | AttributeError.

#[global] Instance exn_eq_dec : EqDecision exn.
Proof. solve_decision. Defined.

(** [Stopped msg]: [st.error(msg)] followed by [st.stop()]. *)
Inductive result (A : Type) :=
  | Ok (a : A)
  | Raise (e : exn)
  | Stopped (msg : string).

Arguments Ok {A} a.
Arguments Raise {A} e.
Arguments Stopped {A} msg.

#[global] Instance result_eq_dec {A} `{EqDecision A} : EqDecision (result A).
Proof. solve_decision. Defined.

#[global] Instance result_ret : MRet result := fun A a => Ok a.

#[global] Instance result_bind : MBind result := fun A B f m =>
  match m with
  | Ok a => f a
  | Raise e => Raise e
  | Stopped msg => Stopped msg
  end.

#[global] Instance result_fmap : FMap result := fun A B f m =>
  match m with
  | Ok a => Ok (f a)
  | Raise e => Raise e
  | Stopped msg => Stopped msg
  end.

(** [[f(x) for x in l]] where [f] may raise: the first failure wins. *)
Fixpoint mapR {A B} (f : A -> result B) (l : list A) : result (list B) :=
  match l with
  | [] => Ok []
  | x :: l' => y ← f x; ys ← mapR f l'; Ok (y :: ys)
  end.

(** An outcome that is neither a division error nor a stop of the script. *)
Definition benign {A} (r : result A) : Prop :=
  match r with
  | Ok _ => True
  | Raise x => x <> ZeroDivisionError
  | Stopped _ => False
  end.

(** ** Python operators on cells *)

(** [a * b] with a float on the right: a text or a timestamp on the left
    raises.  (The rate is a float as soon as one activity has driver units;
    a text times the int 0, which Python evaluates to the empty text, is
    left out.) *)
Definition py_mul (a b : value) : result value :=
  match a, b with
  | VNum x, VNum y => Ok (VNum (num_mul x y))
  | _, _ => Raise TypeError
  end.

(** [a / b] on Python floats: a zero divisor raises. *)
Definition py_div (a b : value) : result value :=
  match a, b with
  | VNum x, VNum y =>
      if num_is_zero y then Raise ZeroDivisionError else Ok (VNum (num_div x y))
  | _, _ => Raise TypeError
  end.

(** [a != 0]. *)
Definition py_ne0 (a : value) : bool :=
  match a with VNum x => negb (num_is_zero x) | _ => true end.

(** Elementwise [a == b]: as the labels' equality except that a missing
    value equals nothing, itself included. *)
Definition py_eq (a b : value) : bool :=
  if isna a || isna b then false else bool_decide (a = b).

(** ** Text *)

(** Python's ASCII whitespace: tab, LF, VT, FF, CR, FS, GS, RS, US, space. *)
Definition is_space (c : ascii) : bool :=
  let n := nat_of_ascii c in
  ((9 <=? n) && (n <=? 13)) || ((28 <=? n) && (n <=? 32)).

Fixpoint lstrip (s : string) : string :=
  match s with
  | EmptyString => EmptyString
  | String c s' => if is_space c then lstrip s' else s
  end.

Fixpoint rstrip (s : string) : string :=
  match s with
  | EmptyString => EmptyString
  | String c s' =>
      match rstrip s' with
      | EmptyString => if is_space c then EmptyString else String c EmptyString
      | r => String c r
      end
  end.

(** [s.strip()] *)
Definition strip (s : string) : string := rstrip (lstrip s).

(** ** Series and dicts: ordered maps from labels to cells *)

Abbreviation Series := (list (value * value)).

Fixpoint series_lookup (k : value) (s : Series) : option value :=
  match s with
  | [] => None
  | (k', v) :: s' => if decide (k' = k) then Some v else series_lookup k s'
  end.

(** [s[k]] *)
Definition getitem (s : Series) (k : value) : result value :=
  match series_lookup k s with
  | Some v => Ok v
  | None => Raise KeyError
  end.

(** [s.get(k, default)] *)
Definition series_get (s : Series) (k default : value) : value :=
  match series_lookup k s with
  | Some v => v
  | None => default
  end.

(** [d[k] = v]: an existing key keeps its place, a new one goes last. *)
Fixpoint dict_set (k v : value) (d : Series) : Series :=
  match d with
  | [] => [(k, v)]
  | (k', v') :: d' =>
      if decide (k' = k) then (k', v) :: d' else (k', v') :: dict_set k v d'
  end.

(** [s.iloc[0]] *)
Definition iloc0 (s : Series) : result value :=
  match s with
  | [] => Raise IndexError
  | (_, v) :: _ => Ok v
  end.

(** [s.unique()]: the distinct cells in order of first appearance. *)
Fixpoint unique_from (seen l : list value) : list value :=
  match l with
  | [] => []
  | x :: l' =>
      if decide (x ∈ seen) then unique_from seen l'
      else x :: unique_from (x :: seen) l'
  end.

Definition unique (l : list value) : list value := unique_from [] l.

(** ** DataFrames *)

Record DataFrame := mkDataFrame {
  columns : list value;
  rows : list Series
}.

#[global] Instance DataFrame_eq_dec : EqDecision DataFrame.
Proof. solve_decision. Defined.

(** [pd.DataFrame()] *)
Definition empty_frame : DataFrame := mkDataFrame [] [].

(** [df[label]]: the column as the list of its cells. *)
Definition df_getitem (df : DataFrame) (label : value) : result (list value) :=
  if decide (label ∈ columns df)
  then Ok (map (fun r => series_get r label (VNum NaN)) (rows df))
  else Raise KeyError.

(** [df.drop(columns=[label])] *)
Definition df_drop (df : DataFrame) (label : value) : result DataFrame :=
  if decide (label ∈ columns df)
  then Ok {| columns := filter (fun c => c ≠ label) (columns df);
             rows := map (filter (fun kv => kv.1 ≠ label)) (rows df) |}
  else Raise KeyError.

(** [df[labels]]: the listed columns, in the order listed. *)
Definition df_select (df : DataFrame) (labels : list value) : result DataFrame :=
  if decide (labels ⊆ columns df)
  then Ok {| columns := labels;
             rows := map (fun r => map (fun c => (c, series_get r c (VNum NaN))) labels)
                         (rows df) |}
  else Raise KeyError.

(** The cell as a float, for a reduction. *)
Definition as_float (v : value) : result num :=
  match v with
  | VNum x => Ok x
  | _ => Raise TypeError
  end.

Definition sum_list (l : list num) : num := foldr num_add (Fin 0%Qc) l.

(** [nansum]: missing cells count as zero. *)
Definition nansum (l : list num) : num :=
  sum_list (map (fun x => if is_nan x then Fin 0%Qc else x) l).

(** The rational a cell counts for in a row sum, and sums of rationals. *)
Definition numQ (x : num) : Qc := match x with NaN => 0%Qc | Fin q => q end.

Definition sumQ (l : list Qc) : Qc := foldr Qcplus 0%Qc l.

(** [df.sum(axis=1)]: the sum of each row, skipping missing cells. *)
Definition df_sum_axis1 (df : DataFrame) : result (list value) :=
  mapR (fun r => xs ← mapR as_float (r.*2); Ok (VNum (nansum xs))) (rows df).

(** [pd.DataFrame(records)] for a list of dicts: the columns are the keys in
    order of first appearance, a key a record lacks reads as missing. *)
Definition records_columns (ds : list Series) : list value :=
  foldl (fun acc d => acc ++ filter (fun k => k ∉ acc) (d.*1)) [] ds.

Definition reindex (cols : list value) (d : Series) : Series :=
  map (fun c => (c, series_get d c (VNum NaN))) cols.

Definition DataFrame_from_records (ds : list Series) : DataFrame :=
  let cols := records_columns ds in
  {| columns := cols; rows := map (reindex cols) ds |}.

(** [df.iloc[-1]] *)
Definition iloc_last (df : DataFrame) : result Series :=
  match list.last (rows df) with
  | Some r => Ok r
  | None => Raise IndexError
  end.

(** [df.iloc[:-1]] *)
Definition iloc_init (df : DataFrame) : DataFrame :=
  {| columns := columns df; rows := removelast (rows df) |}.

(** A column has a numeric dtype when each of its cells is a float. *)
Definition is_number_column (df : DataFrame) (label : value) : bool :=
  forallb (fun r => match series_lookup label r with
                    | Some (VNum _) => true
                    | _ => false
                    end) (rows df).

(** [df.select_dtypes(include="number").columns] *)
Definition select_dtypes_number (df : DataFrame) : list value :=
  filter (fun c => is_number_column df c) (columns df).

(** [df[label] = vals] on the rows: the cell of row [i] becomes [vals[i]], a
    row beyond the end of [vals] gets a missing cell (index alignment). *)
Fixpoint assign_column (label : value) (rs : list Series) (vals : list value)
  : list Series :=
  match rs with
  | [] => []
  | r :: rs' =>
      dict_set label (hd (VNum NaN) vals) r :: assign_column label rs' (tl vals)
  end.

(** [df[label] = vals]; a frame that has no column yet takes the index of
    [vals]. *)
Definition df_setitem (df : DataFrame) (label : value) (vals : list value) : DataFrame :=
  {| columns := if decide (label ∈ columns df) then columns df
                else columns df ++ [label];
     rows := match columns df with
             | [] => map (fun v => [(label, v)]) vals
             | _ => assign_column label (rows df) vals
             end |}.

(** [df.iloc[:, 0]] *)
Definition df_iloc_col0 (df : DataFrame) : result (list value) :=
  match columns df with
  | [] => Raise IndexError
  | c :: _ => Ok (map (fun r => series_get r c (VNum NaN)) (rows df))
  end.

(** A loop whose body may raise. *)
Fixpoint foldlR {A B} (f : B -> A -> result B) (b : B) (l : list A) : result B :=
  match l with
  | [] => Ok b
  | x :: l' => b' ← f b x; foldlR f b' l'
  end.

(** ** The heap of DataFrame objects and the script monad *)

Abbreviation loc := nat.
Abbreviation heap := (list DataFrame).
Definition M (A : Type) : Type := heap -> result (A * heap).

#[global] Instance M_ret : MRet M := fun A a h => Ok (a, h).

#[global] Instance M_bind : MBind M := fun A B f m h =>
  match m h with
  | Ok (a, h') => f a h'
  | Raise e => Raise e
  | Stopped msg => Stopped msg
  end.

Definition liftR {A} (r : result A) : M A := fun h =>
  match r with
  | Ok a => Ok (a, h)
  | Raise e => Raise e
  | Stopped msg => Stopped msg
  end.

(** Reading the object a variable refers to. *)
Definition load (l : loc) : M DataFrame := fun h =>
  match h !! l with
  | Some df => Ok (df, h)
  | None => Raise KeyError
  end.

(** In-place mutation of an object. *)
Definition store (l : loc) (df : DataFrame) : M unit := fun h =>
  Ok (tt, <[l := df]> h).

(** A fresh object. *)
Definition alloc (df : DataFrame) : M loc := fun h =>
  Ok (length h, h ++ [df]).

(** [x.copy()] *)
Definition df_copy (l : loc) : M loc := df ← load l; alloc df.

(** [x[label] = vals] *)
Definition setitem (l : loc) (label : value) (vals : list value) : M unit :=
  df ← load l; store l (df_setitem df label vals).

(** [st.error(msg); st.stop()] *)
Definition st_stop {A} (msg : string) : M A := fun _ => Stopped msg.

(** [for x in xs: body(x)] *)
Fixpoint for_each {A} (xs : list A) (body : A -> M unit) : M unit :=
  match xs with
  | [] => mret tt
  | x :: xs' => _ ← body x; for_each xs' body
  end.

(** ** The script *)

Definition L (s : string) : value := VStr s.

(** Line 45: [required_cols]. *)
Definition required_cols : list value :=
  [L "Activity"; L "Type"; L "Total_Cost"; L "Driver"].

(** Line 47: the message shown when the cost-pool sheet lacks a column. *)
Definition MissingColumnsError : string :=
  "Costpools sheet ต้องมี Activity, Type, Total_Cost, Driver".

(** Lines 125-136: [get_time_period]. *)
Definition get_time_period (t : value) : result value :=
  if isna t then Ok (L "Unknown")
  else match t with
       | VTime ts =>
           let hour := hour ts in
           if (5 <=? hour)%Z && (hour <? 12)%Z then Ok (L "Morning")
           else if (12 <=? hour)%Z && (hour <? 17)%Z then Ok (L "Afternoon")
           else if (17 <=? hour)%Z && (hour <? 21)%Z then Ok (L "Evening")
           else Ok (L "Night")
       | _ => Raise AttributeError
       end.

(** Line 69: the lambda giving a row's rate per driver unit. *)
Definition rate_of_row (r : Series) : result value :=
  du ← getitem r (L "Driver_Units");
  if py_ne0 du
  then tc ← getitem r (L "Total_Cost");
       du' ← getitem r (L "Driver_Units");
       py_div tc du'
  else Ok zero.

(** What the four outputs are at the end of line 138. *)
Record Outputs := mkOutputs {
  RatedCostPool : DataFrame;
  AllocationMatrix : DataFrame;
  Summary : DataFrame;
  Visual : DataFrame
}.

#[global] Instance Outputs_eq_dec : EqDecision Outputs.
Proof. solve_decision. Defined.

(** ** A worked example

    Three activities and an event table of two flights and the totals row.
    Catering names its driver with a leading blank, flight TG101 has no
    value for Bags. *)

Definition number (p : Z) (q : positive) : value := VNum (Fin (Q2Qc (p # q))).

Definition missing : value := VNum NaN.

Definition example_activity (name type : string) (total_cost : value) (driver : string)
  : Series :=
  [(L "Activity", L name); (L "Type", L type); (L "Total_Cost", total_cost);
   (L "Driver", L driver); (L "Note", missing)].

Definition example_cost : DataFrame :=
  {| columns := [L "Activity"; L "Type"; L "Total_Cost"; L "Driver"; L "Note"];
     rows := [example_activity "Fuel" "Direct" (number 1000 1) "Distance";
              example_activity "Catering" "Direct" (number 300 1) " Passengers";
              example_activity "Handling" "Indirect" (number 600 1) "Bags"] |}.

Definition example_event (name distance passengers bags departure : value) : Series :=
  [(L "Name", name); (L "Distance", distance); (L "Passengers", passengers);
   (L "Bags", bags); (L "Departure Time", departure)].

Definition example_flight1 : Series :=
  example_event (L "TG101") (number 100 1) (number 50 1) missing (L "2024-03-01 06:30").

Definition example_flight2 : Series :=
  example_event (L "TG202") (number 400 1) (number 150 1) (number 30 1)
                (L "2024-03-01 22:15").

Definition example_totals : Series :=
  example_event (L "Total") (number 500 1) (number 200 1) (number 30 1) missing.

Definition example_events : DataFrame :=
  {| columns := [L "Name"; L "Distance"; L "Passengers"; L "Bags"; L "Departure Time"];
     rows := [example_flight1; example_flight2; example_totals] |}.

(** Stand-ins for the two library functions on the cells of the example. *)
Definition example_repr (v : value) : string := "nan".

Definition example_to_datetime (cells : list value) : list (option Timestamp) :=
  map (fun v =>
         if decide (v = L "2024-03-01 06:30") then Some (mkTimestamp 19783 6 30 0)
         else if decide (v = L "2024-03-01 22:15") then Some (mkTimestamp 19783 22 15 0)
         else None) cells.

(** The four tables the run on the example gives. *)
Definition example_rated_row (r : Series) (units rate : value) : Series :=
  r ++ [(L "Driver_Units", units); (L "RatePerDriverUnit", rate)].

Definition example_fuel : Series :=
  example_rated_row (example_activity "Fuel" "Direct" (number 1000 1) "Distance")
                    (number 500 1) (number 2 1).

Definition example_catering : Series :=
  example_rated_row (example_activity "Catering" "Direct" (number 300 1) " Passengers")
                    (number 200 1) (number 3 2).

Definition example_handling : Series :=
  example_rated_row (example_activity "Handling" "Indirect" (number 600 1) "Bags")
                    (number 30 1) (number 20 1).

Definition example_rated : DataFrame :=
  {| columns := [L "Activity"; L "Type"; L "Total_Cost"; L "Driver"; L "Note";
                 L "Driver_Units"; L "RatePerDriverUnit"];
     rows := [example_fuel; example_catering; example_handling] |}.

Definition example_cost_row1 : Series :=
  [(L "Flight", L "TG101"); (L "Fuel", number 200 1); (L "Catering", number 0 1);
   (L "Handling", missing); (L "Total_Cost_Per_Flight", number 200 1)].

Definition example_cost_row2 : Series :=
  [(L "Flight", L "TG202"); (L "Fuel", number 800 1); (L "Catering", number 0 1);
   (L "Handling", number 600 1); (L "Total_Cost_Per_Flight", number 1400 1)].

Definition example_allocation : DataFrame :=
  {| columns := [L "Flight"; L "Fuel"; L "Catering"; L "Handling";
                 L "Total_Cost_Per_Flight"];
     rows := [example_cost_row1; example_cost_row2] |}.

Definition example_summary_row1 : Series :=
  [(L "Flight", L "TG101"); (L "Direct_Cost", number 200 1);
   (L "Indirect_Cost", number 0 1); (L "Total_Cost_Per_Flight", number 200 1)].

Definition example_summary_row2 : Series :=
  [(L "Flight", L "TG202"); (L "Direct_Cost", number 800 1);
   (L "Indirect_Cost", number 600 1); (L "Total_Cost_Per_Flight", number 1400 1)].

Definition example_summary : DataFrame :=
  {| columns := [L "Flight"; L "Direct_Cost"; L "Indirect_Cost";
                 L "Total_Cost_Per_Flight"];
     rows := [example_summary_row1; example_summary_row2] |}.

Definition example_visual_row1 : Series :=
  example_event (L "TG101") (number 100 1) (number 50 1) missing
                (VTime (mkTimestamp 19783 6 30 0))
  ++ [(L "Flight", L "TG101"); (L "Time Period", L "Morning")].

Definition example_visual_row2 : Series :=
  example_event (L "TG202") (number 400 1) (number 150 1) (number 30 1)
                (VTime (mkTimestamp 19783 22 15 0))
  ++ [(L "Flight", L "TG202"); (L "Time Period", L "Night")].

Definition example_visual : DataFrame :=
  {| columns := [L "Name"; L "Distance"; L "Passengers"; L "Bags"; L "Departure Time";
                 L "Flight"; L "Time Period"];
     rows := [example_visual_row1; example_visual_row2] |}.

Definition example_out : Outputs :=
  mkOutputs example_rated example_allocation example_summary example_visual.

(** A text made of whitespace only. *)
Fixpoint all_space (s : string) : bool :=
  match s with
  | EmptyString => true
  | String c s' => is_space c && all_space s'
  end.

(** ** The upload: choosing the two sheets (lines 33-37) *)

(** [s.lower()] on the ASCII letters.  The bytes of the other characters
    are left as they are: none lowers to a letter of "cost" or "event", so
    the two tests below are those of the script. *)
Definition lower_char (c : ascii) : ascii :=
  let n := nat_of_ascii c in
  if (65 <=? n) && (n <=? 90) then ascii_of_nat (n + 32) else c.

Fixpoint lower (s : string) : string :=
  match s with
  | EmptyString => EmptyString
  | String c s' => String (lower_char c) (lower s')
  end.

(** [needle in s] *)
Fixpoint contains (needle s : string) : bool :=
  String.prefix needle s ||
  match s with
  | EmptyString => false
  | String _ s' => contains needle s'
  end.

(** [next((x for x in l if p(x)), d)]: the default is evaluated first. *)
Definition next_or {A} (p : A -> bool) (l : list A) (d : A) : A :=
  default d (List.find p l).

(** [l[i]] *)
Definition list_getitem {A} (l : list A) (i : nat) : result A :=
  match l !! i with
  | Some x => Ok x
  | None => Raise IndexError
  end.

(** Lines 36-37: the names of the cost-pool sheet and of the event sheet. *)
Definition select_sheets (sheet_names : list string) : result (string * string) :=
  first ← list_getitem sheet_names 0;
  let cost_sheet := next_or (fun s => contains "cost" (lower s)) sheet_names first in
  second ← list_getitem sheet_names 1;
  let event_sheet := next_or (fun s => contains "event" (lower s)) sheet_names second in
  Ok (cost_sheet, event_sheet).

(** The position of a sheet in the workbook. *)
Fixpoint sheet_index (name : string) (sheet_names : list string) : result loc :=
  match sheet_names with
  | [] => Raise KeyError
  | n :: ns => if decide (n = name) then Ok 0 else S <$> sheet_index name ns
  end.

(** A sheet name holds the word [w] in whatever letter case. *)
Definition has_word (w s : string) : Prop :=
  exists pre post : string, lower s = (pre ++ w ++ post)%string.

(** The sheet [next] picks for the word [w]: the first one whose name holds
    the word, or the sheet at position [fallback] when no name does. *)
Definition chosen (w : string) (fallback : nat) (sheet_names : list string)
  (x : string) : Prop :=
  (exists i, sheet_names !! i = Some x /\ has_word w x /\
             forall j y, j < i -> sheet_names !! j = Some y -> ~ has_word w y) \/
  ((forall y, y ∈ sheet_names -> ~ has_word w y) /\
   sheet_names !! fallback = Some x).

(** ** The dashboard (lines 141-331): the operations of pandas it uses *)

(** Lines 141-145: [viz_df.merge(right, on="Flight", how="left")] for a
    [right] of the columns Flight and Total_Cost_Per_Flight.  Each row of
    [viz_df], in order, is paired with every row of [right] that has its
    Flight label, in the order of [right], and takes that row's total; a
    row with no partner takes a missing total.  A Total_Cost_Per_Flight
    column [viz_df] has of its own is renamed with the suffix _x, and the
    new one with _y. *)
Definition merge_row (right : DataFrame) (left_label : value -> value)
  (new_label : value) (l : Series) : list Series :=
  let key := series_get l (L "Flight") (VNum NaN) in
  let partners :=
    filter (fun r : Series => series_get r (L "Flight") (VNum NaN) = key)
           (rows right) in
  let l' := map (fun kv : value * value => (left_label kv.1, kv.2)) l in
  match partners with
  | [] => [l' ++ [(new_label, VNum NaN)]]
  | _ => map (fun r : Series =>
                l' ++ [(new_label,
                        series_get r (L "Total_Cost_Per_Flight") (VNum NaN))])
             partners
  end.

Definition merge_totals (viz right : DataFrame) : result DataFrame :=
  if decide (L "Flight" ∈ columns viz /\ L "Flight" ∈ columns right) then
    let clash := bool_decide (L "Total_Cost_Per_Flight" ∈ columns viz) in
    let left_label (k : value) :=
      if clash && bool_decide (k = L "Total_Cost_Per_Flight")
      then L "Total_Cost_Per_Flight_x" else k in
    let new_label :=
      if clash then L "Total_Cost_Per_Flight_y" else L "Total_Cost_Per_Flight" in
    Ok {| columns := map left_label (columns viz) ++ [new_label];
          rows := flat_map (merge_row right left_label new_label) (rows viz) |}
  else Raise KeyError.

(** Insertion sort by a comparison [leb]. *)
Fixpoint insert_sorted {A} (leb : A -> A -> bool) (x : A) (l : list A) : list A :=
  match l with
  | [] => [x]
  | y :: l' => if leb x y then x :: l else y :: insert_sorted leb x l'
  end.

Definition insertion_sort {A} (leb : A -> A -> bool) (l : list A) : list A :=
  foldr (insert_sorted leb) [] l.

Definition timestamp_leb (a b : Timestamp) : bool :=
  match (day_number a ?= day_number b)%Z with
  | Lt => true
  | Gt => false
  | Eq =>
      match (hour a ?= hour b)%Z with
      | Lt => true
      | Gt => false
      | Eq =>
          match (minute a ?= minute b)%Z with
          | Lt => true
          | Gt => false
          | Eq => (second a <=? second b)%Z
          end
      end
  end.

(** Two cells Python can order: two numbers, two texts or two timestamps. *)
Definition same_kind (a b : value) : bool :=
  match a, b with
  | VNum _, VNum _ | VStr _, VStr _ | VTime _, VTime _ => true
  | _, _ => false
  end.

(** [a <= b] on two cells of one kind, neither missing. *)
Definition py_le (a b : value) : bool :=
  match a, b with
  | VNum (Fin x), VNum (Fin y) => bool_decide (x <= y)%Qc
  | VStr s, VStr t => String.leb s t
  | VTime s, VTime t => timestamp_leb s t
  | _, _ => false
  end.

(** [sorted(l)] for distinct cells none of which is missing: cells of one
    kind come out in increasing order, a comparison across kinds raises. *)
Definition py_sorted (l : list value) : result (list value) :=
  match l with
  | [] => Ok []
  | x :: _ =>
      if forallb (same_kind x) l then Ok (insertion_sort py_le l)
      else Raise TypeError
  end.

(** Lines 152-160: [["All"] + sorted(column.dropna().unique())]. *)
Definition options (column : list value) : result (list value) :=
  sorted ← py_sorted (unique (filter (fun v => notna v = true) column));
  Ok (L "All" :: sorted).

(** [df[df[label] == x]] *)
Definition where_eq (df : DataFrame) (label x : value) : result DataFrame :=
  if decide (label ∈ columns df)
  then Ok {| columns := columns df;
             rows := filter (fun r : Series =>
                               py_eq (series_get r label (VNum NaN)) x = true)
                            (rows df) |}
  else Raise KeyError.

(** [df[df[label] != x]] *)
Definition where_ne (df : DataFrame) (label x : value) : result DataFrame :=
  if decide (label ∈ columns df)
  then Ok {| columns := columns df;
             rows := filter (fun r : Series =>
                               py_eq (series_get r label (VNum NaN)) x = false)
                            (rows df) |}
  else Raise KeyError.

(** [df[df[label].isin(vals)]] *)
Definition where_isin (df : DataFrame) (label : value) (vals : list value)
  : result DataFrame :=
  if decide (label ∈ columns df)
  then Ok {| columns := columns df;
             rows := filter (fun r : Series => series_get r label (VNum NaN) ∈ vals)
                            (rows df) |}
  else Raise KeyError.

(** Lines 169-181: one of the three filters; the choice "All" filters
    nothing. *)
Definition apply_filter (df : DataFrame) (label selected : value) : result DataFrame :=
  if decide (selected = L "All") then Ok df else where_eq df label selected.

(** The three choices made in the sidebar. *)
Record Filters := mkFilters {
  selected_continent : value;
  selected_dest : value;
  selected_period : value
}.

(** Lines 168-181: [filtered_viz]. *)
Definition filter_viz (viz : DataFrame) (sel : Filters) : result DataFrame :=
  v1 ← apply_filter viz (L "Continent") (selected_continent sel);
  v2 ← apply_filter v1 (L "Destination Code") (selected_dest sel);
  apply_filter v2 (L "Time Period") (selected_period sel).

(** The cells of a float column that are not missing. *)
Definition dropna (l : list num) : list Qc :=
  omap (fun x => match x with Fin q => Some q | NaN => None end) l.

(** [s.mean()]: the mean of the cells that are not missing, missing when
    there is none. *)
Definition nanmean (l : list num) : num :=
  match dropna l with
  | [] => NaN
  | qs => Fin (sumQ qs / Q2Qc (inject_Z (Z.of_nat (length qs))))%Qc
  end.

(** [s.max()]: the largest of the cells that are not missing, missing when
    there is none. *)
Definition nanmax (l : list num) : num :=
  match dropna l with
  | [] => NaN
  | q :: qs => Fin (foldr (fun x m => if decide (m <= x)%Qc then x else m) q qs)
  end.

(** [df.head(n)] *)
Definition df_head (n : nat) (df : DataFrame) : DataFrame :=
  {| columns := columns df; rows := take n (rows df) |}.

(** [df.melt(id_vars=[id], var_name=var, value_name=val)]: for each other
    column in turn, one row per row of [df].  (No column of the summary is
    called [val], which pandas would refuse.) *)
Definition melt (df : DataFrame) (id var val : value) : result DataFrame :=
  if decide (id ∈ columns df)
  then Ok {| columns := [id; var; val];
             rows := flat_map
                       (fun k => map (fun r : Series =>
                                        [(id, series_get r id (VNum NaN)); (var, k);
                                         (val, series_get r k (VNum NaN))])
                                     (rows df))
                       (filter (fun k => k <> id) (columns df)) |}
  else Raise KeyError.

(** Lines 325-331: the top flight's row without its Flight and
    Total_Cost_Per_Flight cells, as a table of two columns. *)
Definition pie_data (top5 : DataFrame) : result DataFrame :=
  top_flight ← match rows top5 with
               | [] => Raise IndexError
               | r :: _ => Ok r
               end;
  if decide (L "Flight" ∈ top_flight.*1 /\ L "Total_Cost_Per_Flight" ∈ top_flight.*1)
  then Ok {| columns := [L "Cost Type"; L "Cost"];
             rows := map (fun kv : value * value =>
                            [(L "Cost Type", kv.1); (L "Cost", kv.2)])
                         (filter (fun kv : value * value =>
                                    kv.1 <> L "Flight" /\
                                    kv.1 <> L "Total_Cost_Per_Flight")
                                 top_flight) |}
  else Raise KeyError.

(** What the dashboard shows. *)
Record Dashboard := mkDashboard {
  viz_df : DataFrame;
  continent_options : list value;
  dest_options : list value;
  filtered_viz : DataFrame;
  filtered_summary : DataFrame;
  total_flights : nat;
  total_cost : num;
  average_cost : num;
  highest_cost : num;
  top5 : DataFrame;
  melted : DataFrame;
  time_df : DataFrame;
  dest_df : DataFrame;
  cont_df : DataFrame;
  pie_df : DataFrame
}.

(** The order of [sort_values(ascending=False)] on floats: larger cells
    first, missing cells last. *)
Definition before_desc (x y : num) : Prop :=
  match x, y with
  | _, NaN => True
  | NaN, Fin _ => False
  | Fin p, Fin q => (q <= p)%Qc
  end.


(** A list in which each element is [leb] its successor. *)
Fixpoint sorted_by {A} (leb : A -> A -> bool) (l : list A) : bool :=
  match l with
  | [] => true
  | x :: l' =>
      match l' with
      | [] => true
      | y :: _ => leb x y && sorted_by leb l'
      end
  end.

(** ** A second worked example, for the dashboard

    Three flights with a continent and a destination code, and the totals
    row; the cost pool is the one of the first example. *)

Definition example_trip (name distance passengers bags departure continent dest : value)
  : Series :=
  example_event name distance passengers bags departure
  ++ [(L "Continent", continent); (L "Destination Code", dest)].

Definition example_trip1 : Series :=
  example_trip (L "TG101") (number 100 1) (number 50 1) missing
               (L "2024-03-01 06:30") (L "Asia") (L "NRT").

Definition example_trip2 : Series :=
  example_trip (L "TG202") (number 400 1) (number 150 1) (number 30 1)
               (L "2024-03-01 22:15") (L "Europe") (L "LHR").

Definition example_trip3 : Series :=
  example_trip (L "TG303") (number 500 1) (number 100 1) (number 20 1)
               (L "2024-03-01 06:30") missing (L "NRT").

Definition example_trip_totals : Series :=
  example_trip (L "Total") (number 1000 1) (number 300 1) (number 50 1)
               missing missing missing.

Definition example_trips : DataFrame :=
  {| columns := [L "Name"; L "Distance"; L "Passengers"; L "Bags"; L "Departure Time";
                 L "Continent"; L "Destination Code"];
     rows := [example_trip1; example_trip2; example_trip3; example_trip_totals] |}.

(** An order for [sort_values]: insertion sort of the positions by their
    cells, larger cells first and missing cells last. *)
Definition desc_leb (a b : num * nat) : bool :=
  match a.1, b.1 with
  | _, NaN => true
  | NaN, Fin _ => false
  | Fin p, Fin q => bool_decide (q <= p)%Qc
  end.

Definition example_sort_desc (keys : list num) : list nat :=
  (insertion_sort desc_leb (zip keys (seq 0 (length keys)))).*2.

(** An order for the groups: the keys as they come. *)
Definition example_group_order (keys : list value) : result (list value) := Ok keys.

Definition no_filter : Filters := mkFilters (L "All") (L "All") (L "All").

(** Further inputs: event sheets with no row, with the totals row only,
    with no Departure Time column and with two flights of one label; a
    cost pool whose one activity has a driver that names no column. *)

Definition example_no_rows : DataFrame :=
  {| columns := columns example_events; rows := [] |}.

Definition example_totals_only : DataFrame :=
  {| columns := columns example_events; rows := [example_totals] |}.

Definition example_undated : DataFrame :=
  {| columns := [L "Name"; L "Distance"];
     rows := [[(L "Name", L "TG101"); (L "Distance", number 100 1)];
              [(L "Name", L "Total"); (L "Distance", number 100 1)]] |}.


Definition example_lounge : DataFrame :=
  {| columns := columns example_cost;
     rows := [example_activity "Lounge" "Indirect" (number 90 1) "Visits"] |}.

Definition example_workbook : list (string * DataFrame) :=
  [("Notes", example_no_rows); ("COST pools", example_cost);
   ("Flight Events", example_events)].

Section Engine.

(** [str(v)] for a [v] that is not a text. *)
Variable py_repr : value -> string.

(** [pd.to_datetime(column, errors="coerce")]: a timestamp for each cell,
    or none (NaT) where the cell is missing or cannot be parsed. *)
Variable to_datetime : list value -> list (option Timestamp).

(** [str(v)] *)
Definition py_str (v : value) : string :=
  match v with VStr s => s | _ => py_repr v end.

Definition datetime_cell (t : option Timestamp) : value :=
  match t with Some ts => VTime ts | None => VNaT end.

(** Lines 56-60: the dict comprehension.  The cells of a numeric column are
    floats already, [float(v)] is [v]. *)
Definition driver_units (total_row : Series) (numeric_cols : list value)
  : gmap string value :=
  foldl (fun d k =>
           let v := series_get total_row k (VNum NaN) in
           if notna v then <[strip (py_str k) := v]> d else d)
        ∅ numeric_cols.

(** Lines 62-65. *)
Definition get_driver_units (du : gmap string value) (driver : value) : value :=
  if isna driver then zero
  else default zero (du !! strip (py_str driver)).

(** Lines 84-92: the body of the loop over flights. *)
Definition allocate_row (acts : list Series) (flight_row : Series) : result Series :=
  flight_name ← iloc0 flight_row;
  foldlR (fun row_cost act =>
            driver ← getitem act (L "Driver");
            rate ← getitem act (L "RatePerDriverUnit");
            cost ← py_mul (series_get flight_row driver zero) rate;
            activity ← getitem act (L "Activity");
            Ok (dict_set activity cost row_cost))
         [(L "Flight", L (py_str flight_name))] acts.

(** Line 106: [cost_df.loc[cost_df["Type"] == t, "Activity"]]. *)
Definition activities_of_type (cost_df : DataFrame) (t : value) : result (list value) :=
  types ← df_getitem cost_df (L "Type");
  activities ← df_getitem cost_df (L "Activity");
  Ok (map snd (filter (fun p => py_eq p.1 t = true) (zip types activities))).

(** Line 107: the name of a type's column, [f"{t}_Cost"]. *)
Definition type_column (t : value) : value :=
  L (String.append (py_str t) "_Cost").

(** Lines 106-107: the body of the loop over the types. *)
Definition summary_body (cost_df costs_df summary : loc) (t : value) : M unit :=
  c ← load cost_df;
  acts ← liftR (activities_of_type c t);
  cs ← load costs_df;
  selected ← liftR (df_select cs acts);
  sums ← liftR (df_sum_axis1 selected);
  setitem summary (type_column t) sums.

(** Lines 39-138. [sheets_cost] and [sheets_event] are the two sheets the
    upload holds. *)
Definition main (sheets_cost sheets_event : loc) : M Outputs :=
  cost_df ← df_copy sheets_cost;
  event_df ← df_copy sheets_event;
  (* validation *)
  c ← load cost_df;
  if negb (bool_decide (required_cols ⊆ columns c))
  then st_stop MissingColumnsError
  else
  (* driver units (total row) *)
  e ← load event_df;
  total_row ← liftR (iloc_last e);
  let numeric_cols := select_dtypes_number e in
  let du := driver_units total_row numeric_cols in
  drivers ← liftR (df_getitem c (L "Driver"));
  _ ← setitem cost_df (L "Driver_Units") (map (get_driver_units du) drivers);
  c ← load cost_df;
  rates ← liftR (mapR rate_of_row (rows c));
  _ ← setitem cost_df (L "RatePerDriverUnit") rates;
  (* remove total row from events *)
  e ← load event_df;
  events_clean ← alloc (iloc_init e);
  (* cost allocation *)
  ev ← load events_clean;
  c ← load cost_df;
  costs_data ← liftR (mapR (allocate_row (rows c)) (rows ev));
  costs_df ← alloc (DataFrame_from_records costs_data);
  cs ← load costs_df;
  dropped ← liftR (df_drop cs (L "Flight"));
  totals ← liftR (df_sum_axis1 dropped);
  _ ← setitem costs_df (L "Total_Cost_Per_Flight") totals;
  (* summary by type *)
  summary ← alloc empty_frame;
  cs ← load costs_df;
  flights ← liftR (df_getitem cs (L "Flight"));
  _ ← setitem summary (L "Flight") flights;
  c ← load cost_df;
  types ← liftR (df_getitem c (L "Type"));
  _ ← for_each (unique types) (summary_body cost_df costs_df summary);
  cs ← load costs_df;
  totals ← liftR (df_getitem cs (L "Total_Cost_Per_Flight"));
  _ ← setitem summary (L "Total_Cost_Per_Flight") totals;
  (* data for the visuals and the time period *)
  viz_df ← df_copy events_clean;
  v ← load viz_df;
  names ← liftR (df_iloc_col0 v);
  _ ← setitem viz_df (L "Flight") (map (fun x => L (py_str x)) names);
  v ← load viz_df;
  departures ← liftR (df_getitem v (L "Departure Time"));
  _ ← setitem viz_df (L "Departure Time") (map datetime_cell (to_datetime departures));
  v ← load viz_df;
  times ← liftR (df_getitem v (L "Departure Time"));
  periods ← liftR (mapR get_time_period times);
  _ ← setitem viz_df (L "Time Period") periods;
  (* the tables handed to display and export *)
  c ← load cost_df;
  cs ← load costs_df;
  s ← load summary;
  v ← load viz_df;
  mret (mkOutputs c cs s v).

(** One run on an upload that holds the two sheets. *)
Definition run (cost_sheet event_sheet : DataFrame) : result Outputs :=
  fst <$> main 0 1 [cost_sheet; event_sheet].

(** *** What the script computes, stage by stage

    The same computation as functions of the two sheets, with no heap:
    [main_pipeline] below shows that [main] computes exactly this. *)

(** Lines 53-71: [cost_df] once the two columns are added. *)
Definition rated_cost_pool (c e : DataFrame) : result DataFrame :=
  total_row ← iloc_last e;
  let du := driver_units total_row (select_dtypes_number e) in
  drivers ← df_getitem c (L "Driver");
  let c1 := df_setitem c (L "Driver_Units") (map (get_driver_units du) drivers) in
  rates ← mapR rate_of_row (rows c1);
  Ok (df_setitem c1 (L "RatePerDriverUnit") rates).

(** Lines 81-97: [costs_df]. *)
Definition allocation_matrix (rated ev : DataFrame) : result DataFrame :=
  costs_data ← mapR (allocate_row (rows rated)) (rows ev);
  let cs := DataFrame_from_records costs_data in
  dropped ← df_drop cs (L "Flight");
  totals ← df_sum_axis1 dropped;
  Ok (df_setitem cs (L "Total_Cost_Per_Flight") totals).

(** Lines 105-107: one turn of the loop over the types. *)
Definition summary_step (rated costs : DataFrame) (s : DataFrame) (t : value)
  : result DataFrame :=
  acts ← activities_of_type rated t;
  selected ← df_select costs acts;
  sums ← df_sum_axis1 selected;
  Ok (df_setitem s (type_column t) sums).

(** Lines 102-109: [summary]. *)
Definition summary_by_type (rated costs : DataFrame) : result DataFrame :=
  flights ← df_getitem costs (L "Flight");
  types ← df_getitem rated (L "Type");
  s ← foldlR (summary_step rated costs)
             (df_setitem empty_frame (L "Flight") flights) (unique types);
  totals ← df_getitem costs (L "Total_Cost_Per_Flight");
  Ok (df_setitem s (L "Total_Cost_Per_Flight") totals).

(** Lines 114-138: [viz_df]. *)
Definition visual_table (ev : DataFrame) : result DataFrame :=
  names ← df_iloc_col0 ev;
  let v1 := df_setitem ev (L "Flight") (map (fun x => L (py_str x)) names) in
  departures ← df_getitem v1 (L "Departure Time");
  let v2 := df_setitem v1 (L "Departure Time")
                       (map datetime_cell (to_datetime departures)) in
  times ← df_getitem v2 (L "Departure Time");
  periods ← mapR get_time_period times;
  Ok (df_setitem v2 (L "Time Period") periods).

Definition pipeline (c e : DataFrame) : result Outputs :=
  if negb (bool_decide (required_cols ⊆ columns c))
  then Stopped MissingColumnsError
  else
    rated ← rated_cost_pool c e;
    costs ← allocation_matrix rated (iloc_init e);
    s ← summary_by_type rated costs;
    v ← visual_table (iloc_init e);
    Ok (mkOutputs rated costs s v).

(** The objects a successful run leaves on the heap after the ones it found:
    [cost_df], [event_df], [events_clean], [costs_df], [summary], [viz_df]. *)
Definition allocated (e : DataFrame) (out : Outputs) : heap :=
  [RatedCostPool out; e; iloc_init e; AllocationMatrix out; Summary out; Visual out].

(** The Activity and Type cells of the cost-pool sheet, row by row. *)
Definition activity_names (c : DataFrame) : list value :=
  map (fun r => series_get r (L "Activity") (VNum NaN)) (rows c).


(** The data model of the cost pool: the activity names are pairwise
    distinct, and none is the name of a column the allocation table has of
    its own. *)
Definition wf_activities (c : DataFrame) : Prop :=
  NoDup (activity_names c) /\
  (L "Flight" ∉ activity_names c) /\
  (L "Total_Cost_Per_Flight" ∉ activity_names c).




(** Line 107, right-hand side: the per-flight sums of the columns of the
    activities of type [t]. *)
Definition type_sums (rated costs : DataFrame) (t : value) : result (list value) :=
  acts ← activities_of_type rated t;
  selected ← df_select costs acts;
  df_sum_axis1 selected.

(** The allocated cost of activity row [A] for flight row [F], in the
    specification's words: [F[A.Driver]] if that column exists else 0,
    multiplied by [A.RatePerDriverUnit]. *)
Definition allocated_cost (F A : Series) : result value :=
  driver ← getitem A (L "Driver");
  rate ← getitem A (L "RatePerDriverUnit");
  py_mul (match series_lookup driver F with Some v => v | None => zero end) rate.


(** Lines 33-138 on a workbook, the dict of its sheets by name in the
    order of the file: the two sheets are chosen and [main] runs on them.
    The objects of the sheets sit on the heap in the workbook's order. *)
Definition upload_run (sheets : list (string * DataFrame)) : result Outputs :=
  '(cost_sheet, event_sheet) ← select_sheets (sheets.*1);
  lc ← sheet_index cost_sheet (sheets.*1);
  le ← sheet_index event_sheet (sheets.*1);
  fst <$> main lc le (sheets.*2).

(** *** The dashboard (lines 141-331) *)

Section Dashboard.

(** [sort_values(by, ascending=False)] on a float column: the positions of
    the rows in the order of the result.  pandas leaves the order of rows
    with equal cells open. *)
Variable sort_desc : list num -> list nat.

(** The order in which [groupby] lists the keys of the groups, given the
    distinct keys that are not missing. *)
Variable group_order : list value -> result (list value).

(** [df.sort_values(by, ascending=False)] *)
Definition sort_values_desc (df : DataFrame) (by_ : value) : result DataFrame :=
  cells ← df_getitem df by_;
  keys ← mapR as_float cells;
  Ok {| columns := columns df;
        rows := omap (fun i => rows df !! i) (sort_desc keys) |}.

(** [df.groupby(key)[col].sum().reset_index()]: rows with a missing key
    belong to no group, missing cells count as zero. *)
Definition groupby_sum (df : DataFrame) (key col : value) : result DataFrame :=
  keys ← df_getitem df key;
  cells ← df_getitem df col;
  nums ← mapR as_float cells;
  groups ← group_order (unique (filter (fun v => notna v = true) keys));
  Ok {| columns := [key; col];
        rows := map (fun k =>
                       [(key, k);
                        (col, VNum (nansum (map snd
                                 (filter (fun p : value * num => p.1 = k)
                                         (zip keys nums)))))])
                    groups |}.

(** Lines 141-331, but for the charts drawn from these tables. *)
Definition dashboard (summary viz : DataFrame) (sel : Filters) : result Dashboard :=
  right ← df_select summary [L "Flight"; L "Total_Cost_Per_Flight"];
  viz_df ← merge_totals viz right;
  (* sidebar filters *)
  continents ← df_getitem viz_df (L "Continent");
  continent_options ← options continents;
  dests ← df_getitem viz_df (L "Destination Code");
  dest_options ← options dests;
  filtered_viz ← filter_viz viz_df sel;
  flights ← df_getitem filtered_viz (L "Flight");
  filtered_summary ← where_isin summary (L "Flight") flights;
  (* KPI *)
  cells ← df_getitem filtered_summary (L "Total_Cost_Per_Flight");
  totals ← mapR as_float cells;
  (* main bar *)
  sorted ← sort_values_desc filtered_summary (L "Total_Cost_Per_Flight");
  let top5 := df_head 5 sorted in
  molten ← melt top5 (L "Flight") (L "Cost Type") (L "Cost");
  melted ← where_ne molten (L "Cost Type") (L "Total_Cost_Per_Flight");
  (* cost by time period and by destination code *)
  time_df ← groupby_sum filtered_viz (L "Time Period") (L "Total_Cost_Per_Flight");
  by_dest ← groupby_sum filtered_viz (L "Destination Code") (L "Total_Cost_Per_Flight");
  dest_sorted ← sort_values_desc by_dest (L "Total_Cost_Per_Flight");
  let dest_df := df_head 10 dest_sorted in
  (* supporting visuals *)
  cont_df ← groupby_sum filtered_viz (L "Continent") (L "Total_Cost_Per_Flight");
  pie_df ← pie_data top5;
  Ok {| viz_df := viz_df;
        continent_options := continent_options;
        dest_options := dest_options;
        filtered_viz := filtered_viz;
        filtered_summary := filtered_summary;
        total_flights := length (rows filtered_summary);
        total_cost := nansum totals;
        average_cost := nanmean totals;
        highest_cost := nanmax totals;
        top5 := top5;
        melted := melted;
        time_df := time_df;
        dest_df := dest_df;
        cont_df := cont_df;
        pie_df := pie_df |}.

(** Lines 39-331: the engine, then the dashboard on its tables. *)
Definition run_dashboard (c e : DataFrame) (sel : Filters) : result Dashboard :=
  out ← run c e;
  dashboard (Summary out) (Visual out) sel.

End Dashboard.

(** ** The result monad *)

Lemma mapR_length {A B} (f : A -> result B) l ys :
  mapR f l = Ok ys -> length ys = length l.
Proof.
  revert ys. induction l as [|x l IH]; intros ys; simpl.
  - intros [= <-]. reflexivity.
  - destruct (f x) as [y| |]; simpl; try discriminate.
    destruct (mapR f l) as [ys'| |]; simpl; try discriminate.
    intros [= <-]. simpl. f_equal. by apply IH.
Qed.

Lemma mapR_lookup {A B} (f : A -> result B) l ys i x :
  mapR f l = Ok ys -> l !! i = Some x ->
  exists y, ys !! i = Some y /\ f x = Ok y.
Proof.
  revert ys i. induction l as [|x' l IH]; intros ys i; simpl.
  - intros _ Hl. by rewrite lookup_nil in Hl.
  - destruct (f x') as [y| |] eqn:Hf; simpl; try discriminate.
    destruct (mapR f l) as [ys'| |]; simpl; try discriminate.
    intros [= <-]. destruct i as [|i]; simpl.
    + intros [= ->]. eauto.
    + intros Hl. by apply IH.
Qed.

Lemma bind_Ok_r {A B} (a : A) (k : A -> result B) : (Ok a ≫= k) = k a.
Proof. reflexivity. Qed.

Lemma bind_Raise_r {A B} x (k : A -> result B) : (Raise x ≫= k) = Raise x.
Proof. reflexivity. Qed.

Lemma bind_Stopped_r {A B} msg (k : A -> result B) : (Stopped msg ≫= k) = Stopped msg.
Proof. reflexivity. Qed.

(** ** The heap monad *)

Lemma bind_Ok {A B} (m : M A) (k : A -> M B) h a h' :
  m h = Ok (a, h') -> (m ≫= k) h = k a h'.
Proof. intros Hm. unfold mbind, M_bind. by rewrite Hm. Qed.

Lemma bind_eq {A B} (m : M A) (k : A -> M B) h :
  (m ≫= k) h =
  match m h with
  | Ok (a, h') => k a h'
  | Raise x => Raise x
  | Stopped msg => Stopped msg
  end.
Proof. reflexivity. Qed.

Lemma bind_liftR {A B} (r : result A) (k : A -> M B) h :
  (liftR r ≫= k) h =
  match r with Ok a => k a h | Raise x => Raise x | Stopped m => Stopped m end.
Proof. by destruct r. Qed.

Lemma load_old (h l : heap) a d :
  h !! a = Some d -> load a (h ++ l) = Ok (d, h ++ l).
Proof. intros Ha. unfold load. by rewrite (lookup_app_l_Some _ _ _ _ Ha). Qed.

Lemma load_new (h l : heap) i d :
  l !! i = Some d -> load (length h + i) (h ++ l) = Ok (d, h ++ l).
Proof. intros Hi. unfold load. by rewrite lookup_app_r, Nat.add_comm, Nat.add_sub, Hi by lia. Qed.

Lemma store_new (h l : heap) i d :
  store (length h + i) d (h ++ l) = Ok (tt, h ++ <[i := d]> l).
Proof. unfold store. by rewrite insert_app_r. Qed.

Lemma alloc_new (h l : heap) d :
  alloc d (h ++ l) = Ok (length h + length l, h ++ (l ++ [d])).
Proof. unfold alloc. by rewrite length_app, (assoc_L (++)). Qed.

Lemma df_copy_old (h l : heap) a d :
  h !! a = Some d ->
  df_copy a (h ++ l) = Ok (length h + length l, h ++ (l ++ [d])).
Proof.
  intros Ha. unfold df_copy.
  rewrite (bind_Ok _ _ _ _ _ (load_old h l a d Ha)). apply alloc_new.
Qed.

Lemma df_copy_new (h l : heap) i d :
  l !! i = Some d ->
  df_copy (length h + i) (h ++ l) = Ok (length h + length l, h ++ (l ++ [d])).
Proof.
  intros Hi. unfold df_copy.
  rewrite (bind_Ok _ _ _ _ _ (load_new h l i d Hi)). apply alloc_new.
Qed.

Lemma setitem_new (h l : heap) i d label vals :
  l !! i = Some d ->
  setitem (length h + i) label vals (h ++ l)
  = Ok (tt, h ++ <[i := df_setitem d label vals]> l).
Proof.
  intros Hi. unfold setitem.
  rewrite (bind_Ok _ _ _ _ _ (load_new h l i d Hi)). apply store_new.
Qed.

(** One turn of the loop over the types mutates [summary] as
    [summary_step] says. *)
Lemma summary_body_step (h l : heap) icost icosts isum c cs s t :
  l !! icost = Some c -> l !! icosts = Some cs -> l !! isum = Some s ->
  summary_body (length h + icost) (length h + icosts) (length h + isum) t (h ++ l)
  = match summary_step c cs s t with
    | Ok s' => Ok (tt, h ++ <[isum := s']> l)
    | Raise x => Raise x
    | Stopped m => Stopped m
    end.
Proof.
  intros Hc Hcs Hs. unfold summary_body, summary_step.
  rewrite !bind_eq, (load_new h l icost c Hc). cbn beta iota.
  rewrite bind_liftR.
  destruct (activities_of_type c t) as [acts| |]; simpl; try done.
  rewrite !bind_eq, (load_new h l icosts cs Hcs). cbn beta iota.
  rewrite bind_liftR.
  destruct (df_select cs acts) as [sel| |]; simpl; try done.
  rewrite bind_liftR.
  destruct (df_sum_axis1 sel) as [sums| |]; simpl; try done.
  by rewrite (setitem_new h l isum s _ _ Hs).
Qed.

(** The loop over the types is the fold of [summary_step]. *)
Lemma summary_loop (h l : heap) icost icosts isum c cs ts :
  l !! icost = Some c -> l !! icosts = Some cs -> icost <> isum -> icosts <> isum ->
  forall s, l !! isum = Some s ->
  for_each ts (summary_body (length h + icost) (length h + icosts) (length h + isum))
           (h ++ l)
  = match foldlR (summary_step c cs) s ts with
    | Ok s' => Ok (tt, h ++ <[isum := s']> l)
    | Raise x => Raise x
    | Stopped m => Stopped m
    end.
Proof.
  intros Hc Hcs Hne1 Hne2. revert l Hc Hcs.
  induction ts as [|t ts IH]; intros l Hc Hcs s Hs; cbn [for_each foldlR].
  - by rewrite list_insert_id.
  - rewrite bind_eq, (summary_body_step h l _ _ _ c cs s t Hc Hcs Hs).
    destruct (summary_step c cs s t) as [s'| |]; simpl; try done.
    rewrite (IH (<[isum := s']> l)
               (ltac:(by rewrite list_lookup_insert_ne))
               (ltac:(by rewrite list_lookup_insert_ne)) s').
    + destruct (foldlR _ _ ts); try done. by rewrite list_insert_insert_eq.
    + apply list_lookup_insert_eq. by eapply lookup_lt_Some.
Qed.

Ltac heap_step H := rewrite !bind_eq, H; cbn beta iota; cbn [length app insert list_insert].
Ltac pure_step := rewrite bind_liftR.
Ltac rsimp :=
  rewrite ?bind_Ok_r, ?bind_Raise_r, ?bind_Stopped_r; cbn beta iota.

(** The script computes [pipeline] of the two sheets, touches no object it
    found on the heap and leaves its own objects after them. *)
Lemma main_pipeline (h : heap) lc le c e :
  h !! lc = Some c -> h !! le = Some e ->
  main lc le h =
  match pipeline c e with
  | Ok out => Ok (out, h ++ allocated e out)
  | Raise x => Raise x
  | Stopped m => Stopped m
  end.
Proof.
  intros Hc He. unfold main, pipeline.
  rewrite <- (app_nil_r h) at 1.
  heap_step (df_copy_old h [] lc c Hc).
  heap_step (df_copy_old h [c] le e He).
  heap_step (load_new h [c; e] 0 c eq_refl).
  destruct (negb _); [done|].
  unfold rated_cost_pool.
  heap_step (load_new h [c; e] 1 e eq_refl).
  pure_step. destruct (iloc_last e) as [total_row| |]; rsimp; try done.
  pure_step. destruct (df_getitem c (L "Driver")) as [drivers| |]; rsimp; try done.
  set (c1 := df_setitem c _ _).
  heap_step (setitem_new h [c; e] 0 c (L "Driver_Units")
               (map (get_driver_units (driver_units total_row (select_dtypes_number e))) drivers) eq_refl).
  fold c1.
  heap_step (load_new h [c1; e] 0 c1 eq_refl).
  pure_step. destruct (mapR rate_of_row (rows c1)) as [rates| |]; rsimp; try done.
  heap_step (setitem_new h [c1; e] 0 c1 (L "RatePerDriverUnit") rates eq_refl).
  set (rated := df_setitem c1 _ _).
  heap_step (load_new h [rated; e] 1 e eq_refl).
  heap_step (alloc_new h [rated; e] (iloc_init e)).
  heap_step (load_new h [rated; e; iloc_init e] 2 _ eq_refl).
  heap_step (load_new h [rated; e; iloc_init e] 0 _ eq_refl).
  unfold allocation_matrix.
  pure_step. destruct (mapR (allocate_row (rows rated)) _) as [costs_data| |]; rsimp; try done.
  set (cs := DataFrame_from_records costs_data).
  heap_step (alloc_new h [rated; e; iloc_init e] cs).
  heap_step (load_new h [rated; e; iloc_init e; cs] 3 _ eq_refl).
  pure_step. destruct (df_drop cs (L "Flight")) as [dropped| |]; rsimp; try done.
  pure_step. destruct (df_sum_axis1 dropped) as [totals| |]; rsimp; try done.
  heap_step (setitem_new h [rated; e; iloc_init e; cs] 3 cs (L "Total_Cost_Per_Flight") totals eq_refl).
  set (costs := df_setitem cs _ _).
  heap_step (alloc_new h [rated; e; iloc_init e; costs] empty_frame).
  heap_step (load_new h [rated; e; iloc_init e; costs; empty_frame] 3 _ eq_refl).
  unfold summary_by_type.
  pure_step. destruct (df_getitem costs (L "Flight")) as [flights| |]; rsimp; try done.
  heap_step (setitem_new h [rated; e; iloc_init e; costs; empty_frame] 4 _ (L "Flight") flights eq_refl).
  set (s0 := df_setitem empty_frame _ _).
  heap_step (load_new h [rated; e; iloc_init e; costs; s0] 0 _ eq_refl).
  pure_step. destruct (df_getitem rated (L "Type")) as [types| |]; rsimp; try done.
  heap_step (summary_loop h [rated; e; iloc_init e; costs; s0] 0 3 4 rated costs
               (unique types) eq_refl eq_refl ltac:(lia) ltac:(lia) s0 eq_refl).
  destruct (foldlR (summary_step rated costs) s0 (unique types)) as [s1| |]; rsimp; try done.
  heap_step (load_new h [rated; e; iloc_init e; costs; s1] 3 _ eq_refl).
  pure_step. destruct (df_getitem costs (L "Total_Cost_Per_Flight")) as [totals'| |]; rsimp; try done.
  heap_step (setitem_new h [rated; e; iloc_init e; costs; s1] 4 _ (L "Total_Cost_Per_Flight") totals' eq_refl).
  set (s2 := df_setitem s1 _ _).
  unfold visual_table.
  heap_step (df_copy_new h [rated; e; iloc_init e; costs; s2] 2 _ eq_refl).
  set (ev := iloc_init e).
  heap_step (load_new h [rated; e; ev; costs; s2; ev] 5 _ eq_refl).
  pure_step. destruct (df_iloc_col0 ev) as [names| |]; rsimp; try done.
  heap_step (setitem_new h [rated; e; ev; costs; s2; ev] 5 _ (L "Flight")
               (map (fun x => L (py_str x)) names) eq_refl).
  set (v1 := df_setitem ev _ _).
  heap_step (load_new h [rated; e; ev; costs; s2; v1] 5 _ eq_refl).
  pure_step. destruct (df_getitem v1 (L "Departure Time")) as [departures| |]; rsimp; try done.
  heap_step (setitem_new h [rated; e; ev; costs; s2; v1] 5 _ (L "Departure Time")
               (map datetime_cell (to_datetime departures)) eq_refl).
  set (v2 := df_setitem v1 _ _).
  heap_step (load_new h [rated; e; ev; costs; s2; v2] 5 _ eq_refl).
  pure_step. destruct (df_getitem v2 (L "Departure Time")) as [times| |]; rsimp; try done.
  pure_step. destruct (mapR get_time_period times) as [periods| |]; rsimp; try done.
  heap_step (setitem_new h [rated; e; ev; costs; s2; v2] 5 _ (L "Time Period") periods eq_refl).
  set (v3 := df_setitem v2 _ _).
  heap_step (load_new h [rated; e; ev; costs; s2; v3] 0 _ eq_refl).
  heap_step (load_new h [rated; e; ev; costs; s2; v3] 3 _ eq_refl).
  heap_step (load_new h [rated; e; ev; costs; s2; v3] 4 _ eq_refl).
  heap_step (load_new h [rated; e; ev; costs; s2; v3] 5 _ eq_refl).
  reflexivity.
Qed.

Lemma run_pipeline c e : run c e = pipeline c e.
Proof.
  unfold run. rewrite (main_pipeline [c; e] 0 1 c e eq_refl eq_refl).
  by destruct (pipeline c e).
Qed.

(** ** Series and dicts *)

Lemma series_lookup_dict_set_eq k v (d : Series) :
  series_lookup k (dict_set k v d) = Some v.
Proof.
  induction d as [|[k' v'] d IH]; simpl.
  - by rewrite decide_True.
  - destruct (decide (k' = k)) as [->|Hne]; simpl.
    + by rewrite decide_True.
    + by rewrite decide_False.
Qed.

Lemma series_lookup_dict_set_ne k k' v (d : Series) :
  k <> k' -> series_lookup k' (dict_set k v d) = series_lookup k' d.
Proof.
  intros Hne. induction d as [|[k0 v0] d IH]; simpl.
  - by rewrite decide_False.
  - destruct (decide (k0 = k)) as [->|Hne0]; simpl.
    + by rewrite !decide_False.
    + by rewrite IH.
Qed.

Lemma getitem_dict_set_eq k v (d : Series) : getitem (dict_set k v d) k = Ok v.
Proof. unfold getitem. by rewrite series_lookup_dict_set_eq. Qed.

Lemma getitem_dict_set_ne k k' v (d : Series) :
  k <> k' -> getitem (dict_set k v d) k' = getitem d k'.
Proof. intros Hne. unfold getitem. by rewrite series_lookup_dict_set_ne. Qed.


(** ** Column assignment *)

Lemma assign_column_lookup label rs vals i :
  assign_column label rs vals !! i
  = (fun r => dict_set label (default (VNum NaN) (vals !! i)) r) <$> rs !! i.
Proof.
  revert vals i. induction rs as [|r rs IH]; intros vals i; simpl; [done|].
  destruct i as [|i]; simpl.
  - by destruct vals.
  - rewrite IH. by destruct vals.
Qed.

Lemma df_setitem_rows df label vals :
  columns df <> [] ->
  rows (df_setitem df label vals) = assign_column label (rows df) vals.
Proof. unfold df_setitem; simpl. by destruct (columns df). Qed.

Lemma df_setitem_columns_ne df label vals :
  columns (df_setitem df label vals) <> [].
Proof.
  unfold df_setitem; simpl. destruct (decide _) as [Hin|Hni].
  - intros Heq. rewrite Heq in Hin. by apply not_elem_of_nil in Hin.
  - by destruct (columns df).
Qed.

(** Each row of the frame after [df[label] = vals] is the row before with
    the new cell set. *)
Lemma df_setitem_row df label vals i r' :
  columns df <> [] -> length vals = length (rows df) ->
  rows (df_setitem df label vals) !! i = Some r' ->
  exists r v, rows df !! i = Some r /\ vals !! i = Some v /\ r' = dict_set label v r.
Proof.
  intros Hne Hlen. rewrite df_setitem_rows, assign_column_lookup by done.
  destruct (rows df !! i) as [r|] eqn:Hr; simpl; [|done].
  intros [= <-]. destruct (vals !! i) as [v|] eqn:Hv; [by eauto|].
  apply lookup_ge_None in Hv. apply lookup_lt_Some in Hr. lia.
Qed.

Lemma df_setitem_row_gen df label vals i r' :
  columns df <> [] ->
  rows (df_setitem df label vals) !! i = Some r' ->
  exists r, rows df !! i = Some r /\
            r' = dict_set label (default (VNum NaN) (vals !! i)) r.
Proof.
  intros Hne. rewrite df_setitem_rows, assign_column_lookup by done.
  destruct (rows df !! i) as [r|] eqn:Hr; simpl; [|done].
  intros [= <-]. by exists r.
Qed.

(** ** The driver-units index *)

Lemma driver_units_snoc total_row cols k :
  driver_units total_row (cols ++ [k])
  = let v := series_get total_row k (VNum NaN) in
    if notna v then <[strip (py_str k) := v]> (driver_units total_row cols)
    else driver_units total_row cols.
Proof. unfold driver_units. by rewrite foldl_app. Qed.

(** An entry of the index is the total of a listed column, not missing. *)
Lemma driver_units_Some total_row cols key v :
  driver_units total_row cols !! key = Some v ->
  exists k, k ∈ cols /\ strip (py_str k) = key /\
            series_get total_row k (VNum NaN) = v /\ isna v = false.
Proof.
  induction cols as [|k cols IH] using rev_ind.
  - unfold driver_units; simpl. by rewrite lookup_empty.
  - rewrite driver_units_snoc; cbv zeta. unfold notna.
    destruct (isna (series_get total_row k (VNum NaN))) eqn:Hna; simpl.
    + intros Hl. destruct (IH Hl) as (k0 & Hin & ?). exists k0.
      split; [|done]. apply elem_of_app. by left.
    + destruct (decide (strip (py_str k) = key)) as [<-|Hne].
      * rewrite lookup_insert_eq. intros [= <-]. exists k.
        split; [|done]. apply elem_of_app. right. by apply list_elem_of_singleton.
      * rewrite lookup_insert_ne by done.
        intros Hl. destruct (IH Hl) as (k0 & Hin & ?). exists k0.
        split; [|done]. apply elem_of_app. by left.
Qed.


(** The cells of a numeric column of the last row are floats. *)
Lemma numeric_total e total_row k :
  iloc_last e = Ok total_row -> k ∈ select_dtypes_number e ->
  exists x, series_get total_row k (VNum NaN) = VNum x.
Proof.
  unfold iloc_last, select_dtypes_number.
  destruct (list.last (rows e)) as [r|] eqn:Hlast; [|done].
  intros [= ->] [Hnum _]%list_elem_of_filter.
  apply last_Some_elem_of in Hlast.
  unfold is_number_column in Hnum. apply Is_true_true in Hnum.
  rewrite forallb_forall in Hnum. apply list_elem_of_In, Hnum in Hlast.
  unfold series_get. destruct (series_lookup k total_row) as [[x| | |]|]; try done.
  by exists x.
Qed.

(** Hence [get_driver_units] always answers with a number. *)
Lemma get_driver_units_Fin e total_row driver :
  iloc_last e = Ok total_row ->
  exists q, get_driver_units (driver_units total_row (select_dtypes_number e)) driver
            = VNum (Fin q).
Proof.
  intros Hlast. unfold get_driver_units.
  destruct (isna driver); [by exists 0%Qc|].
  destruct (_ !! _) as [v|] eqn:Hl; simpl; [|by exists 0%Qc].
  apply driver_units_Some in Hl as (k & Hin & _ & Hv & Hna).
  destruct (numeric_total e total_row k Hlast Hin) as [x Hx].
  rewrite Hx in Hv. subst v. destruct x as [|q]; [done|]. by exists q.
Qed.

(** ** Reading a successful run backwards *)

Lemma bind_Ok_inv {A B} (m : result A) (k : A -> result B) b :
  m ≫= k = Ok b -> exists a, m = Ok a /\ k a = Ok b.
Proof. destruct m as [a| |]; simpl; [|done..]. intros Hk. by exists a. Qed.

Lemma run_Ok_inv c e out :
  run c e = Ok out ->
  required_cols ⊆ columns c /\
  rated_cost_pool c e = Ok (RatedCostPool out) /\
  allocation_matrix (RatedCostPool out) (iloc_init e) = Ok (AllocationMatrix out) /\
  summary_by_type (RatedCostPool out) (AllocationMatrix out) = Ok (Summary out) /\
  visual_table (iloc_init e) = Ok (Visual out).
Proof.
  rewrite run_pipeline. unfold pipeline.
  destruct (bool_decide (required_cols ⊆ columns c)) eqn:Hreq; simpl; [|done].
  apply bool_decide_eq_true in Hreq.
  intros (rated & Hrated & H)%bind_Ok_inv.
  apply bind_Ok_inv in H as (costs & Hcosts & H).
  apply bind_Ok_inv in H as (s & Hs & H).
  apply bind_Ok_inv in H as (v & Hv & H).
  injection H as <-. done.
Qed.

Lemma required_columns_ne c : required_cols ⊆ columns c -> columns c <> [].
Proof.
  intros Hreq Heq. assert (L "Driver" ∈ columns c) as Hin.
  { apply Hreq. unfold required_cols. set_solver. }
  rewrite Heq in Hin. by apply elem_of_nil in Hin.
Qed.

Lemma df_getitem_length df label vals :
  df_getitem df label = Ok vals -> length vals = length (rows df).
Proof.
  unfold df_getitem. destruct (decide _); [|done].
  intros [= <-]. by rewrite length_map.
Qed.

(** The rows of the rated cost pool: the sheet's row with its driver units
    and the rate the lambda of line 69 gives. *)
Lemma rated_row c e rated i r :
  required_cols ⊆ columns c ->
  rated_cost_pool c e = Ok rated -> rows rated !! i = Some r ->
  exists total_row r0 driver rate,
    iloc_last e = Ok total_row /\
    rows c !! i = Some r0 /\
    driver = series_get r0 (L "Driver") (VNum NaN) /\
    let r1 := dict_set (L "Driver_Units")
                (get_driver_units (driver_units total_row (select_dtypes_number e)) driver)
                r0 in
    rate_of_row r1 = Ok rate /\
    r = dict_set (L "RatePerDriverUnit") rate r1.
Proof.
  intros Hreq. unfold rated_cost_pool.
  intros (total_row & Htot & H)%bind_Ok_inv.
  apply bind_Ok_inv in H as (drivers & Hdrv & H).
  apply bind_Ok_inv in H as (rates & Hrates & H).
  injection H as <-. intros Hr.
  pose proof (df_getitem_length _ _ _ Hdrv) as Hlen.
  apply df_setitem_row in Hr as (r1 & rate & Hr1 & Hrate & ->);
    [|apply df_setitem_columns_ne|by apply mapR_length in Hrates].
  destruct (mapR_lookup _ _ _ _ _ Hrates Hr1) as (rate' & Hrate' & Hrow).
  assert (rate' = rate) as -> by congruence.
  apply df_setitem_row in Hr1 as (r0 & du & Hr0 & Hdu & ->);
    [|by apply required_columns_ne|by rewrite length_map].
  unfold df_getitem in Hdrv. destruct (decide _); [|done].
  injection Hdrv as <-. rewrite !list_lookup_fmap, Hr0 in Hdu.
  simpl in Hdu. injection Hdu as <-.
  exists total_row, r0, (series_get r0 (L "Driver") (VNum NaN)), rate.
  by split_and!.
Qed.

(** ** Which failures the stages can end in *)

Lemma benign_bind {A B} (m : result A) (k : A -> result B) :
  benign m -> (forall a, m = Ok a -> benign (k a)) -> benign (m ≫= k).
Proof. destruct m as [a| |]; simpl; auto. Qed.

Lemma benign_mapR {A B} (f : A -> result B) l :
  (forall x, x ∈ l -> benign (f x)) -> benign (mapR f l).
Proof.
  induction l as [|x l IH]; intros Hf; simpl; [done|].
  apply benign_bind; [apply Hf; left|]. intros y _.
  apply benign_bind; [|done]. apply IH. intros z Hz. apply Hf. by right.
Qed.

Lemma benign_foldlR {A B} (f : B -> A -> result B) b l :
  (forall b x, benign (f b x)) -> benign (foldlR f b l).
Proof.
  intros Hf. revert b. induction l as [|x l IH]; intros b; simpl; [done|].
  apply benign_bind; [apply Hf|]. intros b' _. apply IH.
Qed.

Lemma benign_getitem s k : benign (getitem s k).
Proof. unfold getitem. by destruct (series_lookup k s). Qed.

Lemma benign_iloc0 s : benign (iloc0 s).
Proof. by destruct s as [|[]]. Qed.

Lemma benign_df_getitem df k : benign (df_getitem df k).
Proof. unfold df_getitem. by destruct (decide _). Qed.

Lemma benign_df_drop df k : benign (df_drop df k).
Proof. unfold df_drop. by destruct (decide _). Qed.

Lemma benign_df_select df ks : benign (df_select df ks).
Proof. unfold df_select. by destruct (decide _). Qed.

Lemma benign_as_float v : benign (as_float v).
Proof. by destruct v. Qed.

Lemma benign_py_mul a b : benign (py_mul a b).
Proof. by destruct a, b. Qed.

Lemma benign_iloc_last df : benign (iloc_last df).
Proof. unfold iloc_last. by destruct (list.last _). Qed.

Lemma benign_df_iloc_col0 df : benign (df_iloc_col0 df).
Proof. unfold df_iloc_col0. by destruct (columns df). Qed.

Lemma benign_get_time_period t : benign (get_time_period t).
Proof.
  unfold get_time_period. destruct (isna t); [done|].
  destruct t; try done. by repeat case_match.
Qed.

Create HintDb benign.
#[local] Hint Resolve benign_getitem benign_iloc0 benign_df_getitem benign_df_drop
  benign_df_select benign_as_float benign_py_mul benign_iloc_last
  benign_df_iloc_col0 benign_get_time_period : benign.

Ltac benign_steps :=
  repeat first
    [ exact I
    | solve [auto with benign]
    | progress cbv zeta
    | apply benign_mapR; intros ? _
    | apply benign_foldlR; intros ? ?
    | apply benign_bind; [|intros ? _] ].

Lemma benign_df_sum_axis1 df : benign (df_sum_axis1 df).
Proof. unfold df_sum_axis1. benign_steps. Qed.

(** The guard of line 69: the division is reached with a nonzero divisor
    only. *)
Lemma benign_rate_of_row r : benign (rate_of_row r).
Proof.
  unfold rate_of_row, getitem.
  destruct (series_lookup (L "Driver_Units") r) as [du|]; simpl; [|done].
  destruct (py_ne0 du) eqn:Hne; simpl; [|done].
  destruct (series_lookup (L "Total_Cost") r) as [tc|]; simpl; [|done].
  unfold py_div. destruct tc, du; try done.
  unfold py_ne0 in Hne. by destruct (num_is_zero _).
Qed.

Lemma benign_allocate_row acts flight_row : benign (allocate_row acts flight_row).
Proof. unfold allocate_row. benign_steps. Qed.

Lemma benign_activities_of_type cost_df t : benign (activities_of_type cost_df t).
Proof. unfold activities_of_type. benign_steps. Qed.

#[local] Hint Resolve benign_df_sum_axis1 benign_rate_of_row benign_allocate_row
  benign_activities_of_type : benign.

Lemma benign_rated_cost_pool c e : benign (rated_cost_pool c e).
Proof. unfold rated_cost_pool. benign_steps. Qed.

Lemma benign_allocation_matrix rated ev : benign (allocation_matrix rated ev).
Proof. unfold allocation_matrix. benign_steps. Qed.

Lemma benign_summary_by_type rated costs : benign (summary_by_type rated costs).
Proof. unfold summary_by_type, summary_step. benign_steps. Qed.

Lemma benign_visual_table ev : benign (visual_table ev).
Proof. unfold visual_table. benign_steps. Qed.

#[local] Hint Resolve benign_rated_cost_pool benign_allocation_matrix
  benign_summary_by_type benign_visual_table : benign.

(** Once the validation has passed, nothing stops the script and no
    division by zero is raised. *)
Lemma run_benign c e : required_cols ⊆ columns c -> benign (run c e).
Proof.
  intros Hreq. rewrite run_pipeline. unfold pipeline.
  rewrite (bool_decide_eq_true_2 _ Hreq); simpl. benign_steps.
Qed.

(** ** The allocation loop *)

Lemma dict_set_fresh k v (d : Series) :
  k ∉ d.*1 -> dict_set k v d = d ++ [(k, v)].
Proof.
  induction d as [|[k' v'] d IH]; simpl; [done|].
  rewrite not_elem_of_cons. intros [Hne Hni].
  rewrite decide_False by done. by rewrite IH.
Qed.

Lemma foldl_dict_set_fresh (names cells : list value) (init : Series) :
  NoDup names -> (forall n, n ∈ names -> n ∉ init.*1) ->
  length cells = length names ->
  foldl (fun d p => dict_set p.1 p.2 d) init (zip names cells)
  = init ++ zip names cells.
Proof.
  revert cells init. induction names as [|n names IH]; intros cells init Hnd Hfresh Hlen.
  - simpl. by rewrite app_nil_r.
  - destruct cells as [|x cells]; [done|]. simpl.
    apply NoDup_cons in Hnd as [Hn Hnd].
    rewrite dict_set_fresh by (apply Hfresh; left).
    rewrite IH; [by rewrite <- (assoc_L (++))|done| |simpl in Hlen; lia].
    intros m Hm. rewrite fmap_app, elem_of_app. simpl.
    rewrite list_elem_of_singleton. intros [Hin| ->]; [|done].
    by apply (Hfresh m); [right|].
Qed.

Lemma allocated_cost_Ok F act driver rate cost :
  getitem act (L "Driver") = Ok driver ->
  getitem act (L "RatePerDriverUnit") = Ok rate ->
  py_mul (series_get F driver zero) rate = Ok cost ->
  allocated_cost F act = Ok cost.
Proof. intros Hd Hr Hc. unfold allocated_cost. by rewrite Hd, Hr. Qed.

(** The loop over the activities sets, name by name, the allocated cost of
    the flight. *)
Lemma allocate_loop (acts : list Series) (F init row_cost : Series) :
  foldlR (fun row_cost act =>
            driver ← getitem act (L "Driver");
            rate ← getitem act (L "RatePerDriverUnit");
            cost ← py_mul (series_get F driver zero) rate;
            activity ← getitem act (L "Activity");
            Ok (dict_set activity cost row_cost)) init acts = Ok row_cost ->
  exists names cells,
    mapR (fun act => getitem act (L "Activity")) acts = Ok names /\
    mapR (allocated_cost F) acts = Ok cells /\
    row_cost = foldl (fun d p => dict_set p.1 p.2 d) init (zip names cells).
Proof.
  revert init. induction acts as [|act acts IH]; intros init; simpl.
  - intros [= <-]. by exists [], [].
  - intros (d1 & Hstep & Hrest)%bind_Ok_inv.
    apply bind_Ok_inv in Hstep as (driver & Hdriver & Hstep).
    apply bind_Ok_inv in Hstep as (rate & Hrate & Hstep).
    apply bind_Ok_inv in Hstep as (cost & Hcost & Hstep).
    apply bind_Ok_inv in Hstep as (activity & Hact & Hstep).
    injection Hstep as <-.
    destruct (IH _ Hrest) as (names & cells & Hnames & Hcells & ->).
    exists (activity :: names), (cost :: cells).
    split_and!; cbn [mapR].
    + by rewrite Hact, Hnames.
    + by rewrite (allocated_cost_Ok F act driver rate cost), Hcells.
    + done.
Qed.

(** ** Frames from records *)

Lemma reindex_id (d : Series) : NoDup (d.*1) -> reindex (d.*1) d = d.
Proof.
  unfold reindex. induction d as [|[k v] d IH]; simpl; [done|].
  intros [Hk Hnd]%NoDup_cons. unfold series_get at 1. simpl.
  rewrite decide_True by done. f_equal.
  rewrite <- (IH Hnd) at 2. apply map_ext_in. intros c Hc%list_elem_of_In.
  unfold series_get. simpl. rewrite decide_False; [done|].
  intros ->. done.
Qed.

Lemma filter_all {A} (P : A -> Prop) `{!forall x, Decision (P x)} (l : list A) :
  (forall x, x ∈ l -> P x) -> filter P l = l.
Proof.
  induction l as [|x l IH]; intros HP; [done|].
  rewrite filter_cons_True by (apply HP; left).
  f_equal. apply IH. intros y Hy. apply HP. by right.
Qed.

Lemma filter_none {A} (P : A -> Prop) `{!forall x, Decision (P x)} (l : list A) :
  (forall x, x ∈ l -> ~ P x) -> filter P l = [].
Proof.
  induction l as [|x l IH]; intros HP; [done|].
  rewrite filter_cons_False by (apply HP; left).
  apply IH. intros y Hy. apply HP. by right.
Qed.

Lemma records_columns_same (ks : list value) (ds : list Series) :
  ds <> [] -> Forall (fun d => d.*1 = ks) ds -> records_columns ds = ks.
Proof.
  unfold records_columns. intros Hne Hall.
  assert (forall acc, (acc = [] /\ ds <> []) \/ acc = ks ->
            foldl (fun acc d => acc ++ filter (fun k => k ∉ acc) (d.*1)) acc ds = ks)
    as Hgen.
  { clear Hne. induction Hall as [|d ds Hd Hall IH]; intros acc Hacc; simpl.
    - by destruct Hacc as [[_ ?]| ->].
    - apply IH. right. rewrite Hd. destruct Hacc as [[-> _]| ->]; simpl.
      + apply filter_all. intros k _. apply not_elem_of_nil.
      + rewrite filter_none; [by rewrite app_nil_r|]. by intros k Hk Hni. }
  apply Hgen. by left.
Qed.

Lemma mapR_Forall2 {A B} (f : A -> result B) l ys :
  mapR f l = Ok ys -> Forall2 (fun x y => f x = Ok y) l ys.
Proof.
  revert ys. induction l as [|x l IH]; intros ys; simpl.
  - intros [= <-]. constructor.
  - intros (y & Hy & H)%bind_Ok_inv.
    apply bind_Ok_inv in H as (ys' & Hys & H). injection H as <-.
    constructor; [done|]. by apply IH.
Qed.

Lemma assign_column_length label rs vals :
  length (assign_column label rs vals) = length rs.
Proof.
  revert vals. induction rs as [|r rs IH]; intros vals; simpl; [done|].
  by rewrite IH.
Qed.

Lemma fst_zip_eq {A B} (l : list A) (k : list B) :
  length l = length k -> (zip l k).*1 = l.
Proof. intros Hlen. apply fst_zip. lia. Qed.

Lemma snd_zip_eq {A B} (l : list A) (k : list B) :
  length l = length k -> (zip l k).*2 = k.
Proof. intros Hlen. apply snd_zip. lia. Qed.

(** One record of [costs_data]: the flight's label, then the allocated cost
    under each activity's name. *)
Lemma allocate_row_record (acts : list Series) (names : list value) F d :
  mapR (fun act => getitem act (L "Activity")) acts = Ok names ->
  NoDup names -> L "Flight" ∉ names ->
  allocate_row acts F = Ok d ->
  exists flight_name cells,
    iloc0 F = Ok flight_name /\
    mapR (allocated_cost F) acts = Ok cells /\
    length cells = length names /\
    d = (L "Flight", L (py_str flight_name)) :: zip names cells.
Proof.
  intros Hnames Hnd Hfl. unfold allocate_row.
  intros (flight_name & Hname & Hloop)%bind_Ok_inv.
  apply allocate_loop in Hloop as (names' & cells & Hnames' & Hcells & ->).
  assert (names' = names) as -> by congruence.
  assert (length cells = length names) as Hlen.
  { apply mapR_length in Hnames, Hcells. congruence. }
  exists flight_name, cells. split_and!; try done.
  rewrite foldl_dict_set_fresh; try done.
  intros n Hn. simpl. rewrite list_elem_of_singleton. by intros ->.
Qed.

(** The rows of the allocation table. *)
Lemma allocation_row rated ev costs (names : list value) i cost_row :
  mapR (fun act => getitem act (L "Activity")) (rows rated) = Ok names ->
  NoDup names -> L "Flight" ∉ names ->
  allocation_matrix rated ev = Ok costs ->
  rows costs !! i = Some cost_row ->
  exists F flight_name cells nums,
    rows ev !! i = Some F /\
    iloc0 F = Ok flight_name /\
    mapR (allocated_cost F) (rows rated) = Ok cells /\
    length cells = length names /\
    mapR as_float cells = Ok nums /\
    cost_row = dict_set (L "Total_Cost_Per_Flight") (VNum (nansum nums))
                 ((L "Flight", L (py_str flight_name)) :: zip names cells).
Proof.
  intros Hnames Hnd Hfl. unfold allocation_matrix.
  intros (costs_data & Hdata & H)%bind_Ok_inv. cbv zeta in H.
  apply bind_Ok_inv in H as (dropped & Hdrop & H).
  apply bind_Ok_inv in H as (totals & Htot & H).
  injection H as H. rewrite <- H. clear H costs. intros Hrow.
  apply mapR_Forall2 in Hdata.
  assert (Forall (fun d : Series => d.*1 = L "Flight" :: names) costs_data) as Hkeys.
  { apply Forall_forall. intros d Hd.
    apply list_elem_of_lookup in Hd as [j Hd].
    destruct (Forall2_lookup_r _ _ _ _ _ Hdata Hd) as (F & _ & HF).
    apply (allocate_row_record _ names) in HF as (fn & cells & _ & _ & Hlen & ->);
      try done.
    simpl. by rewrite fst_zip_eq. }
  assert (costs_data <> []) as Hne.
  { intros ->. by unfold df_drop in Hdrop. }
  assert (NoDup (L "Flight" :: names)) as Hnd' by by apply NoDup_cons.
  assert (DataFrame_from_records costs_data
          = mkDataFrame (L "Flight" :: names) costs_data) as Hcs.
  { unfold DataFrame_from_records.
    rewrite (records_columns_same (L "Flight" :: names)) by done.
    f_equal. rewrite <- (map_id costs_data) at 2.
    apply map_ext_in. intros d Hd%list_elem_of_In.
    rewrite Forall_forall in Hkeys. rewrite <- (Hkeys d Hd).
    apply reindex_id. by rewrite (Hkeys d Hd). }
  rewrite Hcs in *. clear Hcs.
  apply df_setitem_row_gen in Hrow as (d & Hd & ->); [|done]. simpl in Hd.
  destruct (Forall2_lookup_r _ _ _ _ _ Hdata Hd) as (F & HF & Hal).
  apply (allocate_row_record _ names) in Hal
    as (fn & cells & Hfn & Hcells & Hlen & ->); try done.
  unfold df_drop in Hdrop. simpl in Hdrop.
  injection Hdrop as <-.
  unfold df_sum_axis1 in Htot. simpl in Htot.
  destruct (mapR_lookup _ _ _ i
              (filter (fun kv : value * value => kv.1 ≠ L "Flight")
                      ((L "Flight", L (py_str fn)) :: zip names cells)) Htot)
    as (total & Htotal & Hsum).
  { rewrite list_lookup_fmap, Hd. done. }
  rewrite Htotal. simpl.
  rewrite filter_cons_False in Hsum by (simpl; by intros []).
  rewrite filter_all in Hsum.
  2:{ intros [k v] Hkv%elem_of_zip_l. simpl. by intros ->. }
  rewrite snd_zip_eq in Hsum by done.
  apply bind_Ok_inv in Hsum as (nums & Hnums & Hsum). injection Hsum as <-.
  exists F, fn, cells, nums. by split_and!.
Qed.

(** ** The rated cost pool keeps the sheet's cells *)

Lemma rated_length c e rated :
  required_cols ⊆ columns c -> rated_cost_pool c e = Ok rated ->
  length (rows rated) = length (rows c).
Proof.
  intros Hreq. unfold rated_cost_pool.
  intros (total_row & _ & H)%bind_Ok_inv.
  apply bind_Ok_inv in H as (drivers & _ & H).
  apply bind_Ok_inv in H as (rates & _ & H).
  injection H as <-.
  rewrite df_setitem_rows by apply df_setitem_columns_ne.
  rewrite assign_column_length.
  rewrite df_setitem_rows by by apply required_columns_ne.
  by rewrite assign_column_length.
Qed.

Lemma rated_lookup c e rated j A :
  required_cols ⊆ columns c -> rated_cost_pool c e = Ok rated ->
  rows rated !! j = Some A ->
  exists r0, rows c !! j = Some r0 /\
    forall k, k <> L "Driver_Units" -> k <> L "RatePerDriverUnit" ->
              series_lookup k A = series_lookup k r0.
Proof.
  intros Hreq Hrated HA.
  destruct (rated_row _ _ _ _ _ Hreq Hrated HA)
    as (total_row & r0 & driver & rate & _ & Hr0 & _ & _ & ->).
  exists r0. split; [done|]. intros k Hk1 Hk2.
  by rewrite !series_lookup_dict_set_ne.
Qed.

Lemma rated_column c e rated (label : value) :
  required_cols ⊆ columns c -> rated_cost_pool c e = Ok rated ->
  label <> L "Driver_Units" -> label <> L "RatePerDriverUnit" ->
  map (fun r => series_get r label (VNum NaN)) (rows rated)
  = map (fun r => series_get r label (VNum NaN)) (rows c).
Proof.
  intros Hreq Hrated Hl1 Hl2.
  apply list_eq. intros j. rewrite !list_lookup_fmap.
  destruct (rows rated !! j) as [A|] eqn:HA; simpl.
  - destruct (rated_lookup _ _ _ _ _ Hreq Hrated HA) as (r0 & -> & Hsame).
    simpl. unfold series_get. by rewrite Hsame.
  - apply lookup_ge_None in HA.
    rewrite (rated_length _ _ _ Hreq Hrated) in HA.
    apply lookup_ge_None in HA. by rewrite HA.
Qed.

Lemma mapR_getitem_series_get (rs : list Series) (label : value) vals :
  mapR (fun r => getitem r label) rs = Ok vals ->
  vals = map (fun r => series_get r label (VNum NaN)) rs.
Proof.
  revert vals. induction rs as [|r rs IH]; intros vals; simpl.
  - by intros [= <-].
  - intros (v & Hv & H)%bind_Ok_inv.
    apply bind_Ok_inv in H as (vs & Hvs & H). injection H as <-.
    rewrite <- (IH vs Hvs). f_equal.
    unfold getitem in Hv. unfold series_get.
    destruct (series_lookup label r); [|done]. by injection Hv.
Qed.

Lemma rated_names c e rated names :
  required_cols ⊆ columns c -> rated_cost_pool c e = Ok rated ->
  mapR (fun act => getitem act (L "Activity")) (rows rated) = Ok names ->
  names = activity_names c.
Proof.
  intros Hreq Hrated ->%mapR_getitem_series_get.
  by apply (rated_column c e).
Qed.

(** The names under which the allocation loop stores its cells. *)
Lemma allocation_names rated ev costs :
  allocation_matrix rated ev = Ok costs ->
  exists names, mapR (fun act => getitem act (L "Activity")) (rows rated) = Ok names.
Proof.
  unfold allocation_matrix. intros (costs_data & Hdata & H)%bind_Ok_inv.
  cbv zeta in H. apply bind_Ok_inv in H as (dropped & Hdrop & _).
  destruct costs_data as [|d ds]; [done|].
  destruct (rows ev) as [|F Fs]; [done|].
  simpl in Hdata. apply bind_Ok_inv in Hdata as (d' & Hd & _).
  unfold allocate_row in Hd. apply bind_Ok_inv in Hd as (fn & _ & Hloop).
  apply allocate_loop in Hloop as (names & _ & Hnames & _). by exists names.
Qed.

Lemma series_lookup_zip (names cells : list value) j a x :
  NoDup names -> names !! j = Some a -> cells !! j = Some x ->
  series_lookup a (zip names cells) = Some x.
Proof.
  revert cells j. induction names as [|n names IH]; intros cells j Hnd Ha Hx.
  - by rewrite lookup_nil in Ha.
  - destruct cells as [|y cells]; [by rewrite lookup_nil in Hx|].
    apply NoDup_cons in Hnd as [Hn Hnd]. simpl.
    destruct j as [|j]; simpl in *.
    + injection Ha as ->. injection Hx as ->. by rewrite decide_True.
    + rewrite decide_False; [by eapply IH|].
      intros ->. apply Hn. by eapply list_elem_of_lookup_2.
Qed.

(** The lambda of line 69 returns a float. *)
Lemma rate_of_row_num r rate : rate_of_row r = Ok rate -> exists x, rate = VNum x.
Proof.
  unfold rate_of_row. intros (du & _ & H)%bind_Ok_inv.
  destruct (py_ne0 du).
  - apply bind_Ok_inv in H as (tc & _ & H).
    apply bind_Ok_inv in H as (du' & _ & H).
    unfold py_div in H. destruct tc, du'; try done.
    destruct (num_is_zero _); [done|]. injection H as <-. by eexists.
  - injection H as <-. by eexists.
Qed.

Lemma rated_rate c e rated j A :
  required_cols ⊆ columns c -> rated_cost_pool c e = Ok rated ->
  rows rated !! j = Some A ->
  exists x, getitem A (L "RatePerDriverUnit") = Ok (VNum x).
Proof.
  intros Hreq Hrated HA.
  destruct (rated_row _ _ _ _ _ Hreq Hrated HA)
    as (total_row & r0 & driver & rate & _ & _ & _ & Hrate & ->).
  apply rate_of_row_num in Hrate as [x ->]. exists x.
  apply getitem_dict_set_eq.
Qed.

Lemma allocation_length rated ev costs :
  allocation_matrix rated ev = Ok costs -> length (rows costs) = length (rows ev).
Proof.
  unfold allocation_matrix. intros (costs_data & Hdata & H)%bind_Ok_inv.
  cbv zeta in H. apply bind_Ok_inv in H as (dropped & Hdrop & H).
  apply bind_Ok_inv in H as (totals & _ & H). injection H as <-.
  assert (columns (DataFrame_from_records costs_data) <> []) as Hne.
  { unfold df_drop in Hdrop. destruct (decide _) as [Hin|]; [|done].
    intros Heq. rewrite Heq in Hin. by apply elem_of_nil in Hin. }
  rewrite df_setitem_rows, assign_column_length by done.
  simpl. rewrite length_map. by apply mapR_length in Hdata.
Qed.

(** ** Sums *)

Lemma nansum_Fin l : nansum l = Fin (sumQ (map numQ l)).
Proof.
  unfold nansum, sum_list. induction l as [|x l IH]; simpl; [done|].
  rewrite IH. by destruct x.
Qed.




(** ** The allocation table of a run *)

(** Row [i] of the allocation table is built from flight row [i]: the
    flight's label, the allocated cost under each activity's name, and the
    row sum. *)
Lemma run_allocation_row c e out i F :
  run c e = Ok out -> wf_activities c ->
  rows (iloc_init e) !! i = Some F ->
  exists flight_name cells nums,
    iloc0 F = Ok flight_name /\
    mapR (allocated_cost F) (rows (RatedCostPool out)) = Ok cells /\
    length cells = length (activity_names c) /\
    mapR as_float cells = Ok nums /\
    rows (AllocationMatrix out) !! i
    = Some (dict_set (L "Total_Cost_Per_Flight") (VNum (nansum nums))
              ((L "Flight", L (py_str flight_name)) :: zip (activity_names c) cells)).
Proof.
  intros (Hreq & Hrated & Hcosts & _)%run_Ok_inv (Hnd & Hfl & _) HF.
  destruct (allocation_names _ _ _ Hcosts) as [names Hnames].
  pose proof (rated_names _ _ _ _ Hreq Hrated Hnames) as ->.
  destruct (lookup_lt_is_Some_2 (rows (AllocationMatrix out)) i) as [cost_row Hrow].
  { rewrite (allocation_length _ _ _ Hcosts). by eapply lookup_lt_Some. }
  destruct (allocation_row _ _ _ _ _ _ Hnames Hnd Hfl Hcosts Hrow)
    as (F' & fn & cells & nums & HF' & Hfn & Hcells & Hlen & Hnums & ->).
  assert (F' = F) as -> by congruence.
  exists fn, cells, nums. by split_and!.
Qed.

Lemma getitem_Ok_lookup (s : Series) k v :
  getitem s k = Ok v <-> series_lookup k s = Some v.
Proof.
  unfold getitem. destruct (series_lookup k s); split; intros H; try done.
  - by injection H as ->.
  - by injection H as ->.
Qed.

(** The cell the allocation table holds for an activity. *)
Lemma cost_row_lookup (names cells : list value) total fn j a x :
  NoDup names -> L "Flight" ∉ names -> L "Total_Cost_Per_Flight" ∉ names ->
  names !! j = Some a -> cells !! j = Some x ->
  getitem (dict_set (L "Total_Cost_Per_Flight") total
             ((L "Flight", fn) :: zip names cells)) a = Ok x.
Proof.
  intros Hnd Hfl Htot Ha Hx.
  assert (a ∈ names) as Hin by by eapply list_elem_of_lookup_2.
  rewrite getitem_dict_set_ne by (intros <-; done).
  apply getitem_Ok_lookup. simpl.
  rewrite decide_False by (intros <-; done).
  by eapply series_lookup_zip.
Qed.

(** The cell of flight row [F] for each activity row. *)
Lemma run_allocation_cell (c e : DataFrame) out i F :
  run c e = Ok out -> wf_activities c ->
  rows (iloc_init e) !! i = Some F ->
  exists cost_row,
    rows (AllocationMatrix out) !! i = Some cost_row /\
    forall j A,
      rows (RatedCostPool out) !! j = Some A ->
      exists activity driver rate cell,
        getitem A (L "Activity") = Ok activity /\
        getitem A (L "Driver") = Ok driver /\
        getitem A (L "RatePerDriverUnit") = Ok (VNum rate) /\
        getitem cost_row activity = Ok cell /\
        allocated_cost F A = Ok cell /\
        (forall v, series_lookup driver F = Some v ->
                   py_mul v (VNum rate) = Ok cell) /\
        (series_lookup driver F = None ->
         py_mul zero (VNum rate) = Ok cell /\
         (is_nan rate = false -> cell = zero)).
Proof.
  intros Hrun Hwf HF.
  destruct (run_allocation_row _ _ _ _ _ Hrun Hwf HF)
    as (fn & cells & nums & Hfn & Hcells & Hlen & Hnums & Hrow).
  eexists. split; [exact Hrow|]. intros j A HA.
  pose proof Hrun as (Hreq & Hrated & Hcosts & _)%run_Ok_inv.
  destruct (mapR_lookup _ _ _ _ _ Hcells HA) as (cell & Hcell & Hcost).
  destruct (rated_rate _ _ _ _ _ Hreq Hrated HA) as [rate Hrate].
  assert (exists activity, activity_names c !! j = Some activity) as [activity Hact].
  { apply lookup_lt_is_Some_2. rewrite <- Hlen. by eapply lookup_lt_Some. }
  assert (getitem A (L "Activity") = Ok activity) as HAact.
  { destruct (allocation_names _ _ _ Hcosts) as [names Hnames].
    pose proof (rated_names _ _ _ _ Hreq Hrated Hnames) as ->.
    destruct (mapR_lookup _ _ _ _ _ Hnames HA) as (a' & Ha' & Hget).
    congruence. }
  pose proof Hcost as Hcost'. unfold allocated_cost in Hcost'.
  apply bind_Ok_inv in Hcost' as (driver & Hdriver & Hcost').
  rewrite Hrate in Hcost'. simpl in Hcost'.
  exists activity, driver, rate, cell. split_and!; try done.
  - destruct Hwf as (Hnd & Hfl & Htot).
    by apply (cost_row_lookup (activity_names c) cells _ _ j).
  - intros v Hv. by rewrite Hv in Hcost'.
  - intros Hnone. rewrite Hnone in Hcost'. split; [done|].
    intros Hnan. destruct rate as [|q]; [done|].
    simpl in Hcost'. injection Hcost' as <-. unfold zero. do 2 f_equal. ring.
Qed.

(** ** Names of the type columns *)




Ltac peel s H :=
  repeat (destruct s as [|? s]; simpl in H; [discriminate H|];
          injection H as _ H);
  destruct s; discriminate H.

Lemma type_column_not_flight t : type_column t <> L "Flight".
Proof.
  unfold type_column, L. intros [= H]. generalize dependent (py_str t).
  intros s H. peel s H.
Qed.


(** ** [unique] *)

Lemma elem_of_unique_from seen l x :
  x ∈ unique_from seen l <-> x ∈ l /\ x ∉ seen.
Proof.
  revert seen. induction l as [|y l IH]; intros seen; simpl.
  - split; [by intros ?%elem_of_nil|]. by intros [?%elem_of_nil _].
  - destruct (decide (y ∈ seen)) as [Hy|Hy].
    + rewrite IH, elem_of_cons. split; [intros [Hx Hni]; by auto|].
      intros [[->|Hx] Hni]; [done|]. done.
    + rewrite !elem_of_cons, IH, not_elem_of_cons. split.
      * intros [->|[Hx [Hne Hni]]]; [by auto|by auto].
      * intros [[->|Hx] Hni]; [by left|].
        destruct (decide (x = y)) as [->|Hne]; [by left|by right].
Qed.

Lemma NoDup_unique_from seen l : NoDup (unique_from seen l).
Proof.
  revert seen. induction l as [|y l IH]; intros seen; simpl; [constructor|].
  destruct (decide (y ∈ seen)); [apply IH|].
  apply NoDup_cons. split; [|apply IH].
  rewrite elem_of_unique_from, not_elem_of_cons. intros [_ [Hne _]]. by apply Hne.
Qed.

Lemma elem_of_unique l x : x ∈ unique l <-> x ∈ l.
Proof.
  unfold unique. rewrite elem_of_unique_from.
  split; [by intros [? _]|]. intros Hx. split; [done|]. apply not_elem_of_nil.
Qed.

Lemma NoDup_unique l : NoDup (unique l).
Proof. apply NoDup_unique_from. Qed.

(** ** Sums by type *)





Lemma filter_ext_in {A} (P Q : A -> Prop) `{!forall x, Decision (P x)}
      `{!forall x, Decision (Q x)} (l : list A) :
  (forall x, x ∈ l -> P x <-> Q x) -> filter P l = filter Q l.
Proof.
  induction l as [|x l IH]; intros HPQ; [done|].
  rewrite !filter_cons.
  destruct (decide (P x)) as [HP|HP], (decide (Q x)) as [HQ|HQ].
  - f_equal. apply IH. intros y Hy. apply HPQ. by right.
  - destruct HQ. apply HPQ; [left|done].
  - destruct HP. apply HPQ; [left|done].
  - apply IH. intros y Hy. apply HPQ. by right.
Qed.





(** ** The summary loop *)

Lemma summary_step_type_sums rated costs s t :
  summary_step rated costs s t
  = type_sums rated costs t ≫= fun sums => Ok (df_setitem s (type_column t) sums).
Proof.
  unfold summary_step, type_sums.
  destruct (activities_of_type rated t) as [acts| |]; simpl; try done.
  by destruct (df_select costs acts).
Qed.

Lemma summary_fold rated costs ts s s' :
  foldlR (summary_step rated costs) s ts = Ok s' ->
  exists sumss,
    mapR (type_sums rated costs) ts = Ok sumss /\
    s' = foldl (fun s p => df_setitem s (type_column p.1) p.2) s (zip ts sumss).
Proof.
  revert s. induction ts as [|t ts IH]; intros s; simpl.
  - intros [= <-]. by exists [].
  - rewrite summary_step_type_sums.
    intros (s1 & Hs1 & Hrest)%bind_Ok_inv.
    apply bind_Ok_inv in Hs1 as (sums & Hsums & Hs1). injection Hs1 as <-.
    destruct (IH _ Hrest) as (sumss & Hsumss & ->).
    exists (sums :: sumss). by rewrite Hsums, Hsumss.
Qed.

Lemma foldl_setitem_columns_ne (ps : list (value * list value)) s :
  columns s <> [] ->
  columns (foldl (fun s p => df_setitem s (type_column p.1) p.2) s ps) <> [].
Proof.
  revert s. induction ps as [|p ps IH]; intros s Hne; simpl; [done|].
  apply IH, df_setitem_columns_ne.
Qed.





Lemma df_setitem_columns_keep df label vals (k : value) :
  k ∈ columns df -> k ∈ columns (df_setitem df label vals).
Proof.
  intros Hk. unfold df_setitem; simpl. destruct (decide _); [done|].
  apply elem_of_app. by left.
Qed.


Lemma df_getitem_Ok df (label : value) :
  label ∈ columns df ->
  df_getitem df label = Ok (map (fun r => series_get r label (VNum NaN)) (rows df)).
Proof. intros Hin. unfold df_getitem. by rewrite decide_True. Qed.

Lemma df_getitem_Ok_inv df (label : value) vals :
  df_getitem df label = Ok vals ->
  vals = map (fun r => series_get r label (VNum NaN)) (rows df).
Proof. unfold df_getitem. destruct (decide _); [|done]. by intros [= <-]. Qed.



(** ** The summary of a run *)


(** ** Trimming *)

Lemma lstrip_head (s : string) :
  lstrip s = EmptyString \/ exists c s', lstrip s = String c s' /\ is_space c = false.
Proof.
  induction s as [|c s IH]; simpl; [by left|].
  destruct (is_space c) eqn:Hc; [done|]. right. by exists c, s.
Qed.

Lemma rstrip_idemp (s : string) : rstrip (rstrip s) = rstrip s.
Proof.
  induction s as [|c s IH]; simpl; [done|].
  destruct (rstrip s) as [|c' r] eqn:Hr.
  - destruct (is_space c) eqn:Hc; simpl; [done|]. by rewrite Hc.
  - simpl in *. by rewrite IH.
Qed.

Lemma rstrip_head c s :
  is_space c = false -> exists r, rstrip (String c s) = String c r.
Proof.
  intros Hc. simpl. destruct (rstrip s) as [|c' r]; [|by eexists].
  rewrite Hc. by eexists.
Qed.

(** Trimming a trimmed text changes nothing. *)
Lemma strip_idemp (s : string) : strip (strip s) = strip s.
Proof.
  unfold strip. destruct (lstrip_head s) as [->|(c & s' & -> & Hc)]; [done|].
  destruct (rstrip_head c s' Hc) as [r Hr]. rewrite Hr.
  simpl lstrip. rewrite Hc, <- Hr. apply rstrip_idemp.
Qed.

(** ** The total column of the summary *)





(** ** The claims *)

(** C1. For every cost-pool row the computed RatePerDriverUnit is Total_Cost
    divided by Driver_Units when Driver_Units is nonzero and 0 when it is 0,
    and no division error is raised: a run never ends in ZeroDivisionError,
    the rated cost pool has a row for each row of the sheet, each carrying
    a finite Driver_Units and the rate the two cases give, and the lambda of
    line 69 returns on every row whose two cells are numbers. *)
Theorem rate_per_driver_unit (c e : DataFrame) :
  run c e <> Raise ZeroDivisionError /\
  (forall out,
      run c e = Ok out ->
      length (rows (RatedCostPool out)) = length (rows c) /\
      forall i r,
        rows (RatedCostPool out) !! i = Some r ->
        exists du : Qc,
          getitem r (L "Driver_Units") = Ok (VNum (Fin du)) /\
          (du <> 0%Qc ->
           exists tc, getitem r (L "Total_Cost") = Ok (VNum tc) /\
                      getitem r (L "RatePerDriverUnit")
                      = Ok (VNum (num_div tc (Fin du)))) /\
          (du = 0%Qc -> getitem r (L "RatePerDriverUnit") = Ok zero)) /\
  (forall (r : Series) tc (du : Qc),
      getitem r (L "Total_Cost") = Ok (VNum tc) ->
      getitem r (L "Driver_Units") = Ok (VNum (Fin du)) ->
      rate_of_row r
      = Ok (if decide (du = 0%Qc) then zero else VNum (num_div tc (Fin du)))).
Proof.
  split_and!.
  - destruct (decide (required_cols ⊆ columns c)) as [Hreq|Hreq].
    + pose proof (run_benign c e Hreq) as Hb. intros Heq. by rewrite Heq in Hb.
    + rewrite run_pipeline. unfold pipeline.
      by rewrite (bool_decide_eq_false_2 _ Hreq).
  - intros out Hrun.
    apply run_Ok_inv in Hrun as (Hreq & Hrated & _).
    split; [by apply (rated_length c e)|]. intros i r Hr.
    destruct (rated_row _ _ _ _ _ Hreq Hrated Hr)
      as (total_row & r0 & driver & rate & Hlast & Hr0 & -> & Hrate & ->).
    cbv zeta in Hrate.
    destruct (get_driver_units_Fin e total_row
                (series_get r0 (L "Driver") (VNum NaN)) Hlast) as [du Hdu].
    rewrite Hdu in *. exists du.
    rewrite getitem_dict_set_ne, getitem_dict_set_eq by done.
    split; [done|].
    unfold rate_of_row in Hrate.
    rewrite getitem_dict_set_eq in Hrate. simpl in Hrate.
    rewrite getitem_dict_set_eq.
    rewrite !getitem_dict_set_ne by done.
    rewrite getitem_dict_set_ne in Hrate by done.
    split.
    + intros Hne. rewrite bool_decide_eq_false_2 in Hrate by done. simpl in Hrate.
      destruct (getitem r0 (L "Total_Cost")) as [tc| |]; simpl in Hrate; try done.
      destruct tc as [tc| | |]; simpl in Hrate; try done.
      rewrite bool_decide_eq_false_2 in Hrate by done.
      injection Hrate as <-. by exists tc.
    + intros ->. rewrite bool_decide_eq_true_2 in Hrate by done. simpl in Hrate.
      by injection Hrate as <-.
  - intros r tc du Htc Hdu. unfold rate_of_row.
    rewrite Hdu; simpl. case_bool_decide as Hz; simpl.
    + by rewrite decide_True.
    + rewrite Htc; simpl. rewrite (bool_decide_eq_false_2 _ Hz).
      by rewrite decide_False.
Qed.





(** C6. A missing or unparseable departure time gives "Unknown"; otherwise
    the hour h gives Morning for 5 <= h < 12, Afternoon for 12 <= h < 17,
    Evening for 17 <= h < 21 and Night for every other hour.  In the table
    for the visuals each row's Time Period is [get_time_period] of the
    row's converted Departure Time, which is a timestamp or missing. *)
Theorem time_period_classification :
  (forall t, isna t = true -> get_time_period t = Ok (L "Unknown")) /\
  get_time_period (datetime_cell None) = Ok (L "Unknown") /\
  (forall ts,
      let h := hour ts in
      let period := get_time_period (datetime_cell (Some ts)) in
      ((5 <= h < 12)%Z -> period = Ok (L "Morning")) /\
      ((12 <= h < 17)%Z -> period = Ok (L "Afternoon")) /\
      ((17 <= h < 21)%Z -> period = Ok (L "Evening")) /\
      ((h < 5 \/ 21 <= h)%Z -> period = Ok (L "Night"))) /\
  (forall c e out i r,
      run c e = Ok out -> rows (Visual out) !! i = Some r ->
      exists t p,
        getitem r (L "Departure Time") = Ok t /\
        (isna t = true \/ exists ts, t = VTime ts) /\
        get_time_period t = Ok p /\
        getitem r (L "Time Period") = Ok p).
Proof.
  split_and!.
  - intros t Hna. unfold get_time_period. by rewrite Hna.
  - done.
  - intros ts h period. subst h period. unfold get_time_period; simpl.
    destruct (Z.leb_spec 5 (hour ts)), (Z.ltb_spec (hour ts) 12),
      (Z.leb_spec 12 (hour ts)), (Z.ltb_spec (hour ts) 17),
      (Z.leb_spec 17 (hour ts)), (Z.ltb_spec (hour ts) 21);
      simpl; split_and!; intros; try done; lia.
  - intros c e out i r Hrun Hr.
    apply run_Ok_inv in Hrun as (_ & _ & _ & _ & Hviz).
    unfold visual_table in Hviz.
    apply bind_Ok_inv in Hviz as (names & _ & H).
    apply bind_Ok_inv in H as (departures & _ & H).
    apply bind_Ok_inv in H as (times & Htimes & H).
    apply bind_Ok_inv in H as (periods & Hperiods & H).
    injection H as H. rewrite <- H in Hr. clear H.
    set (v1 := df_setitem (iloc_init e) _ _) in *.
    set (v2 := df_setitem v1 _ _) in *.
    apply df_setitem_row in Hr as (r2 & p & Hr2 & Hp & ->);
      [|apply df_setitem_columns_ne|].
    2:{ apply mapR_length in Hperiods. rewrite Hperiods.
        by apply df_getitem_length in Htimes. }
    unfold df_getitem in Htimes. destruct (decide _); [|done].
    assert (times = map (fun r => series_get r (L "Departure Time") (VNum NaN))
                        (rows v2)) as -> by congruence.
    destruct (mapR_lookup _ _ _ i (series_get r2 (L "Departure Time") (VNum NaN))
                Hperiods) as (p' & Hp' & Hperiod).
    { by rewrite list_lookup_fmap, Hr2. }
    assert (p' = p) as -> by congruence.
    exists (series_get r2 (L "Departure Time") (VNum NaN)), p.
    rewrite getitem_dict_set_eq, getitem_dict_set_ne by done.
    apply df_setitem_row_gen in Hr2 as (r1 & Hr1 & ->);
      [|apply df_setitem_columns_ne].
    unfold series_get in *. rewrite getitem_dict_set_eq.
    rewrite series_lookup_dict_set_eq in *.
    split_and!; try done.
    rewrite list_lookup_fmap.
    destruct (to_datetime departures !! i) as [[ts|]|]; simpl; eauto.
Qed.


(** C8. The script is a function of the contents of its two sheets: two
    runs on sheets with the same contents give the same outcome, wherever
    the sheets lie on the heap and whatever else the heap holds; a run
    changes no object it found (the sheets included, it works on copies),
    and a second run after the first gives the same four tables. *)
Theorem deterministic_idempotent (h1 h2 : heap) lc1 le1 lc2 le2 c e :
  h1 !! lc1 = Some c -> h1 !! le1 = Some e ->
  h2 !! lc2 = Some c -> h2 !! le2 = Some e ->
  fst <$> main lc1 le1 h1 = fst <$> main lc2 le2 h2 /\
  fst <$> main lc1 le1 h1 = run c e /\
  (forall out h1',
      main lc1 le1 h1 = Ok (out, h1') ->
      (forall l d, h1 !! l = Some d -> h1' !! l = Some d) /\
      fst <$> main lc1 le1 h1' = Ok out).
Proof.
  intros Hc1 He1 Hc2 He2.
  rewrite (main_pipeline h1 lc1 le1 c e Hc1 He1).
  rewrite (main_pipeline h2 lc2 le2 c e Hc2 He2).
  rewrite run_pipeline.
  split_and!.
  - by destruct (pipeline c e).
  - by destruct (pipeline c e).
  - intros out h1' Hrun.
    destruct (pipeline c e) as [out'| |] eqn:Hp; try done.
    injection Hrun as -> <-.
    split.
    + intros l d Hl. by apply lookup_app_l_Some.
    + rewrite (main_pipeline _ lc1 le1 c e
                 (lookup_app_l_Some _ _ _ _ Hc1) (lookup_app_l_Some _ _ _ _ He1)).
      by rewrite Hp.
Qed.



(** ** Further properties of the engine *)

(** *** Degenerate event sheets *)

(** X1.  An event sheet with no row at all: line 53 takes its last row and
    raises IndexError, whatever the cost pool holds beyond the four
    required columns. *)
Theorem empty_event_sheet (c e : DataFrame) :
  required_cols ⊆ columns c -> rows e = [] -> run c e = Raise IndexError.
Proof.
  intros Hreq He. rewrite run_pipeline. unfold pipeline.
  rewrite bool_decide_eq_true_2 by done. simpl.
  unfold rated_cost_pool, iloc_last. by rewrite He.
Qed.

Lemma records_columns_nil : records_columns [] = [].
Proof. reflexivity. Qed.

(** X2.  An event sheet that holds the totals row and no flight, with a cost
    pool of one activity or more: the rates are computed, the allocation
    table is built from no record and so has no column, and dropping its
    Flight column (line 95) raises KeyError. *)
Theorem no_flight_rows (c e : DataFrame) (total_row : Series) rated :
  required_cols ⊆ columns c -> rows c <> [] -> rows e = [total_row] ->
  rated_cost_pool c e = Ok rated ->
  run c e = Raise KeyError.
Proof.
  intros Hreq _ He Hrated. rewrite run_pipeline. unfold pipeline.
  rewrite bool_decide_eq_true_2 by done. simpl.
  rewrite Hrated. rsimp.
  unfold allocation_matrix, iloc_init. rewrite He. simpl.
  reflexivity.
Qed.

Lemma visual_table_no_departure (ev : DataFrame) :
  L "Departure Time" ∉ columns ev ->
  visual_table ev = (if decide (columns ev = []) then Raise IndexError
                     else Raise KeyError).
Proof.
  intros Hni. unfold visual_table, df_iloc_col0.
  destruct (columns ev) as [|c0 cols] eqn:Hcols; [done|].
  rewrite decide_False by done. rsimp.
  match goal with |- df_getitem ?v ?k ≫= _ = _ =>
    assert (df_getitem v k = Raise KeyError) as ->; [|done] end.
  unfold df_getitem. rewrite decide_False; [done|].
  simpl. rewrite Hcols. case_decide; [done|].
  rewrite elem_of_app, list_elem_of_singleton. intros [?|?]; [done|discriminate].
Qed.

(** X3.  An event sheet without a Departure Time column: no run succeeds, and
    once the rates (of one activity or more), the allocation table and the
    summary are computed the script raises KeyError on reading the column
    (line 121). *)
Theorem missing_departure_time (c e : DataFrame) :
  L "Departure Time" ∉ columns e ->
  (forall out, run c e <> Ok out) /\
  (forall rated costs s,
      required_cols ⊆ columns c -> rows c <> [] ->
      rated_cost_pool c e = Ok rated ->
      allocation_matrix rated (iloc_init e) = Ok costs ->
      summary_by_type rated costs = Ok s ->
      columns e <> [] ->
      run c e = Raise KeyError).
Proof.
  intros Hni. split.
  - intros out (_ & _ & _ & _ & Hv)%run_Ok_inv.
    rewrite visual_table_no_departure in Hv by done. by case_decide.
  - intros rated costs s Hreq _ Hrated Hcosts Hs Hne.
    rewrite run_pipeline. unfold pipeline.
    rewrite bool_decide_eq_true_2 by done. simpl.
    rewrite Hrated. rsimp. rewrite Hcosts. rsimp. rewrite Hs. rsimp.
    rewrite visual_table_no_departure by done.
    by rewrite decide_False.
Qed.


(** *** The flights of the three tables *)

Lemma df_setitem_length df label vals :
  columns df <> [] -> length (rows (df_setitem df label vals)) = length (rows df).
Proof. intros Hne. by rewrite df_setitem_rows, assign_column_length. Qed.

Lemma assign_column_column_ne label k rs vals :
  label <> k ->
  map (fun r => series_get r k (VNum NaN)) (assign_column label rs vals)
  = map (fun r => series_get r k (VNum NaN)) rs.
Proof.
  intros Hne. revert vals. induction rs as [|r rs IH]; intros vals; simpl; [done|].
  rewrite IH. f_equal. unfold series_get. by rewrite series_lookup_dict_set_ne.
Qed.

Lemma assign_column_column_eq label rs vals :
  length vals = length rs ->
  map (fun r => series_get r label (VNum NaN)) (assign_column label rs vals) = vals.
Proof.
  revert vals. induction rs as [|r rs IH]; intros [|v vals]; simpl; try done.
  intros [= Hlen]. rewrite IH by done. f_equal.
  unfold series_get. by rewrite series_lookup_dict_set_eq.
Qed.

Lemma df_setitem_column_ne df label k vals :
  columns df <> [] -> label <> k ->
  map (fun r => series_get r k (VNum NaN)) (rows (df_setitem df label vals))
  = map (fun r => series_get r k (VNum NaN)) (rows df).
Proof. intros Hne Hk. by rewrite df_setitem_rows, assign_column_column_ne. Qed.

Lemma df_setitem_column_eq df label vals :
  columns df <> [] -> length vals = length (rows df) ->
  map (fun r => series_get r label (VNum NaN)) (rows (df_setitem df label vals))
  = vals.
Proof. intros Hne Hlen. by rewrite df_setitem_rows, assign_column_column_eq. Qed.

Lemma df_setitem_columns_in df label vals : label ∈ columns (df_setitem df label vals).
Proof.
  unfold df_setitem; simpl. case_decide; [done|].
  apply elem_of_app. right. apply list_elem_of_singleton. done.
Qed.

Lemma foldl_setitem_column (ps : list (value * list value)) s k :
  columns s <> [] -> (forall p, p ∈ ps -> type_column p.1 <> k) ->
  map (fun r => series_get r k (VNum NaN))
      (rows (foldl (fun s p => df_setitem s (type_column p.1) p.2) s ps))
  = map (fun r => series_get r k (VNum NaN)) (rows s).
Proof.
  revert s. induction ps as [|p ps IH]; intros s Hne Hk; simpl; [done|].
  rewrite IH.
  - apply df_setitem_column_ne; [done|]. apply Hk. left.
  - apply df_setitem_columns_ne.
  - intros q Hq. apply Hk. by right.
Qed.

Lemma foldl_setitem_columns_keep (ps : list (value * list value)) s k :
  k ∈ columns s ->
  k ∈ columns (foldl (fun s p => df_setitem s (type_column p.1) p.2) s ps).
Proof.
  revert s. induction ps as [|p ps IH]; intros s Hk; simpl; [done|].
  by apply IH, df_setitem_columns_keep.
Qed.

(** The Flight and Total_Cost_Per_Flight columns of the summary are those
    of the allocation table. *)
Lemma summary_flight_total rated costs s :
  summary_by_type rated costs = Ok s ->
  exists flights totals,
    df_getitem costs (L "Flight") = Ok flights /\
    df_getitem costs (L "Total_Cost_Per_Flight") = Ok totals /\
    df_getitem s (L "Flight") = Ok flights /\
    df_getitem s (L "Total_Cost_Per_Flight") = Ok totals /\
    length (rows s) = length (rows costs).
Proof.
  unfold summary_by_type.
  intros (flights & Hfl & H)%bind_Ok_inv.
  apply bind_Ok_inv in H as (types & Hty & H).
  apply bind_Ok_inv in H as (s1 & Hs1 & H).
  apply bind_Ok_inv in H as (totals & Htot & H). injection H as <-.
  exists flights, totals. split_and!; try done.
  all: apply summary_fold in Hs1 as (sumss & _ & ->).
  all: set (s0 := df_setitem empty_frame (L "Flight") flights).
  all: assert (columns s0 <> []) as Hne0 by apply df_setitem_columns_ne.
  all: assert (rows s0 = map (fun v => [(L "Flight", v)]) flights) as Hrows0 by done.
  all: pose proof (df_getitem_length _ _ _ Hfl) as Hlenf.
  all: pose proof (df_getitem_length _ _ _ Htot) as Hlent.
  - rewrite df_getitem_Ok.
    2:{ apply df_setitem_columns_keep, foldl_setitem_columns_keep,
          df_setitem_columns_in. }
    rewrite df_setitem_column_ne by (done || by apply foldl_setitem_columns_ne).
    rewrite foldl_setitem_column; [|done|].
    2:{ intros p _. apply type_column_not_flight. }
    rewrite Hrows0, map_map. simpl. f_equal.
    unfold series_get; simpl. apply map_id.
  - rewrite df_getitem_Ok by apply df_setitem_columns_in.
    rewrite df_setitem_column_eq; [done|by apply foldl_setitem_columns_ne|].
    rewrite Hlent. symmetry.
    transitivity (length (map (fun r => series_get r (L "Flight") (VNum NaN))
                    (rows (foldl (fun s p => df_setitem s (type_column p.1) p.2) s0
                                 (zip (unique types) sumss))))).
    { by rewrite length_map. }
    rewrite foldl_setitem_column; [|done|].
    2:{ intros p _. apply type_column_not_flight. }
    by rewrite Hrows0, !length_map.
  - rewrite df_setitem_length by (by apply foldl_setitem_columns_ne).
    transitivity (length (map (fun r => series_get r (L "Flight") (VNum NaN))
                    (rows (foldl (fun s p => df_setitem s (type_column p.1) p.2) s0
                                 (zip (unique types) sumss))))).
    { by rewrite length_map. }
    rewrite foldl_setitem_column; [|done|].
    2:{ intros p _. apply type_column_not_flight. }
    by rewrite Hrows0, !length_map.
Qed.







(** *** Absorption of an activity's cost *)






(** X6.  An activity with no driver units (its driver is missing, names no
    numeric column with a total, or the total is 0) has rate 0, and every
    flight whose row holds a number under the driver's name, or no such
    column, is charged 0 for it: the activity's cost reaches no flight. *)
Theorem zero_units_unallocated (c e : DataFrame) out j A activity driver :
  run c e = Ok out -> wf_activities c ->
  rows (RatedCostPool out) !! j = Some A ->
  getitem A (L "Activity") = Ok activity ->
  getitem A (L "Driver") = Ok driver ->
  getitem A (L "Driver_Units") = Ok zero ->
  getitem A (L "RatePerDriverUnit") = Ok zero /\
  (forall i F cost_row,
      rows (iloc_init e) !! i = Some F ->
      rows (AllocationMatrix out) !! i = Some cost_row ->
      series_lookup driver F = None \/
      (exists x, series_lookup driver F = Some (VNum (Fin x))) ->
      getitem cost_row activity = Ok zero).
Proof.
  intros Hrun Hwf HA Hact Hdriver Hunits.
  pose proof Hrun as (Hreq & Hrated & Hcosts & _)%run_Ok_inv.
  assert (getitem A (L "RatePerDriverUnit") = Ok zero) as Hrate.
  { destruct (rated_row _ _ _ _ _ Hreq Hrated HA)
      as (total_row & r0 & driver0 & rate & _ & _ & _ & Hrate & ->).
    rewrite getitem_dict_set_eq. f_equal.
    rewrite getitem_dict_set_ne in Hunits by done.
    unfold rate_of_row in Hrate. rewrite Hunits in Hrate.
    simpl in Hrate. congruence. }
  split; [done|]. intros i F cost_row HF Hrow Hcases.
  destruct (run_allocation_cell _ _ _ _ _ Hrun Hwf HF)
    as (cost_row' & Hrow' & Hcellspec).
  assert (cost_row' = cost_row) as -> by congruence.
  destruct (Hcellspec j A HA)
    as (activity' & driver' & rate' & cell & Hact' & Hdriver' & Hrate'
        & Hcell & _ & Hsome & Hnone).
  assert (activity' = activity) as -> by congruence.
  assert (driver' = driver) as -> by congruence.
  assert (rate' = Fin 0%Qc) as -> by (unfold zero in Hrate; congruence).
  rewrite Hcell. f_equal.
  destruct Hcases as [Hmiss|[x Hx]].
  - by apply Hnone.
  - specialize (Hsome _ Hx). simpl in Hsome. injection Hsome as <-.
    unfold zero. do 2 f_equal. ring.
Qed.

(** *** Driver names and the driver-units index *)

Lemma lstrip_app_space (ws s : string) :
  all_space ws = true -> lstrip (ws ++ s) = lstrip s.
Proof.
  induction ws as [|c ws IH]; simpl; [done|].
  intros [Hc Hws]%andb_true_iff. rewrite Hc. by apply IH.
Qed.

Lemma lstrip_space (ws : string) : all_space ws = true -> lstrip ws = EmptyString.
Proof.
  induction ws as [|c ws IH]; simpl; [done|].
  intros [Hc Hws]%andb_true_iff. rewrite Hc. by apply IH.
Qed.

Lemma rstrip_space (ws : string) : all_space ws = true -> rstrip ws = EmptyString.
Proof.
  induction ws as [|c ws IH]; simpl; [done|].
  intros [Hc Hws]%andb_true_iff. by rewrite IH, Hc.
Qed.

Lemma rstrip_app_space (s ws : string) :
  all_space ws = true -> rstrip (s ++ ws) = rstrip s.
Proof.
  intros Hws. induction s as [|c s IH]; simpl.
  - by apply rstrip_space.
  - by rewrite IH.
Qed.

Lemma strip_app_space (s ws : string) :
  all_space ws = true -> strip (s ++ ws) = strip s.
Proof.
  intros Hws. unfold strip. induction s as [|c s IH]; simpl.
  - by rewrite lstrip_space.
  - destruct (is_space c); [done|].
    by apply (rstrip_app_space (String c s)).
Qed.

Lemma strip_padding (ws1 d ws2 : string) :
  all_space ws1 = true -> all_space ws2 = true ->
  strip (ws1 ++ d ++ ws2) = strip d.
Proof.
  intros H1 H2. unfold strip at 1. rewrite lstrip_app_space by done.
  by apply strip_app_space.
Qed.

(** X7.  Blanks around a driver name do not matter to the units lookup, and
    the keys of the index carry none: a driver is matched with a column
    up to the blanks around the two names. *)
Theorem driver_name_padding (total_row : Series) (cols : list value)
        (ws1 d ws2 : string) :
  all_space ws1 = true -> all_space ws2 = true ->
  let du := driver_units total_row cols in
  get_driver_units du (L (ws1 ++ d ++ ws2)) = get_driver_units du (L d) /\
  (forall key v, du !! key = Some v -> strip key = key) /\
  (forall k v, du !! strip (py_str k) = Some v ->
               get_driver_units du (L (ws1 ++ py_str k ++ ws2)) = v).
Proof.
  intros H1 H2 du. split_and!.
  - unfold get_driver_units. simpl. by rewrite strip_padding.
  - intros key v (k & _ & <- & _)%driver_units_Some. apply strip_idemp.
  - intros k v Hk. unfold get_driver_units. simpl.
    by rewrite strip_padding, Hk.
Qed.

(** X8.  Where several numeric columns share a name up to surrounding blanks,
    the index keeps the total of the last of them that has one. *)
Theorem later_column_wins (total_row : Series) (cols1 cols2 : list value) k v :
  series_get total_row k (VNum NaN) = v -> isna v = false ->
  (forall k', k' ∈ cols2 -> strip (py_str k') = strip (py_str k) ->
              isna (series_get total_row k' (VNum NaN)) = true) ->
  driver_units total_row (cols1 ++ k :: cols2) !! strip (py_str k) = Some v.
Proof.
  intros Hv Hna. induction cols2 as [|k2 cols2 IH] using rev_ind; intros Hlater.
  - rewrite driver_units_snoc. cbv zeta. rewrite Hv. unfold notna. rewrite Hna.
    simpl. by rewrite lookup_insert_eq.
  - rewrite app_comm_cons, (assoc_L (++)), driver_units_snoc. cbv zeta.
    assert (driver_units total_row (cols1 ++ k :: cols2) !! strip (py_str k) = Some v)
      as IH'.
    { apply IH. intros k' Hk'. apply Hlater. apply elem_of_app. by left. }
    destruct (notna (series_get total_row k2 (VNum NaN))) eqn:Hn2; [|done].
    destruct (decide (strip (py_str k2) = strip (py_str k))) as [Heq|Hne].
    + unfold notna in Hn2. rewrite (Hlater k2) in Hn2; [done| |done].
      apply elem_of_app. right. by apply list_elem_of_singleton.
    + by rewrite lookup_insert_ne.
Qed.

(** *** Activities that share a name *)

Lemma mapR_app {A B} (f : A -> result B) (l1 l2 : list A) ys :
  mapR f (l1 ++ l2) = Ok ys ->
  exists ys1 ys2, ys = ys1 ++ ys2 /\ mapR f l1 = Ok ys1 /\ mapR f l2 = Ok ys2.
Proof.
  revert ys. induction l1 as [|x l1 IH]; intros ys; simpl.
  - intros H. by exists [], ys.
  - intros (y & Hy & H)%bind_Ok_inv.
    apply bind_Ok_inv in H as (ys' & Hys' & H). injection H as <-.
    destruct (IH _ Hys') as (ys1 & ys2 & -> & H1 & H2).
    exists (y :: ys1), ys2. rewrite Hy, H1. by split_and!.
Qed.

Lemma foldl_dict_set_absent (ps : list (value * value)) (d : Series) k :
  k ∉ ps.*1 ->
  series_lookup k (foldl (fun d p => dict_set p.1 p.2 d) d ps) = series_lookup k d.
Proof.
  revert d. induction ps as [|[k' v'] ps IH]; intros d; simpl; [done|].
  intros [Hne Hni]%not_elem_of_cons. rewrite IH by done.
  by apply series_lookup_dict_set_ne.
Qed.

(** X9.  Two activities of one name share a key of the flight's record, and
    the later one overwrites the earlier: under a name the record holds
    the allocated cost of the last activity of that name. *)
Theorem duplicate_activity_last_wins (acts1 acts2 : list Series) (A F : Series)
        row_cost name :
  allocate_row (acts1 ++ A :: acts2) F = Ok row_cost ->
  getitem A (L "Activity") = Ok name ->
  (forall B, B ∈ acts2 -> getitem B (L "Activity") <> Ok name) ->
  exists cell, allocated_cost F A = Ok cell /\ getitem row_cost name = Ok cell.
Proof.
  unfold allocate_row. intros (fn & _ & Hloop)%bind_Ok_inv Hname Hlater.
  apply allocate_loop in Hloop as (names & cells & Hnames & Hcells & ->).
  apply mapR_app in Hnames as (n1 & n2' & -> & Hn1 & Hn2).
  apply mapR_app in Hcells as (c1 & c2' & -> & Hc1 & Hc2).
  simpl in Hn2, Hc2.
  apply bind_Ok_inv in Hn2 as (name' & Hname' & Hn2).
  apply bind_Ok_inv in Hn2 as (n2 & Hn2 & Heq). injection Heq as <-.
  apply bind_Ok_inv in Hc2 as (cell & Hcell & Hc2).
  apply bind_Ok_inv in Hc2 as (c2 & Hc2 & Heq). injection Heq as <-.
  assert (name' = name) as -> by congruence.
  exists cell. split; [done|].
  pose proof (mapR_length _ _ _ Hn1) as Hl1.
  pose proof (mapR_length _ _ _ Hc1) as Hl1'.
  rewrite zip_with_app by congruence. rewrite foldl_app. simpl.
  unfold getitem. rewrite foldl_dict_set_absent.
  - by rewrite series_lookup_dict_set_eq.
  - pose proof (mapR_length _ _ _ Hn2) as Hl2.
    pose proof (mapR_length _ _ _ Hc2) as Hl2'.
    rewrite fst_zip_eq by congruence.
    intros Hin. apply list_elem_of_lookup in Hin as [i Hi].
    destruct (lookup_lt_is_Some_2 acts2 i) as [B HB].
    { rewrite <- Hl2. by eapply lookup_lt_Some. }
    destruct (mapR_lookup _ _ _ _ _ Hn2 HB) as (y & Hy & HBy).
    apply (Hlater B); [by eapply list_elem_of_lookup_2|]. congruence.
Qed.


(** *** Choosing the sheets of the workbook *)

Lemma append_cons c (s t : string) :
  (String c s ++ t)%string = String c (s ++ t)%string.
Proof. reflexivity. Qed.

Lemma prefix_spec (n s : string) :
  String.prefix n s = true <-> exists post : string, s = (n ++ post)%string.
Proof.
  revert s. induction n as [|c n IH]; intros s; simpl.
  - split; [by exists s | by destruct s].
  - destruct s as [|c' s]; simpl.
    + split; [done | by intros [post Hp]].
    + destruct (Ascii.ascii_dec c c') as [->|Hne].
      * rewrite IH. split; intros [post Hp]; exists post;
          rewrite ?append_cons in *; congruence.
      * split; [done | intros [post Hp]; rewrite append_cons in Hp; congruence].
Qed.

Lemma contains_spec (n s : string) :
  contains n s = true <-> exists pre post : string, s = (pre ++ n ++ post)%string.
Proof.
  induction s as [|c s IH]; cbn [contains].
  - rewrite orb_false_r, prefix_spec. split.
    + intros [post Hp]. by exists EmptyString, post.
    + intros ([|c pre] & post & Hp); [by exists post | done].
  - rewrite orb_true_iff, prefix_spec, IH. split.
    + intros [[post Hp]|(pre & post & Hp)].
      * by exists EmptyString, post.
      * exists (String c pre), post. by rewrite append_cons, Hp.
    + intros ([|c' pre] & post & Hp).
      * left. by exists post.
      * right. exists pre, post. rewrite append_cons in Hp. congruence.
Qed.

Lemma find_first {A} (p : A -> bool) (l : list A) :
  (exists i x, List.find p l = Some x /\ l !! i = Some x /\ p x = true /\
               forall j y, j < i -> l !! j = Some y -> p y = false) \/
  (List.find p l = None /\ forall y, y ∈ l -> p y = false).
Proof.
  induction l as [|a l IH]; simpl.
  - right. split; [done|]. by intros y ?%not_elem_of_nil.
  - destruct (p a) eqn:Hpa.
    + left. exists 0, a. split_and!; try done. intros j y Hj. lia.
    + destruct IH as [(i & x & Hf & Hi & Hpx & Hbefore)|[Hf Hall]].
      * left. exists (S i), x. split_and!; try done.
        intros [|j] y Hj; simpl; [congruence|]. apply Hbefore. lia.
      * right. split; [done|]. intros y [->|Hy]%elem_of_cons; [done|by apply Hall].
Qed.

Lemma next_or_chosen (w : string) (fallback : nat) (names : list string) d :
  names !! fallback = Some d ->
  chosen w fallback names (next_or (fun s => contains w (lower s)) names d).
Proof.
  intros Hd. unfold next_or, chosen, has_word.
  destruct (find_first (fun s => contains w (lower s)) names)
    as [(i & x & -> & Hi & Hpx & Hbefore)|[-> Hall]]; simpl.
  - left. exists i. split_and!; [done|by apply contains_spec|].
    intros j y Hj Hy Hw%contains_spec. by rewrite (Hbefore j y Hj Hy) in Hw.
  - right. split; [|done]. intros y Hy Hw%contains_spec.
    by rewrite (Hall y Hy) in Hw.
Qed.

(** X10.  A workbook of two sheets or more: the cost-pool sheet is the first
    whose name holds "cost" in whatever letter case, the first sheet when
    there is none; the event sheet is the first whose name holds "event",
    the second sheet when there is none.  Both are sheets of the workbook
    (and may be the same one). *)
Theorem select_sheets_spec (sheet_names : list string) :
  2 <= length sheet_names ->
  exists cost_sheet event_sheet,
    select_sheets sheet_names = Ok (cost_sheet, event_sheet) /\
    chosen "cost" 0 sheet_names cost_sheet /\
    chosen "event" 1 sheet_names event_sheet /\
    cost_sheet ∈ sheet_names /\ event_sheet ∈ sheet_names.
Proof.
  intros Hlen. destruct sheet_names as [|n0 [|n1 ns]]; simpl in Hlen; try lia.
  eexists _, _. split; [reflexivity|].
  assert (forall w k x, chosen w k (n0 :: n1 :: ns) x -> x ∈ n0 :: n1 :: ns) as Hin.
  { intros w k x [(i & Hi & _)|[_ Hk]]; by eapply list_elem_of_lookup_2. }
  pose proof (next_or_chosen "cost" 0 (n0 :: n1 :: ns) n0 eq_refl) as Hc.
  pose proof (next_or_chosen "event" 1 (n0 :: n1 :: ns) n1 eq_refl) as He.
  split_and!; try done.
  - by apply (Hin "cost" 0).
  - by apply (Hin "event" 1).
Qed.

(** X11.  A workbook of one sheet: the fallback [sheet_names[1]] of line 37 is
    evaluated before the search, so the script raises IndexError whatever
    the sheet is called. *)
Theorem single_sheet_workbook (sheets : list (string * DataFrame)) :
  length sheets < 2 ->
  select_sheets (sheets.*1) = Raise IndexError /\
  upload_run sheets = Raise IndexError.
Proof.
  intros Hlen. unfold upload_run.
  assert (select_sheets (sheets.*1) = Raise IndexError) as ->; [|done].
  destruct sheets as [|[n0 d0] [|? ?]]; simpl in Hlen; try lia; reflexivity.
Qed.

Lemma sheet_index_lookup (name : string) (names : list string) i :
  sheet_index name names = Ok i -> names !! i = Some name.
Proof.
  revert i. induction names as [|n ns IH]; intros i; simpl; [done|].
  destruct (decide (n = name)) as [->|Hne].
  - by intros [= <-].
  - destruct (sheet_index name ns) as [k| |]; simpl; try done.
    intros [= <-]. by apply IH.
Qed.

Lemma sheet_index_is_Ok (name : string) (names : list string) :
  name ∈ names -> exists i, sheet_index name names = Ok i.
Proof.
  induction names as [|n ns IH]; simpl.
  - by intros ?%not_elem_of_nil.
  - destruct (decide (n = name)) as [->|Hne]; [by eauto|].
    intros [?|Hin]%elem_of_cons; [done|].
    destruct (IH Hin) as [i ->]. by eauto.
Qed.

Lemma sheet_lookup (sheets : list (string * DataFrame)) name df i :
  NoDup (sheets.*1) -> (name, df) ∈ sheets ->
  sheets.*1 !! i = Some name -> sheets.*2 !! i = Some df.
Proof.
  intros Hnd Hin Hi.
  apply list_elem_of_lookup in Hin as [k Hk].
  assert (sheets.*1 !! k = Some name) as Hk1
    by (by rewrite list_lookup_fmap, Hk).
  assert (i = k) as -> by (by eapply NoDup_lookup).
  by rewrite list_lookup_fmap, Hk.
Qed.

(** X12.  The run on a workbook is the run on copies of the two sheets chosen,
    wherever they sit in the workbook and also when one sheet is chosen
    twice. *)
Theorem upload_run_is_run (sheets : list (string * DataFrame))
        cost_sheet event_sheet c e :
  NoDup (sheets.*1) ->
  select_sheets (sheets.*1) = Ok (cost_sheet, event_sheet) ->
  (cost_sheet, c) ∈ sheets -> (event_sheet, e) ∈ sheets ->
  upload_run sheets = run c e.
Proof.
  intros Hnd Hsel Hc He. unfold upload_run. rewrite Hsel. rsimp.
  destruct (sheet_index_is_Ok cost_sheet (sheets.*1)) as [lc Hlc].
  { apply list_elem_of_fmap. by exists (cost_sheet, c). }
  destruct (sheet_index_is_Ok event_sheet (sheets.*1)) as [le Hle].
  { apply list_elem_of_fmap. by exists (event_sheet, e). }
  rewrite Hlc. rsimp. rewrite Hle. rsimp.
  apply sheet_index_lookup in Hlc, Hle.
  rewrite (main_pipeline (sheets.*2) lc le c e), run_pipeline.
  - by destruct (pipeline c e).
  - by apply (sheet_lookup sheets cost_sheet).
  - by apply (sheet_lookup sheets event_sheet).
Qed.

(** ** The dashboard *)

Lemma elem_of_df_setitem_columns df label vals (k : value) :
  k ∈ columns (df_setitem df label vals) <-> k ∈ columns df \/ k = label.
Proof.
  unfold df_setitem; simpl. case_decide as Hin.
  - split; [by left|]. by intros [?| ->].
  - by rewrite elem_of_app, list_elem_of_singleton.
Qed.

Lemma visual_columns (ev v : DataFrame) (k : value) :
  visual_table ev = Ok v ->
  (k ∈ columns v <-> k ∈ columns ev \/ k = L "Flight" \/ k = L "Time Period") /\
  L "Departure Time" ∈ columns ev.
Proof.
  unfold visual_table. intros (names & Hnames & H)%bind_Ok_inv.
  apply bind_Ok_inv in H as (departures & Hdep & H).
  apply bind_Ok_inv in H as (times & Htimes & H).
  apply bind_Ok_inv in H as (periods & Hper & H). injection H as <-.
  assert (L "Departure Time" ∈ columns ev) as Hd.
  { unfold df_getitem in Hdep. case_decide as Hin; [|done].
    apply elem_of_df_setitem_columns in Hin as [?|?]; [done|discriminate]. }
  split; [|done].
  rewrite !elem_of_df_setitem_columns. split.
  - intros [[[?|?]| ->]|?]; auto.
  - intros [?|[?|?]]; auto.
Qed.

Lemma df_getitem_Ok_in df (label : value) vals :
  df_getitem df label = Ok vals -> label ∈ columns df.
Proof. unfold df_getitem. by case_decide. Qed.

Lemma df_getitem_Raise df (label : value) :
  label ∉ columns df -> df_getitem df label = Raise KeyError.
Proof. intros Hni. unfold df_getitem. by rewrite decide_False. Qed.

Lemma df_select_flight_total s :
  L "Flight" ∈ columns s -> L "Total_Cost_Per_Flight" ∈ columns s ->
  df_select s [L "Flight"; L "Total_Cost_Per_Flight"]
  = Ok {| columns := [L "Flight"; L "Total_Cost_Per_Flight"];
          rows := map (fun r =>
                         [(L "Flight", series_get r (L "Flight") (VNum NaN));
                          (L "Total_Cost_Per_Flight",
                           series_get r (L "Total_Cost_Per_Flight") (VNum NaN))])
                      (rows s) |}.
Proof.
  intros Hf Ht. unfold df_select. rewrite decide_True; [done|].
  intros k [->|[->|?%not_elem_of_nil]%elem_of_cons]%elem_of_cons; done.
Qed.

(** The columns of the merged table other than the total and its two
    suffixed names are those of the table of the visuals. *)
Lemma merge_totals_columns viz right m (k : value) :
  merge_totals viz right = Ok m ->
  k <> L "Total_Cost_Per_Flight" -> k <> L "Total_Cost_Per_Flight_x" ->
  k <> L "Total_Cost_Per_Flight_y" ->
  k ∈ columns m <-> k ∈ columns viz.
Proof.
  unfold merge_totals. case_decide; [|done]. intros [= <-] H1 H2 H3. simpl.
  rewrite elem_of_app, list_elem_of_singleton, list_elem_of_fmap. split.
  - intros [(k' & -> & Hk')| ->].
    + destruct (bool_decide (L "Total_Cost_Per_Flight" ∈ columns viz)); simpl in *;
        [|done]. by case_bool_decide.
    + by destruct (bool_decide (L "Total_Cost_Per_Flight" ∈ columns viz)).
  - intros Hk. left. exists k. split; [|done].
    destruct (bool_decide (L "Total_Cost_Per_Flight" ∈ columns viz)); simpl; [|done].
    by rewrite bool_decide_eq_false_2.
Qed.

Lemma merge_totals_noclash viz right :
  L "Flight" ∈ columns viz -> L "Flight" ∈ columns right ->
  L "Total_Cost_Per_Flight" ∉ columns viz ->
  merge_totals viz right
  = Ok {| columns := columns viz ++ [L "Total_Cost_Per_Flight"];
          rows := flat_map (merge_row right (fun k => k) (L "Total_Cost_Per_Flight"))
                           (rows viz) |}.
Proof.
  intros Hv Hr Hni. unfold merge_totals. rewrite decide_True by done.
  rewrite bool_decide_eq_false_2 by done. simpl. by rewrite map_id.
Qed.

(** The tables the dashboard starts from after a run of the engine. *)
Lemma run_tables_columns c e out :
  run c e = Ok out ->
  L "Flight" ∈ columns (Summary out) /\
  L "Total_Cost_Per_Flight" ∈ columns (Summary out) /\
  L "Flight" ∈ columns (Visual out) /\
  L "Time Period" ∈ columns (Visual out) /\
  (forall k, k ∈ columns (Visual out) <->
             k ∈ columns e \/ k = L "Flight" \/ k = L "Time Period").
Proof.
  intros (Hreq & Hrated & Hcosts & Hs & Hv)%run_Ok_inv.
  destruct (summary_flight_total _ _ _ Hs) as (fl & tot & _ & _ & Hfl & Htot & _).
  apply df_getitem_Ok_in in Hfl, Htot.
  split_and!; try done.
  - apply (visual_columns _ _ _ Hv). auto.
  - apply (visual_columns _ _ _ Hv). auto.
  - intros k. apply (visual_columns _ _ k Hv).
Qed.

(** ** Sorting, and the choices of a filter *)

Lemma insert_sorted_perm {A} (leb : A -> A -> bool) x l :
  insert_sorted leb x l ≡ₚ x :: l.
Proof.
  induction l as [|y l IH]; simpl; [done|].
  destruct (leb x y); [done|]. rewrite IH. apply Permutation_swap.
Qed.

Lemma insertion_sort_perm {A} (leb : A -> A -> bool) l :
  insertion_sort leb l ≡ₚ l.
Proof.
  induction l as [|x l IH]; simpl; [done|].
  by rewrite insert_sorted_perm, IH.
Qed.

Lemma sorted_by_cons2 {A} (leb : A -> A -> bool) x y l :
  sorted_by leb (x :: y :: l) = leb x y && sorted_by leb (y :: l).
Proof. reflexivity. Qed.

Lemma sorted_by_tail {A} (leb : A -> A -> bool) x l :
  sorted_by leb (x :: l) = true -> sorted_by leb l = true.
Proof.
  destruct l as [|y l]; [done|]. rewrite sorted_by_cons2.
  by intros [_ ?]%andb_true_iff.
Qed.

Lemma insert_sorted_sorted {A} (leb : A -> A -> bool) x l :
  (forall y, y ∈ l -> leb x y = false -> leb y x = true) ->
  sorted_by leb l = true -> sorted_by leb (insert_sorted leb x l) = true.
Proof.
  induction l as [|y l IH]; intros Htot Hs; [done|].
  cbn [insert_sorted]. destruct (leb x y) eqn:Hxy.
  - by rewrite sorted_by_cons2, Hxy, Hs.
  - assert (leb y x = true) as Hyx by (apply Htot; [by constructor|done]).
    assert (sorted_by leb (insert_sorted leb x l) = true) as IH'.
    { apply IH; [intros z Hz; apply Htot; by constructor|].
      by apply sorted_by_tail in Hs. }
    destruct l as [|z l].
    + cbn [insert_sorted]. by rewrite sorted_by_cons2, Hyx.
    + rewrite sorted_by_cons2 in Hs. apply andb_true_iff in Hs as [Hyz Hs].
      cbn [insert_sorted] in *. destruct (leb x z).
      * by rewrite sorted_by_cons2, Hyx, IH'.
      * by rewrite sorted_by_cons2, Hyz, IH'.
Qed.

Lemma insertion_sort_sorted {A} (leb : A -> A -> bool) l :
  (forall a b, a ∈ l -> b ∈ l -> leb a b = false -> leb b a = true) ->
  sorted_by leb (insertion_sort leb l) = true.
Proof.
  induction l as [|x l IH]; intros Htot; [done|]. simpl.
  apply insert_sorted_sorted.
  - intros y Hy. rewrite insertion_sort_perm in Hy.
    apply Htot; [by constructor|by constructor].
  - apply IH. intros a b Ha Hb. apply Htot; by constructor.
Qed.

Lemma sorted_by_strong {A} (leb : A -> A -> bool) l :
  (forall a b c, leb a b = true -> leb b c = true -> leb a c = true) ->
  sorted_by leb l = true ->
  forall i j a b, i < j -> l !! i = Some a -> l !! j = Some b -> leb a b = true.
Proof.
  intros Htrans. induction l as [|x l IH]; intros Hs i j a b Hij Hi Hj; [done|].
  pose proof (sorted_by_tail _ _ _ Hs) as Hs'.
  destruct i as [|i]; destruct j as [|j]; try lia; simpl in Hi, Hj.
  - injection Hi as ->. clear Hij. revert b Hj. induction j as [|j IHj]; intros b Hj.
    + destruct l as [|y l]; [done|]. simpl in Hj. injection Hj as ->.
      rewrite sorted_by_cons2 in Hs. by apply andb_true_iff in Hs as [Hs _].
    + destruct (lookup_lt_is_Some_2 l j) as [y Hy].
      { apply lookup_lt_Some in Hj. lia. }
      apply (Htrans a y b); [by apply IHj|].
      apply (IH Hs' j (S j) y b); [lia|done..].
  - apply (IH Hs' i j); [lia|done..].
Qed.

Lemma timestamp_leb_total a b :
  timestamp_leb a b = false -> timestamp_leb b a = true.
Proof.
  unfold timestamp_leb.
  rewrite (Z.compare_antisym (day_number a) (day_number b)),
          (Z.compare_antisym (hour a) (hour b)),
          (Z.compare_antisym (minute a) (minute b)).
  destruct (day_number a ?= day_number b)%Z; simpl; try done.
  destruct (hour a ?= hour b)%Z; simpl; try done.
  destruct (minute a ?= minute b)%Z; simpl; try done.
  rewrite Z.leb_gt, Z.leb_le. lia.
Qed.

Lemma py_le_total x a b :
  same_kind x a = true -> same_kind x b = true ->
  notna a = true -> notna b = true ->
  py_le a b = false -> py_le b a = true.
Proof.
  destruct x, a as [[|p]| | |], b as [[|q]| | |]; simpl; try done; intros _ _ _ _.
  - intros Hle. apply bool_decide_eq_false_1 in Hle.
    apply bool_decide_eq_true_2. by apply Qclt_le_weak, Qcnot_le_lt.
  - intros Hle. by destruct (String.leb_total s0 s1) as [H|H]; [rewrite H in Hle|].
  - apply timestamp_leb_total.
Qed.

Lemma forallb_false {A} (p : A -> bool) (l : list A) :
  forallb p l = false -> exists b, b ∈ l /\ p b = false.
Proof.
  induction l as [|y l IH]; [done|]. simpl.
  destruct (p y) eqn:Hy; simpl.
  - intros (b & Hb & Hk)%IH. exists b. split; [by constructor|done].
  - intros _. exists y. split; [by constructor|done].
Qed.

(** X13.  Lines 152-160, the choices of a filter over a column: "All", then the
    cells of the column that are not missing, each once and in increasing
    order; the list cannot be made (TypeError) when two of them are of
    different kinds. *)
Theorem filter_options (column : list value) :
  match options column with
  | Ok choices =>
      exists sorted,
        choices = L "All" :: sorted /\ NoDup sorted /\
        (forall v, v ∈ sorted <-> v ∈ column /\ notna v = true) /\
        sorted_by py_le sorted = true
  | Raise x =>
      x = TypeError /\
      exists a b, a ∈ column /\ b ∈ column /\ notna a = true /\ notna b = true /\
                  same_kind a b = false
  | Stopped _ => False
  end.
Proof.
  unfold options, py_sorted.
  remember (unique (filter (fun v => notna v = true) column)) as us eqn:Hdef.
  assert (forall v, v ∈ us <-> v ∈ column /\ notna v = true) as Hus.
  { intros v. rewrite Hdef, elem_of_unique, list_elem_of_filter.
    split; intros [? ?]; by split. }
  assert (NoDup us) as Hnd by (rewrite Hdef; apply NoDup_unique).
  clear Hdef. destruct us as [|x us'] eqn:Heq.
  - rsimp. exists []. split_and!; [done|constructor|done|done].
  - rewrite <- Heq in Hus, Hnd |- *.
    destruct (forallb (same_kind x) us) eqn:Hall; rsimp.
    + exists (insertion_sort py_le us). split_and!; try done.
      * by rewrite insertion_sort_perm.
      * intros v. by rewrite insertion_sort_perm.
      * apply insertion_sort_sorted. intros a b Ha Hb.
        rewrite forallb_forall in Hall.
        apply (py_le_total x); [apply Hall; by apply list_elem_of_In..| |];
          by apply Hus.
    + split; [done|].
      destruct (forallb_false (same_kind x) us Hall) as (b & Hb & Hk).
      exists x, b.
      assert (x ∈ us) as Hx by (rewrite Heq; by constructor).
      apply Hus in Hx as [? ?], Hb as [? ?]. by split_and!.
Qed.

Section DashboardFacts.

Variable sort_desc : list num -> list nat.
Variable group_order : list value -> result (list value).

(** What is known of the two orders: the sort lists each position once,
    larger cells first and missing cells last; the groups are the keys,
    each once, and keys that are texts can be listed. *)
Hypothesis sort_desc_perm : forall keys, sort_desc keys ≡ₚ seq 0 (length keys).

Hypothesis sort_desc_sorted : forall keys i j a b x y,
  i < j -> sort_desc keys !! i = Some a -> sort_desc keys !! j = Some b ->
  keys !! a = Some x -> keys !! b = Some y -> before_desc x y.

Hypothesis group_order_perm : forall l l', group_order l = Ok l' -> l' ≡ₚ l.

Hypothesis group_order_texts : forall l,
  Forall (fun v => exists s, v = VStr s) l -> exists l', group_order l = Ok l'.

(** X14.  An event sheet without a Continent or a Destination Code column (and
    with no Total_Cost_Per_Flight column of its own): the engine computes
    its tables, the dashboard does not come about, and where Continent is
    the column that lacks it raises KeyError on listing the choices of the
    filter (line 154). *)
Theorem dashboard_needs_filter_columns (c e : DataFrame) out sel :
  run c e = Ok out ->
  (L "Total_Cost_Per_Flight" ∉ columns e) ->
  (L "Continent" ∉ columns e) \/ (L "Destination Code" ∉ columns e) ->
  (forall d, run_dashboard sort_desc group_order c e sel <> Ok d) /\
  ((L "Continent" ∉ columns e) ->
   run_dashboard sort_desc group_order c e sel = Raise KeyError).
Proof.
  intros Hrun _ Hmiss.
  destruct (run_tables_columns _ _ _ Hrun) as (Hsf & Hst & Hvf & Hvt & Hvcols).
  unfold run_dashboard. rewrite Hrun. rsimp. unfold dashboard.
  rewrite df_select_flight_total by done. rsimp.
  destruct (merge_totals (Visual out) _) as [m| |] eqn:Hm.
  2,3: unfold merge_totals in Hm;
    by rewrite decide_True in Hm by (split; [done|by constructor]).
  rsimp.
  assert (forall k : value,
    k ∉ columns e -> k <> L "Flight" -> k <> L "Time Period" ->
    k <> L "Total_Cost_Per_Flight" -> k <> L "Total_Cost_Per_Flight_x" ->
    k <> L "Total_Cost_Per_Flight_y" ->
    df_getitem m k = Raise KeyError) as Hkey.
  { intros k Hk H1 H2 H3 H4 H5. apply df_getitem_Raise.
    rewrite (merge_totals_columns _ _ _ k Hm), Hvcols by done.
    intros Hor. destruct Hor as [?|[?|?]]; [by apply Hk|by apply H1|by apply H2]. }
  split.
  - intros d Hd. destruct Hmiss as [Hc|Hd'].
    + by rewrite (Hkey (L "Continent")) in Hd.
    + apply bind_Ok_inv in Hd as (continents & _ & Hd).
      apply bind_Ok_inv in Hd as (copts & _ & Hd).
      by rewrite (Hkey (L "Destination Code")) in Hd.
  - intros Hc. by rewrite (Hkey (L "Continent")).
Qed.

Lemma sort_desc_nil : sort_desc [] = [].
Proof. apply Permutation_nil_r. apply (sort_desc_perm []). Qed.

Lemma group_order_nil : group_order [] = Ok [].
Proof.
  destruct (group_order_texts []) as [l' Hl']; [constructor|].
  rewrite Hl'. f_equal. apply Permutation_nil_r.
  by apply group_order_perm.
Qed.

Lemma apply_filter_Ok df label selected df' :
  apply_filter df label selected = Ok df' ->
  columns df' = columns df /\
  rows df' = filter (fun r : Series =>
                       selected = L "All" \/
                       py_eq (series_get r label (VNum NaN)) selected = true)
                    (rows df).
Proof.
  unfold apply_filter, where_eq. case_decide as Hall.
  - intros [= <-]. split; [done|]. symmetry. apply filter_all. intros r _. by left.
  - case_decide; [|done]. intros [= <-]. simpl. split; [done|].
    apply filter_ext_in. intros r _. split; [by right|]. by intros [?|?].
Qed.

Lemma filter_viz_Ok viz sel fv :
  filter_viz viz sel = Ok fv ->
  columns fv = columns viz /\
  rows fv = filter (fun r : Series =>
              (selected_continent sel = L "All" \/
               py_eq (series_get r (L "Continent") (VNum NaN))
                     (selected_continent sel) = true) /\
              (selected_dest sel = L "All" \/
               py_eq (series_get r (L "Destination Code") (VNum NaN))
                     (selected_dest sel) = true) /\
              (selected_period sel = L "All" \/
               py_eq (series_get r (L "Time Period") (VNum NaN))
                     (selected_period sel) = true))
            (rows viz).
Proof.
  unfold filter_viz. intros (v1 & H1 & H)%bind_Ok_inv.
  apply bind_Ok_inv in H as (v2 & H2 & H3).
  apply apply_filter_Ok in H1 as [Hc1 Hr1], H2 as [Hc2 Hr2], H3 as [Hc3 Hr3].
  split; [congruence|].
  rewrite Hr3, Hr2, Hr1, !list_filter_filter.
  apply filter_ext_in. intros r _. tauto.
Qed.

Lemma where_isin_nil df (label : value) :
  label ∈ columns df ->
  where_isin df label [] = Ok {| columns := columns df; rows := [] |}.
Proof.
  intros Hin. unfold where_isin. rewrite decide_True by done. do 2 f_equal.
  apply filter_none. intros r _. apply not_elem_of_nil.
Qed.

Lemma sort_values_desc_nil df (label : value) :
  label ∈ columns df -> rows df = [] ->
  sort_values_desc sort_desc df label = Ok {| columns := columns df; rows := [] |}.
Proof.
  intros Hin Hrows. unfold sort_values_desc.
  rewrite df_getitem_Ok by done. rewrite Hrows. simpl.
  by rewrite sort_desc_nil.
Qed.

Lemma groupby_sum_nil df (key col : value) :
  key ∈ columns df -> col ∈ columns df -> rows df = [] ->
  groupby_sum group_order df key col = Ok {| columns := [key; col]; rows := [] |}.
Proof.
  intros Hk Hc Hrows. unfold groupby_sum.
  rewrite !df_getitem_Ok by done. rewrite Hrows. simpl.
  change (unique (filter _ [])) with (@nil value). by rewrite group_order_nil.
Qed.

(** X15.  Filters that no flight passes: the tables of the dashboard are empty
    and taking the first row of the top flights (line 325) raises
    IndexError. *)
Theorem no_flight_selected (c e : DataFrame) out sel right viz fv copts dopts :
  run c e = Ok out ->
  (L "Total_Cost_Per_Flight" ∉ columns e) ->
  df_select (Summary out) [L "Flight"; L "Total_Cost_Per_Flight"] = Ok right ->
  merge_totals (Visual out) right = Ok viz ->
  (df_getitem viz (L "Continent") ≫= options) = Ok copts ->
  (df_getitem viz (L "Destination Code") ≫= options) = Ok dopts ->
  filter_viz viz sel = Ok fv -> rows fv = [] ->
  run_dashboard sort_desc group_order c e sel = Raise IndexError.
Proof.
  intros Hrun Hclash Hright Hviz Hcopts Hdopts Hfv Hrows.
  destruct (run_tables_columns _ _ _ Hrun) as (Hsf & Hst & Hvf & Hvt & Hvcols).
  apply bind_Ok_inv in Hcopts as (continents & Hcont & Hcopts).
  apply bind_Ok_inv in Hdopts as (dests & Hdest & Hdopts).
  destruct (filter_viz_Ok _ _ _ Hfv) as [Hfcols _].
  assert (columns viz = columns (Visual out) ++ [L "Total_Cost_Per_Flight"]) as Hcols.
  { rewrite df_select_flight_total in Hright by done. injection Hright as <-.
    rewrite merge_totals_noclash in Hviz; [by injection Hviz as <-|done|by constructor|].
    rewrite Hvcols. intros [?|[?|?]]; [contradiction|discriminate..]. }
  assert (forall k, k ∈ columns (Visual out) -> k ∈ columns fv) as Hkeep.
  { intros k Hk. rewrite Hfcols, Hcols. apply elem_of_app. by left. }
  assert (L "Total_Cost_Per_Flight" ∈ columns fv) as Htot.
  { rewrite Hfcols, Hcols. apply elem_of_app. right. by constructor. }
  apply df_getitem_Ok_in in Hcont as Hcin. apply df_getitem_Ok_in in Hdest as Hdin.
  rewrite <- Hfcols in Hcin, Hdin.
  unfold run_dashboard. rewrite Hrun. rsimp. unfold dashboard.
  rewrite Hright. rsimp. rewrite Hviz. rsimp. rewrite Hcont. rsimp.
  rewrite Hcopts. rsimp. rewrite Hdest. rsimp. rewrite Hdopts. rsimp.
  rewrite Hfv. rsimp.
  rewrite (df_getitem_Ok fv (L "Flight")) by auto. rewrite Hrows. simpl. rsimp.
  rewrite where_isin_nil by done. rsimp.
  rewrite df_getitem_Ok by done. simpl. rsimp.
  rewrite sort_values_desc_nil by done. rsimp.
  unfold melt at 1. simpl. rewrite decide_True by done. rsimp.
  unfold where_ne at 1. simpl.
  rewrite groupby_sum_nil by auto. rsimp.
  rewrite groupby_sum_nil by auto. rsimp.
  rewrite sort_values_desc_nil by (done || simpl; do 2 constructor). rsimp.
  rewrite groupby_sum_nil by auto. reflexivity.
Qed.

Lemma dashboard_Ok_inv summary viz sel d :
  dashboard sort_desc group_order summary viz sel = Ok d ->
  exists right continents dests flights cells totals sorted molten by_dest dest_sorted,
    df_select summary [L "Flight"; L "Total_Cost_Per_Flight"] = Ok right /\
    merge_totals viz right = Ok (viz_df d) /\
    df_getitem (viz_df d) (L "Continent") = Ok continents /\
    options continents = Ok (continent_options d) /\
    df_getitem (viz_df d) (L "Destination Code") = Ok dests /\
    options dests = Ok (dest_options d) /\
    filter_viz (viz_df d) sel = Ok (filtered_viz d) /\
    df_getitem (filtered_viz d) (L "Flight") = Ok flights /\
    where_isin summary (L "Flight") flights = Ok (filtered_summary d) /\
    df_getitem (filtered_summary d) (L "Total_Cost_Per_Flight") = Ok cells /\
    mapR as_float cells = Ok totals /\
    sort_values_desc sort_desc (filtered_summary d) (L "Total_Cost_Per_Flight")
    = Ok sorted /\
    top5 d = df_head 5 sorted /\
    melt (top5 d) (L "Flight") (L "Cost Type") (L "Cost") = Ok molten /\
    where_ne molten (L "Cost Type") (L "Total_Cost_Per_Flight") = Ok (melted d) /\
    groupby_sum group_order (filtered_viz d) (L "Time Period")
                (L "Total_Cost_Per_Flight") = Ok (time_df d) /\
    groupby_sum group_order (filtered_viz d) (L "Destination Code")
                (L "Total_Cost_Per_Flight") = Ok by_dest /\
    sort_values_desc sort_desc by_dest (L "Total_Cost_Per_Flight") = Ok dest_sorted /\
    dest_df d = df_head 10 dest_sorted /\
    groupby_sum group_order (filtered_viz d) (L "Continent")
                (L "Total_Cost_Per_Flight") = Ok (cont_df d) /\
    pie_data (top5 d) = Ok (pie_df d) /\
    total_flights d = length (rows (filtered_summary d)) /\
    total_cost d = nansum totals /\
    average_cost d = nanmean totals /\
    highest_cost d = nanmax totals.
Proof.
  unfold dashboard.
  intros (right & Hright & H)%bind_Ok_inv.
  apply bind_Ok_inv in H as (viz' & Hviz & H).
  apply bind_Ok_inv in H as (continents & Hcont & H).
  apply bind_Ok_inv in H as (copts & Hcopts & H).
  apply bind_Ok_inv in H as (dests & Hdest & H).
  apply bind_Ok_inv in H as (dopts & Hdopts & H).
  apply bind_Ok_inv in H as (fv & Hfv & H).
  apply bind_Ok_inv in H as (flights & Hfl & H).
  apply bind_Ok_inv in H as (fs & Hfs & H).
  apply bind_Ok_inv in H as (cells & Hcells & H).
  apply bind_Ok_inv in H as (totals & Htotals & H).
  apply bind_Ok_inv in H as (sorted & Hsorted & H).
  apply bind_Ok_inv in H as (molten & Hmolten & H).
  apply bind_Ok_inv in H as (melted' & Hmelted & H).
  apply bind_Ok_inv in H as (time' & Htime & H).
  apply bind_Ok_inv in H as (by_dest & Hby & H).
  apply bind_Ok_inv in H as (dest_sorted & Hds & H).
  apply bind_Ok_inv in H as (cont' & Hcd & H).
  apply bind_Ok_inv in H as (pie' & Hpie & H).
  injection H as <-. simpl.
  exists right, continents, dests, flights, cells, totals, sorted, molten, by_dest,
         dest_sorted.
  by split_and!.
Qed.

(** *** The figures of the dashboard *)

Lemma df_sum_axis1_Fin df totals :
  df_sum_axis1 df = Ok totals ->
  exists qs : list Qc, totals = map (fun q => VNum (Fin q)) qs.
Proof.
  unfold df_sum_axis1. generalize (rows df). intros rs. revert totals.
  induction rs as [|r rs IH]; intros totals; simpl.
  - intros [= <-]. by exists [].
  - intros (t & Ht & H)%bind_Ok_inv.
    apply bind_Ok_inv in H as (ts & Hts & H). injection H as <-.
    apply bind_Ok_inv in Ht as (xs & _ & Ht). injection Ht as <-.
    destruct (IH _ Hts) as [qs ->].
    exists (sumQ (map numQ xs) :: qs). simpl. by rewrite nansum_Fin.
Qed.

Lemma df_drop_rows df label df' :
  df_drop df label = Ok df' ->
  label ∈ columns df /\ length (rows df') = length (rows df).
Proof.
  unfold df_drop. case_decide; [|done]. intros [= <-]. simpl.
  by rewrite length_map.
Qed.

Lemma allocation_totals_Fin rated ev costs :
  allocation_matrix rated ev = Ok costs ->
  exists qs : list Qc,
    df_getitem costs (L "Total_Cost_Per_Flight") = Ok (map (fun q => VNum (Fin q)) qs).
Proof.
  unfold allocation_matrix. intros (costs_data & _ & H)%bind_Ok_inv.
  apply bind_Ok_inv in H as (dropped & Hdrop & H).
  apply bind_Ok_inv in H as (totals & Htotals & H). injection H as <-.
  apply df_drop_rows in Hdrop as [Hin Hlen].
  pose proof (mapR_length _ _ _ Htotals) as Hlen'.
  destruct (df_sum_axis1_Fin _ _ Htotals) as [qs ->]. exists qs.
  rewrite df_getitem_Ok by apply df_setitem_columns_in.
  rewrite df_setitem_column_eq; [done| |congruence].
  intros Heq. rewrite Heq in Hin. by apply not_elem_of_nil in Hin.
Qed.

(** The totals of the summary are numbers, none missing. *)
Lemma summary_totals_Fin c e out r :
  run c e = Ok out -> r ∈ rows (Summary out) ->
  exists q : Qc, series_get r (L "Total_Cost_Per_Flight") (VNum NaN) = VNum (Fin q).
Proof.
  intros (_ & _ & Hcosts & Hs & _)%run_Ok_inv Hr.
  destruct (summary_flight_total _ _ _ Hs) as (fl & tot & _ & Htot & _ & Hstot & _).
  destruct (allocation_totals_Fin _ _ _ Hcosts) as [qs Hqs].
  assert (tot = map (fun q => VNum (Fin q)) qs) as -> by congruence.
  apply df_getitem_Ok_inv in Hstot.
  apply list_elem_of_lookup in Hr as [i Hi].
  assert (map (fun q => VNum (Fin q)) qs !! i
          = Some (series_get r (L "Total_Cost_Per_Flight") (VNum NaN))) as Hl
    by (by rewrite Hstot, list_lookup_fmap, Hi).
  rewrite list_lookup_fmap in Hl. destruct (qs !! i) as [q|]; [|done].
  exists q. by injection Hl.
Qed.

Lemma dropna_Fin (qs : list Qc) : dropna (map Fin qs) = qs.
Proof. induction qs as [|q qs IH]; simpl; [done|]. by rewrite IH. Qed.



Lemma max_fold_spec (q : Qc) (qs : list Qc) :
  let m := foldr (fun x m => if decide (m <= x)%Qc then x else m) q qs in
  m ∈ q :: qs /\ forall x, x ∈ q :: qs -> (x <= m)%Qc.
Proof.
  induction qs as [|y qs IH]; simpl.
  - split; [by constructor|]. intros x ->%list_elem_of_singleton. apply Qcle_refl.
  - destruct IH as [Hin Hmax]. simpl in Hin, Hmax.
    set (m := foldr _ q qs) in *. case_decide as Hle.
    + split; [by do 2 constructor|].
      intros x [->|[->|Hx]%elem_of_cons]%elem_of_cons.
      * eapply Qcle_trans; [|exact Hle]. apply Hmax. by constructor.
      * apply Qcle_refl.
      * eapply Qcle_trans; [|exact Hle]. apply Hmax. by constructor.
    + apply Qcnot_le_lt, Qclt_le_weak in Hle. split.
      * apply elem_of_cons in Hin as [->|Hin]; [by constructor|by do 2 constructor].
      * intros x [->|[->|Hx]%elem_of_cons]%elem_of_cons.
        -- apply Hmax. by constructor.
        -- done.
        -- apply Hmax. by constructor.
Qed.

Lemma map_Fin_cells {A} (f : A -> value) (l : list A) :
  (forall x, x ∈ l -> exists q : Qc, f x = VNum (Fin q)) ->
  exists qs : list Qc, map f l = map (fun q => VNum (Fin q)) qs.
Proof.
  induction l as [|x l IH]; intros H.
  - by exists [].
  - destruct (H x) as [q Hq]; [by constructor|].
    destruct IH as [qs Hqs]; [intros y Hy; apply H; by constructor|].
    exists (q :: qs). simpl. by rewrite Hq, Hqs.
Qed.

Lemma mapR_as_float_Fin (qs : list Qc) :
  mapR as_float (map (fun q => VNum (Fin q)) qs) = Ok (map Fin qs).
Proof. induction qs as [|q qs IH]; simpl; [done|]. by rewrite IH. Qed.

Lemma where_isin_Ok df label vals df' :
  where_isin df label vals = Ok df' ->
  columns df' = columns df /\
  rows df' = filter (fun r : Series => series_get r label (VNum NaN) ∈ vals) (rows df).
Proof. unfold where_isin. case_decide; [|done]. by intros [= <-]. Qed.

Lemma sort_values_desc_Ok df label sorted :
  sort_values_desc sort_desc df label = Ok sorted ->
  exists keys,
    mapR as_float (map (fun r => series_get r label (VNum NaN)) (rows df)) = Ok keys /\
    columns sorted = columns df /\
    rows sorted = omap (fun i => rows df !! i) (sort_desc keys).
Proof.
  unfold sort_values_desc. intros (cells & Hcells & H)%bind_Ok_inv.
  apply bind_Ok_inv in H as (keys & Hkeys & H). injection H as <-.
  apply df_getitem_Ok_inv in Hcells as ->. by exists keys.
Qed.

Lemma pie_data_Ok t p : pie_data t = Ok p -> rows t <> [].
Proof. unfold pie_data. by destruct (rows t). Qed.

(** The flights the dashboard counts and their totals, for a dashboard
    that came about. *)
Lemma dashboard_totals c e out sel d :
  run c e = Ok out ->
  dashboard sort_desc group_order (Summary out) (Visual out) sel = Ok d ->
  exists qs : list Qc,
    qs <> [] /\
    map (fun r => series_get r (L "Total_Cost_Per_Flight") (VNum NaN))
        (rows (filtered_summary d))
    = map (fun q => VNum (Fin q)) qs /\
    df_getitem (filtered_summary d) (L "Total_Cost_Per_Flight")
    = Ok (map (fun q => VNum (Fin q)) qs) /\
    total_flights d = length qs /\
    total_cost d = nansum (map Fin qs) /\
    average_cost d = nanmean (map Fin qs) /\
    highest_cost d = nanmax (map Fin qs) /\
    exists sorted,
      sort_values_desc sort_desc (filtered_summary d) (L "Total_Cost_Per_Flight")
      = Ok sorted /\
      rows sorted = omap (fun i => rows (filtered_summary d) !! i)
                         (sort_desc (map Fin qs)) /\
      top5 d = df_head 5 sorted.
Proof.
  intros Hrun Hd.
  destruct (dashboard_Ok_inv _ _ _ _ Hd)
    as (right & continents & dests & flights & cells & totals & sorted & molten
        & by_dest & dest_sorted & _ & _ & _ & _ & _ & _ & _ & _ & Hfs & Hcells
        & Htotals & Hsorted & Htop & _ & _ & _ & _ & _ & _ & _ & Hpie & Hn & Hsum
        & Havg & Hmax).
  destruct (where_isin_Ok _ _ _ _ Hfs) as [Hcols Hrows].
  destruct (map_Fin_cells
              (fun r => series_get r (L "Total_Cost_Per_Flight") (VNum NaN))
              (rows (filtered_summary d))) as [qs Hqs].
  { intros r Hr. apply (summary_totals_Fin c e out r Hrun).
    rewrite Hrows in Hr. by apply list_elem_of_filter in Hr as [_ Hr]. }
  pose proof Hcells as Hcells'. apply df_getitem_Ok_inv in Hcells'.
  rewrite Hqs in Hcells'. subst cells.
  rewrite mapR_as_float_Fin in Htotals. injection Htotals as <-.
  destruct (sort_values_desc_Ok _ _ _ Hsorted) as (keys & Hkeys & _ & Hsrows).
  rewrite Hqs, mapR_as_float_Fin in Hkeys. injection Hkeys as <-.
  exists qs. split_and!; try done.
  - intros ->. apply pie_data_Ok in Hpie. apply Hpie.
    rewrite Htop. simpl. rewrite Hsrows. simpl. by rewrite sort_desc_nil.
  - rewrite Hn.
    rewrite <- (length_map (fun r => series_get r (L "Total_Cost_Per_Flight")
                                                 (VNum NaN))), Hqs.
    by rewrite length_map.
  - by exists sorted.
Qed.


Lemma omap_lookup_total {A} (l : list A) (ps : list nat) i :
  (forall p, p ∈ ps -> p < length l) ->
  omap (fun p => l !! p) ps !! i = ps !! i ≫= (fun p => l !! p).
Proof.
  revert i. induction ps as [|p ps IH]; intros i Hlt; simpl; [done|].
  destruct (lookup_lt_is_Some_2 l p) as [x Hx]; [apply Hlt; by constructor|].
  rewrite Hx. destruct i as [|i]; simpl; [done|].
  apply IH. intros q Hq. apply Hlt. by constructor.
Qed.

Lemma omap_length_total {A} (l : list A) (ps : list nat) :
  (forall p, p ∈ ps -> p < length l) ->
  length (omap (fun p => l !! p) ps) = length ps.
Proof.
  induction ps as [|p ps IH]; intros Hlt; simpl; [done|].
  destruct (lookup_lt_is_Some_2 l p) as [x Hx]; [apply Hlt; by constructor|].
  rewrite Hx. simpl. f_equal. apply IH. intros q Hq. apply Hlt. by constructor.
Qed.

Lemma sort_desc_positions (keys : list num) p :
  p ∈ sort_desc keys <-> p < length keys.
Proof.
  rewrite (sort_desc_perm keys), elem_of_seq. lia.
Qed.

(** The rows of a table sorted by a float column none of whose cells is
    missing. *)
Lemma sorted_rows (f : Series -> value) (rs : list Series) (qs : list Qc) :
  map f rs = map (fun q => VNum (Fin q)) qs ->
  let srt := omap (fun p => rs !! p) (sort_desc (map Fin qs)) in
  length srt = length rs /\
  (forall i r, srt !! i = Some r ->
     exists p q, sort_desc (map Fin qs) !! i = Some p /\ rs !! p = Some r /\
                 qs !! p = Some q /\ f r = VNum (Fin q)) /\
  (forall p r, rs !! p = Some r ->
     exists i, sort_desc (map Fin qs) !! i = Some p /\ srt !! i = Some r).
Proof.
  intros Hqs srt.
  assert (length rs = length qs) as Hlen.
  { rewrite <- (length_map f rs), Hqs. by rewrite length_map. }
  assert (forall p, p ∈ sort_desc (map Fin qs) -> p < length rs) as Hlt.
  { intros p Hp%sort_desc_positions. rewrite length_map in Hp. lia. }
  split_and!.
  - unfold srt. rewrite omap_length_total by done.
    rewrite (sort_desc_perm (map Fin qs)), length_seq, length_map. lia.
  - intros i r Hi. unfold srt in Hi. rewrite omap_lookup_total in Hi by done.
    destruct (sort_desc (map Fin qs) !! i) as [p|] eqn:Hp; simpl in Hi; [|done].
    destruct (lookup_lt_is_Some_2 qs p) as [q Hq].
    { rewrite <- Hlen. by eapply lookup_lt_Some. }
    exists p, q. split_and!; try done.
    assert (map f rs !! p = Some (f r)) as Hl by (by rewrite list_lookup_fmap, Hi).
    rewrite Hqs, list_lookup_fmap, Hq in Hl. by injection Hl.
  - intros p r Hp.
    assert (p ∈ sort_desc (map Fin qs)) as Hin.
    { apply sort_desc_positions. rewrite length_map, <- Hlen.
      by eapply lookup_lt_Some. }
    apply list_elem_of_lookup in Hin as [i Hi]. exists i. split; [done|].
    unfold srt. rewrite omap_lookup_total by done. by rewrite Hi.
Qed.

(** X17.  The top flights of a dashboard that came about: the five costliest
    flights among those counted (all of them when they are fewer), the
    costliest first; a flight left out costs no more than any flight
    listed, and the first one's total is the Highest Cost Flight figure. *)
Theorem top_flights (c e : DataFrame) sel d :
  run_dashboard sort_desc group_order c e sel = Ok d ->
  let total (r : Series) := series_get r (L "Total_Cost_Per_Flight") (VNum NaN) in
  length (rows (top5 d)) = min 5 (total_flights d) /\
  (forall r, r ∈ rows (top5 d) -> r ∈ rows (filtered_summary d)) /\
  (forall i j ri rj,
      i < j -> rows (top5 d) !! i = Some ri -> rows (top5 d) !! j = Some rj ->
      exists qi qj : Qc,
        total ri = VNum (Fin qi) /\ total rj = VNum (Fin qj) /\ (qj <= qi)%Qc) /\
  (forall r, r ∈ rows (filtered_summary d) ->
      r ∈ rows (top5 d) \/
      forall r', r' ∈ rows (top5 d) ->
        exists q q' : Qc,
          total r = VNum (Fin q) /\ total r' = VNum (Fin q') /\ (q <= q')%Qc) /\
  (exists r0 m,
      rows (top5 d) !! 0 = Some r0 /\ total r0 = VNum (Fin m) /\
      highest_cost d = Fin m).
Proof.
  intros (out & Hrun & Hd)%bind_Ok_inv. cbv zeta.
  set (total := fun r : Series =>
                  series_get r (L "Total_Cost_Per_Flight") (VNum NaN)).
  destruct (dashboard_totals _ _ _ _ _ Hrun Hd)
    as (qs & Hne & Hqs & _ & Hn & _ & _ & Hmax & sorted & _ & Hsrows & Htop).
  destruct (sorted_rows total _ _ Hqs) as (Hlen & Hfwd & Hbwd).
  rewrite <- Hsrows in Hlen, Hfwd, Hbwd.
  assert (rows (top5 d) = take 5 (rows sorted)) as Hrows by (by rewrite Htop).
  assert (forall i r, rows (top5 d) !! i = Some r ->
            i < 5 /\ rows sorted !! i = Some r) as Htake.
  { intros i r. rewrite Hrows. intros Hi.
    apply lookup_take_Some in Hi as [? ?]. done. }
  assert (forall i j a b qa qb,
            i < j -> sort_desc (map Fin qs) !! i = Some a ->
            sort_desc (map Fin qs) !! j = Some b ->
            qs !! a = Some qa -> qs !! b = Some qb -> (qb <= qa)%Qc) as Hdesc.
  { intros i j a b qa qb Hij Ha Hb Hqa Hqb.
    apply (sort_desc_sorted (map Fin qs) i j a b (Fin qa) (Fin qb) Hij Ha Hb);
      by rewrite list_lookup_fmap, ?Hqa, ?Hqb. }
  split_and!.
  - pose proof (f_equal length Hqs) as Hlq. rewrite !length_map in Hlq.
    rewrite Hrows, length_take, Hlen, Hn. lia.
  - intros r [i Hi]%list_elem_of_lookup.
    destruct (Htake i r Hi) as [_ Hs].
    destruct (Hfwd i r Hs) as (p & q & _ & Hp & _). by eapply list_elem_of_lookup_2.
  - intros i j ri rj Hij [_ Hi]%Htake [_ Hj]%Htake.
    destruct (Hfwd i ri Hi) as (a & qa & Ha & _ & Hqa & Hta).
    destruct (Hfwd j rj Hj) as (b & qb & Hb & _ & Hqb & Htb).
    exists qa, qb. split_and!; try done. by apply (Hdesc i j a b).
  - intros r [p Hp]%list_elem_of_lookup.
    destruct (Hbwd p r Hp) as (k & Hk & Hsk).
    destruct (decide (k < 5)) as [Hk5|Hk5].
    + left. apply (list_elem_of_lookup_2 _ k). rewrite Hrows.
      by apply lookup_take_Some.
    + right. intros r' [i Hi]%list_elem_of_lookup.
      destruct (Htake i r' Hi) as [Hi5 Hsi].
      destruct (Hfwd i r' Hsi) as (a & qa & Ha & _ & Hqa & Hta).
      destruct (Hfwd k r Hsk) as (b & qb & Hb & _ & Hqb & Htb).
      exists qb, qa. split_and!; try done. apply (Hdesc i k a b); [lia|done..].
  - destruct (rows sorted) as [|r0 rest] eqn:Hs.
    { simpl in Hlen.
      destruct qs; [done|]. apply (f_equal length) in Hqs.
      rewrite !length_map in Hqs. simpl in Hqs. lia. }
    destruct (Hfwd 0 r0 eq_refl) as (a & qa & Ha & _ & Hqa & Hta).
    exists r0, qa. split_and!; [by rewrite Hrows|done|].
    rewrite Hmax. unfold nanmax. rewrite dropna_Fin.
    destruct qs as [|q0 qs']; [done|]. f_equal.
    destruct (max_fold_spec q0 qs') as [Hin Hle]. simpl in Hin, Hle.
    set (m := foldr _ q0 qs') in *.
    apply Qcle_antisym.
    + apply list_elem_of_lookup in Hin as [b Hb].
      assert (b ∈ sort_desc (map Fin (q0 :: qs'))) as Hbin.
      { apply sort_desc_positions. rewrite length_map. by eapply lookup_lt_Some. }
      apply list_elem_of_lookup in Hbin as [k Hk].
      destruct k as [|k].
      * assert (a = b) as -> by congruence. assert (qa = m) as -> by congruence.
        apply Qcle_refl.
      * apply (Hdesc 0 (S k) a b); [lia|done..].
    + apply Hle. by eapply list_elem_of_lookup_2.
Qed.

(** *** The merge of the totals into the table of the visuals *)














(** *** What the bars add up to *)















(** *** The stacked bars of the top flights *)






(** *** No filter *)



(** *** The pie of the top flight *)



End DashboardFacts.

End Engine.

(** ** The worked example, run

    Each claim's theorem at the worked example, every hypothesis discharged
    by evaluation. *)

Ltac by_compute := apply (bool_decide_unpack _); vm_compute; exact I.

Ltac wf_compute := unfold wf_activities; split_and!; by_compute.

Lemma rate_per_driver_unit_witness :
  run example_repr example_to_datetime example_cost example_events = Ok example_out /\
  rows (RatedCostPool example_out) !! 1 = Some example_catering /\
  exists du : Qc,
    getitem example_catering (L "Driver_Units") = Ok (VNum (Fin du)) /\
    (du <> 0%Qc ->
     exists tc, getitem example_catering (L "Total_Cost") = Ok (VNum tc) /\
                getitem example_catering (L "RatePerDriverUnit")
                = Ok (VNum (num_div tc (Fin du)))) /\
    (du = 0%Qc -> getitem example_catering (L "RatePerDriverUnit") = Ok zero).
Proof.
  split_and!; [by_compute|reflexivity|].
  apply (proj2 (proj1 (proj2 (rate_per_driver_unit example_repr example_to_datetime
                                example_cost example_events))
                  example_out ltac:(by_compute)) 1).
  reflexivity.
Defined.





Lemma time_period_classification_witness :
  get_time_period (datetime_cell (Some (mkTimestamp 19783 6 30 0))) = Ok (L "Morning") /\
  get_time_period (datetime_cell (Some (mkTimestamp 19783 22 15 0))) = Ok (L "Night") /\
  exists t p,
    getitem example_visual_row2 (L "Departure Time") = Ok t /\
    (isna t = true \/ exists ts, t = VTime ts) /\
    get_time_period t = Ok p /\
    getitem example_visual_row2 (L "Time Period") = Ok p.
Proof.
  pose proof (time_period_classification example_repr example_to_datetime)
    as (_ & _ & Hhour & Hrun).
  split_and!.
  - apply (Hhour (mkTimestamp 19783 6 30 0)). simpl. lia.
  - apply (Hhour (mkTimestamp 19783 22 15 0)). simpl. lia.
  - apply (Hrun example_cost example_events example_out 1); [by_compute|reflexivity].
Defined.


Lemma deterministic_idempotent_witness :
  let h1 := [example_cost; example_events] in
  let h2 := [example_events; empty_frame; example_cost] in
  h1 !! 0 = Some example_cost /\ h1 !! 1 = Some example_events /\
  h2 !! 2 = Some example_cost /\ h2 !! 0 = Some example_events /\
  fst <$> main example_repr example_to_datetime 0 1 h1
  = fst <$> main example_repr example_to_datetime 2 0 h2 /\
  fst <$> main example_repr example_to_datetime 0 1 h1
  = run example_repr example_to_datetime example_cost example_events /\
  (forall out h1',
      main example_repr example_to_datetime 0 1 h1 = Ok (out, h1') ->
      (forall l d, h1 !! l = Some d -> h1' !! l = Some d) /\
      fst <$> main example_repr example_to_datetime 0 1 h1' = Ok out).
Proof.
  intros h1 h2. do 4 (split; [reflexivity|]).
  apply (deterministic_idempotent example_repr example_to_datetime h1 h2 0 1 2 0
           example_cost example_events); reflexivity.
Defined.



(** ** The orders of the worked example *)

Lemma example_sort_desc_perm (keys : list num) :
  example_sort_desc keys ≡ₚ seq 0 (length keys).
Proof.
  unfold example_sort_desc. rewrite insertion_sort_perm.
  rewrite snd_zip; [done|]. by rewrite length_seq.
Qed.

Lemma desc_leb_total (a b : num * nat) : desc_leb a b = false -> desc_leb b a = true.
Proof.
  unfold desc_leb. destruct a as [[|p] i], b as [[|q] j]; simpl; try done.
  intros Hle%bool_decide_eq_false_1. apply bool_decide_eq_true_2.
  by apply Qclt_le_weak, Qcnot_le_lt.
Qed.

Lemma desc_leb_trans (a b c : num * nat) :
  desc_leb a b = true -> desc_leb b c = true -> desc_leb a c = true.
Proof.
  unfold desc_leb. destruct a as [[|p] i], b as [[|q] j], c as [[|r] k]; simpl;
    try done.
  intros H1%bool_decide_eq_true_1 H2%bool_decide_eq_true_1.
  apply bool_decide_eq_true_2. by eapply Qcle_trans.
Qed.

Lemma example_sort_desc_sorted (keys : list num) i j a b x y :
  i < j -> example_sort_desc keys !! i = Some a -> example_sort_desc keys !! j = Some b ->
  keys !! a = Some x -> keys !! b = Some y -> before_desc x y.
Proof.
  unfold example_sort_desc. intros Hij Ha Hb Hx Hy.
  rewrite list_lookup_fmap in Ha, Hb.
  destruct (insertion_sort desc_leb (zip keys (seq 0 (length keys))) !! i)
    as [[x' a']|] eqn:Hi; [|done].
  destruct (insertion_sort desc_leb (zip keys (seq 0 (length keys))) !! j)
    as [[y' b']|] eqn:Hj; [|done].
  simpl in Ha, Hb. injection Ha as ->. injection Hb as ->.
  assert (forall z p, (z, p) ∈ zip keys (seq 0 (length keys)) -> keys !! p = Some z)
    as Hzip.
  { intros z p [k Hk]%list_elem_of_lookup.
    apply lookup_zip_with_Some in Hk as (z' & p' & [= -> ->] & Hz & Hp).
    apply lookup_seq in Hp as [-> _]. done. }
  assert (x' = x) as ->.
  { apply list_elem_of_lookup_2 in Hi. rewrite insertion_sort_perm in Hi.
    apply Hzip in Hi. congruence. }
  assert (y' = y) as ->.
  { apply list_elem_of_lookup_2 in Hj. rewrite insertion_sort_perm in Hj.
    apply Hzip in Hj. congruence. }
  pose proof (sorted_by_strong desc_leb _ desc_leb_trans
                (insertion_sort_sorted desc_leb _
                   (fun a b _ _ => desc_leb_total a b))
                i j (x, a) (y, b) Hij Hi Hj) as Hle.
  unfold desc_leb in Hle. simpl in Hle. unfold before_desc.
  destruct x, y; try done. by apply bool_decide_eq_true_1 in Hle.
Qed.

Lemma example_group_order_perm (l l' : list value) :
  example_group_order l = Ok l' -> l' ≡ₚ l.
Proof. by intros [= <-]. Qed.

Lemma example_group_order_texts (l : list value) :
  Forall (fun v => exists s, v = VStr s) l -> exists l', example_group_order l = Ok l'.
Proof. intros _. by exists l. Qed.


(** ** The further properties at the worked examples *)

Lemma empty_event_sheet_witness :
  run example_repr example_to_datetime example_cost example_no_rows = Raise IndexError.
Proof.
  apply (empty_event_sheet example_repr example_to_datetime example_cost example_no_rows);
    [by_compute|reflexivity].
Defined.

Lemma no_flight_rows_witness :
  rated_cost_pool example_repr example_cost example_totals_only = Ok example_rated /\
  run example_repr example_to_datetime example_cost example_totals_only = Raise KeyError.
Proof.
  split; [by_compute|].
  apply (no_flight_rows example_repr example_to_datetime example_cost
           example_totals_only example_totals example_rated);
    [by_compute|done|reflexivity|by_compute].
Defined.

Lemma missing_departure_time_witness :
  (L "Departure Time" ∉ columns example_undated) /\
  run example_repr example_to_datetime example_cost example_undated = Raise KeyError.
Proof.
  split; [by_compute|].
  eapply (proj2 (missing_departure_time example_repr example_to_datetime example_cost
                   example_undated ltac:(by_compute)));
    [by_compute|done|vm_compute; reflexivity|vm_compute; reflexivity
    |vm_compute; reflexivity|done].
Defined.




Lemma zero_units_unallocated_witness :
  exists out A,
    run example_repr example_to_datetime example_lounge example_events = Ok out /\
    rows (RatedCostPool out) !! 0 = Some A /\
    getitem A (L "Driver_Units") = Ok zero /\
    getitem A (L "RatePerDriverUnit") = Ok zero /\
    (forall i F cost_row,
        rows (iloc_init example_events) !! i = Some F ->
        rows (AllocationMatrix out) !! i = Some cost_row ->
        series_lookup (L "Visits") F = None \/
        (exists x, series_lookup (L "Visits") F = Some (VNum (Fin x))) ->
        getitem cost_row (L "Lounge") = Ok zero).
Proof.
  eexists _, _. split; [vm_compute; reflexivity|].
  split; [reflexivity|]. split; [reflexivity|].
  eapply (zero_units_unallocated example_repr example_to_datetime example_lounge
            example_events _ 0 _ (L "Lounge") (L "Visits"));
    [vm_compute; reflexivity|wf_compute|reflexivity..].
Defined.

Lemma driver_name_padding_witness :
  let du := driver_units example_repr example_totals
                         (select_dtypes_number example_events) in
  get_driver_units example_repr du (L " Distance  ")
  = get_driver_units example_repr du (L "Distance") /\
  get_driver_units example_repr du (L "Distance") = number 500 1.
Proof.
  split; [|reflexivity].
  apply (driver_name_padding example_repr example_totals
           (select_dtypes_number example_events) " " "Distance" "  ");
    reflexivity.
Defined.

Lemma later_column_wins_witness :
  driver_units example_repr [(L "Bags", number 1 1); (L " Bags", number 2 1)]
               [L "Bags"; L " Bags"] !! "Bags" = Some (number 2 1).
Proof.
  apply (later_column_wins example_repr [(L "Bags", number 1 1); (L " Bags", number 2 1)]
           [L "Bags"] [] (L " Bags") (number 2 1));
    [reflexivity|reflexivity|].
  intros k' Hk'. by apply elem_of_nil in Hk'.
Defined.

Lemma duplicate_activity_last_wins_witness :
  let second := example_rated_row
                  (example_activity "Fuel" "Direct" (number 600 1) "Bags")
                  (number 30 1) (number 20 1) in
  exists row_cost,
    allocate_row example_repr [example_fuel; second] example_flight2 = Ok row_cost /\
    allocated_cost example_flight2 second = Ok (number 600 1) /\
    getitem row_cost (L "Fuel") = Ok (number 600 1).
Proof.
  intros second. eexists. split; [vm_compute; reflexivity|].
  destruct (duplicate_activity_last_wins example_repr [example_fuel] [] second
              example_flight2 _ (L "Fuel") ltac:(vm_compute; reflexivity) eq_refl)
    as (cell & Hcell & Hget).
  - intros B HB. by apply elem_of_nil in HB.
  - split; [by_compute|]. rewrite Hget, <- Hcell. by_compute.
Defined.


Lemma select_sheets_spec_witness :
  select_sheets (example_workbook.*1) = Ok ("COST pools", "Flight Events") /\
  exists cost_sheet event_sheet,
    select_sheets (example_workbook.*1) = Ok (cost_sheet, event_sheet) /\
    chosen "cost" 0 (example_workbook.*1) cost_sheet /\
    chosen "event" 1 (example_workbook.*1) event_sheet /\
    cost_sheet ∈ example_workbook.*1 /\ event_sheet ∈ example_workbook.*1.
Proof.
  split; [reflexivity|].
  apply (select_sheets_spec (example_workbook.*1)). simpl. lia.
Defined.

Lemma single_sheet_workbook_witness :
  select_sheets ([("Flight Events", example_events)].*1) = Raise IndexError /\
  upload_run example_repr example_to_datetime [("Flight Events", example_events)]
  = Raise IndexError.
Proof.
  apply (single_sheet_workbook example_repr example_to_datetime
           [("Flight Events", example_events)]).
  simpl. lia.
Defined.

Lemma upload_run_is_run_witness :
  upload_run example_repr example_to_datetime example_workbook
  = run example_repr example_to_datetime example_cost example_events.
Proof.
  apply (upload_run_is_run example_repr example_to_datetime example_workbook
           "COST pools" "Flight Events" example_cost example_events);
    [by_compute|reflexivity|by_compute|by_compute].
Defined.

Lemma dashboard_needs_filter_columns_witness :
  run example_repr example_to_datetime example_cost example_events = Ok example_out /\
  (L "Continent" ∉ columns example_events) /\
  run_dashboard example_repr example_to_datetime example_sort_desc example_group_order
                example_cost example_events no_filter = Raise KeyError.
Proof.
  split; [by_compute|]. split; [by_compute|].
  apply (dashboard_needs_filter_columns example_repr example_to_datetime
           example_sort_desc example_group_order example_cost example_events
           example_out no_filter);
    [by_compute|by_compute|left; by_compute|by_compute].
Defined.

Lemma no_flight_selected_witness :
  run_dashboard example_repr example_to_datetime example_sort_desc example_group_order
                example_cost example_trips
                (mkFilters (L "Asia") (L "LHR") (L "All")) = Raise IndexError.
Proof.
  eapply (no_flight_selected example_repr example_to_datetime example_sort_desc
            example_group_order example_sort_desc_perm example_group_order_perm
            example_group_order_texts example_cost example_trips);
    [vm_compute; reflexivity|by_compute|vm_compute; reflexivity..].
Defined.


Lemma top_flights_witness :
  exists d,
    run_dashboard example_repr example_to_datetime example_sort_desc example_group_order
                  example_cost example_trips no_filter = Ok d /\
    let total (r : Series) := series_get r (L "Total_Cost_Per_Flight") (VNum NaN) in
    length (rows (top5 d)) = min 5 (total_flights d) /\
    (forall r, r ∈ rows (top5 d) -> r ∈ rows (filtered_summary d)) /\
    (forall i j ri rj,
        i < j -> rows (top5 d) !! i = Some ri -> rows (top5 d) !! j = Some rj ->
        exists qi qj : Qc,
          total ri = VNum (Fin qi) /\ total rj = VNum (Fin qj) /\ (qj <= qi)%Qc) /\
    (forall r, r ∈ rows (filtered_summary d) ->
        r ∈ rows (top5 d) \/
        forall r', r' ∈ rows (top5 d) ->
          exists q q' : Qc,
            total r = VNum (Fin q) /\ total r' = VNum (Fin q') /\ (q <= q')%Qc) /\
    (exists r0 m,
        rows (top5 d) !! 0 = Some r0 /\ total r0 = VNum (Fin m) /\
        highest_cost d = Fin m).
Proof.
  eexists. split; [vm_compute; reflexivity|].
  apply (top_flights example_repr example_to_datetime example_sort_desc
           example_group_order example_sort_desc_perm example_sort_desc_sorted
           example_cost example_trips no_filter).
  vm_compute; reflexivity.
Defined.








Lemma filter_options_witness :
  options [L "Europe"; missing; L "Asia"; L "Europe"]
  = Ok [L "All"; L "Asia"; L "Europe"] /\
  options [L "Europe"; number 7 1] = Raise TypeError /\
  exists sorted,
    [L "All"; L "Asia"; L "Europe"] = L "All" :: sorted /\ NoDup sorted /\
    (forall v, v ∈ sorted <->
               v ∈ [L "Europe"; missing; L "Asia"; L "Europe"] /\ notna v = true) /\
    sorted_by py_le sorted = true.
Proof.
  split; [reflexivity|]. split; [reflexivity|].
  exact (filter_options [L "Europe"; missing; L "Asia"; L "Europe"]).
Defined.
